(** * mruby/c String object ([src/c_string.c]): a shallow embedding

    The C functions of [c_string.c] are written as programs of a small
    state-and-fault monad over an explicit heap.  A run either returns a
    value and a new machine state, or stops with a [fault] where the C
    program would leave defined behaviour (a read outside a block, a use
    of a released block, a null dereference). *)

From Stdlib Require Import ZArith Lia.
From Stdlib.Strings Require Import Byte.
From stdpp Require Import base option list gmap strings.

Open Scope Z_scope.

(** ** Machine integers *)

(** [int] is a 32-bit two's-complement integer held in a [Z]; every
    arithmetic result of type [int] goes through [wrap32]. *)
Definition INT_MIN : Z := -2147483648.
Definition INT_MAX : Z := 2147483647.

Definition wrap32 (z : Z) : Z := (z + 2147483648) mod 4294967296 - 2147483648.

Definition int_range (z : Z) : Prop := INT_MIN <= z <= INT_MAX.

(** ** Bytes and characters *)

Global Instance byte_eq_decision : EqDecision byte := Byte.byte_eq_dec.

(** The value of a byte read through [uint8_t *]. *)
Definition uint8_to_Z (b : byte) : Z := Z.of_N (Byte.to_N b).

(** Conversion of an [int] to [uint8_t] (and to the bit pattern of a
    [char]): reduction modulo 256. *)
Definition byte_of_Z (z : Z) : byte :=
  match Byte.of_N (Z.to_N (z mod 256)) with
  | Some b => b
  | None => x00
  end.

(** The value of a byte read through plain [char *].  Whether plain
    [char] is signed is fixed by the C implementation, so it is a
    parameter of the embedding. *)
Definition char_to_int (char_signed : bool) (b : byte) : Z :=
  let z := uint8_to_Z b in
  if char_signed then (if 128 <=? z then z - 256 else z) else z.

(** ** Values *)

(** Modelled from the spec: the type tags of [value.h], which is not
    among the sources.  The tags are those [c_string.c] names or sets
    through the return macros; every other tag of the runtime is an
    [MRB_TT_OTHER]. *)
Inductive mrb_vtype : Type :=
| MRB_TT_NIL
| MRB_TT_FALSE
| MRB_TT_TRUE
| MRB_TT_FIXNUM
| MRB_TT_STRING
| MRB_TT_OTHER (tag : Z).

Global Instance mrb_vtype_eq_decision : EqDecision mrb_vtype.
Proof. solve_decision. Defined.

(** Modelled from the spec: the value slot of [value.h], a type tag and
    a union of which [c_string.c] uses the member [i] and the member
    [handle] (a block identifier, [None] for [NULL]). *)
Inductive payload : Type :=
| U_i (i : Z)
| U_handle (h : option nat).

Record mrb_value : Type := mk_value { tt : mrb_vtype; u : payload }.

(** A pointer into a byte block. *)
Record ptr : Type := mk_ptr { pblock : nat; poff : Z }.

Definition ptr_add (p : ptr) (n : Z) : ptr := mk_ptr (pblock p) (poff p + n).

(** ** The heap *)

(** A byte cell is indeterminate ([None]) until it is written. *)
Abbreviation cell := (option byte).

(** A block is either a byte buffer or the [mrb_value]-sized cell a
    handle points to, with its reference count, its tag and its [str]
    member, the current buffer pointer. *)
Inductive block : Type :=
| BBytes (cells : list cell)
| BValue (refcnt : nat) (btt : option mrb_vtype) (bstr : option ptr).

(** What the allocator answers to the next request. *)
Inductive outcome : Type := Refuse | Grant | GrantInPlace.

Record state : Type := mk_state {
  blocks : gmap nat block;
  oracle : list outcome;
  console : list string
}.

Definition set_blocks (f : gmap nat block → gmap nat block) (st : state) : state :=
  mk_state (f (blocks st)) (oracle st) (console st).

(** ** The monad *)

Inductive fault : Type :=
| OutOfBounds
| NullPointer
| Dangling
| Indeterminate
| BadAccess.

Inductive res (A : Type) : Type :=
| Ok (a : A)
| Fault (f : fault).
Arguments Ok {A} a.
Arguments Fault {A} f.

Definition M (A : Type) : Type := state → res (A * state).

Global Instance M_ret : MRet M := λ A a st, Ok (a, st).
Global Instance M_bind : MBind M := λ A B f m st,
  match m st with
  | Ok (a, st') => f a st'
  | Fault e => Fault e
  end.

Definition raise {A} (e : fault) : M A := λ _, Fault e.
Definition get_state : M state := λ st, Ok (st, st).
Definition modify (f : state → state) : M unit := λ st, Ok (Datatypes.tt, f st).

Definition lift_opt {A} (e : fault) (o : option A) : M A :=
  match o with
  | Some a => mret a
  | None => raise e
  end.

(** ** Memory access *)

Definition lookup_bytes (b : nat) : M (list cell) := λ st,
  match blocks st !! b with
  | Some (BBytes cs) => Ok (cs, st)
  | Some (BValue _ _ _) => Fault BadAccess
  | None => Fault Dangling
  end.

Definition lookup_value (h : nat) : M (nat * option mrb_vtype * option ptr) := λ st,
  match blocks st !! h with
  | Some (BValue rc t s) => Ok ((rc, t, s), st)
  | Some (BBytes _) => Fault BadAccess
  | None => Fault Dangling
  end.

Definition in_bounds (off n : Z) (cs : list cell) : bool :=
  (0 <=? off) && (off + n <=? Z.of_nat (length cs)).

(** The [n] cells at [p].  A count of zero touches nothing; a negative
    [int] count is a huge [size_t] and runs off every block. *)
Definition load_cells (p : ptr) (n : Z) : M (list cell) :=
  if n =? 0 then mret []
  else if n <? 0 then raise OutOfBounds
  else
    cs ← lookup_bytes (pblock p);
    if in_bounds (poff p) n cs
    then mret (take (Z.to_nat n) (drop (Z.to_nat (poff p)) cs))
    else raise OutOfBounds.

Definition splice_cells (off : nat) (new cs : list cell) : list cell :=
  take off cs ++ new ++ drop (off + length new) cs.

Definition store_cells (p : ptr) (new : list cell) : M unit :=
  match new with
  | [] => mret Datatypes.tt
  | _ =>
    cs ← lookup_bytes (pblock p);
    if in_bounds (poff p) (Z.of_nat (length new)) cs
    then modify (set_blocks
           <[pblock p := BBytes (splice_cells (Z.to_nat (poff p)) new cs)]>)
    else raise OutOfBounds
  end.

(** [memcpy] and [memmove]: all source cells are read before any cell is
    written, which is the overlap-safe behaviour of [memmove]; the model
    grants it to [memcpy] too. *)
Definition memmove (dst src : ptr) (n : Z) : M unit :=
  cs ← load_cells src n; store_cells dst cs.

Definition memcpy (dst src : ptr) (n : Z) : M unit := memmove dst src n.

(** [*p] for a byte pointer. *)
Definition load_byte (p : ptr) : M byte :=
  cs ← lookup_bytes (pblock p);
  if poff p <? 0 then raise OutOfBounds
  else match cs !! Z.to_nat (poff p) with
       | Some (Some b) => mret b
       | Some None => raise Indeterminate
       | None => raise OutOfBounds
       end.

(** [*p = b]. *)
Definition store_byte (p : ptr) (b : byte) : M unit := store_cells p [Some b].

(** The scan of [strlen]: the number of bytes before the first zero
    byte; [None] when the scan leaves the block or meets an
    indeterminate cell first. *)
Fixpoint scan (cs : list cell) : option nat :=
  match cs with
  | [] => None
  | None :: _ => None
  | Some b :: cs' => if decide (b = x00) then Some 0%nat else S <$> scan cs'
  end.

Definition strlen (p : ptr) : M Z :=
  cs ← lookup_bytes (pblock p);
  if poff p <? 0 then raise OutOfBounds
  else n ← lift_opt OutOfBounds (scan (drop (Z.to_nat (poff p)) cs));
       mret (Z.of_nat n).

(** The bytes of the C string at [p], without the terminator. *)
Fixpoint cstr_bytes (cs : list cell) : option (list byte) :=
  match cs with
  | [] => None
  | None :: _ => None
  | Some b :: cs' => if decide (b = x00) then Some [] else (b ::.) <$> cstr_bytes cs'
  end.

(** ** Console *)

(** The line feed that ends the diagnostics. *)
Definition LF : string := String (Ascii.ascii_of_nat 10) EmptyString.

(** Modelled from the spec: [console_print] of [console.h], the
    side channel for diagnostics; the state keeps the lines written. *)
Definition console_print (s : string) : M unit :=
  modify (λ st, mk_state (blocks st) (oracle st) (console st ++ [s])).

(** ** The allocator

    Modelled from the spec: the allocator of [alloc.c], which is not in
    the sources at hand.  [allocate(size) -> pointer | failure],
    [reallocate(pointer, newSize) -> pointer | failure] (content kept up
    to the minimum of the old and the new size, result possibly
    relocated) and [free(pointer)].  Whether a request is met is the
    allocator's business: the state carries the answers to the coming
    requests, and an exhausted list refuses. *)
Definition next_outcome : M outcome := λ st,
  match oracle st with
  | [] => Ok (Refuse, st)
  | o :: os => Ok (o, mk_state (blocks st) os (console st))
  end.

Definition fresh_block (st : state) : nat := fresh (dom (blocks st)).

Definition new_block (bl : block) : M nat :=
  st ← get_state;
  let b := fresh_block st in
  _ ← modify (set_blocks <[b := bl]>);
  mret b.

(** [mrbc_alloc(vm, size)] for a byte buffer; [None] is [NULL].  A
    negative [int] size is a request no pool can meet. *)
Definition mrbc_alloc (size : Z) : M (option ptr) :=
  o ← next_outcome;
  match o with
  | Refuse => mret None
  | _ =>
    if size <? 0 then mret None
    else b ← new_block (BBytes (replicate (Z.to_nat size) None));
         mret (Some (mk_ptr b 0))
  end.

(** [(mrb_value * )mrbc_alloc(vm, sizeof(mrb_value))]: a handle cell,
    with a reference count of 1 and its members not yet written. *)
Definition mrbc_alloc_value : M (option nat) :=
  o ← next_outcome;
  match o with
  | Refuse => mret None
  | _ => h ← new_block (BValue 1 None None); mret (Some h)
  end.

(** [mrbc_raw_free] of a block; releasing what is not a live block is a
    fault. *)
Definition free_block (b : nat) : M unit := λ st,
  match blocks st !! b with
  | Some _ => Ok (Datatypes.tt, set_blocks (delete b) st)
  | None => Fault Dangling
  end.

Definition mrbc_raw_free (p : ptr) : M unit :=
  if poff p =? 0 then free_block (pblock p) else raise BadAccess.

(** [mrbc_realloc(vm, ptr, size)]. *)
Definition mrbc_realloc (p : ptr) (size : Z) : M (option ptr) :=
  cs ← lookup_bytes (pblock p);
  if negb (poff p =? 0) then raise BadAccess
  else
    o ← next_outcome;
    if size <? 0 then mret None
    else
      let cs' := resize (Z.to_nat size) None cs in
      match o with
      | Refuse => mret None
      | GrantInPlace =>
        _ ← modify (set_blocks <[pblock p := BBytes cs']>);
        mret (Some p)
      | Grant =>
        b ← new_block (BBytes cs');
        _ ← free_block (pblock p);
        mret (Some (mk_ptr b 0))
      end.

(** ** Access to values and handles *)

(** [v.i] *)
Definition get_i (v : mrb_value) : M Z :=
  match u v with
  | U_i i => mret i
  | U_handle _ => raise BadAccess
  end.

(** [v.handle], [None] for [NULL]. *)
Definition get_handle (v : mrb_value) : M (option nat) :=
  match u v with
  | U_handle h => mret h
  | U_i _ => raise BadAccess
  end.

(** [h->tt = t] and [h->str = s]. *)
Definition set_handle_tt (h : nat) (t : mrb_vtype) : M unit :=
  '(rc, _, s) ← lookup_value h;
  modify (set_blocks <[h := BValue rc (Some t) s]>).

Definition set_handle_str (h : nat) (p : ptr) : M unit :=
  '(rc, t, _) ← lookup_value h;
  modify (set_blocks <[h := BValue rc t (Some p)]>).

(** Modelled from the spec: [MRBC_STRING_CSTR(p)] of [c_string.h], the
    buffer pointer [p->handle->str] reached through the handle.  A
    null handle or a null [str] member is reported here, where the
    callers would pass it on to [strlen] or dereference it. *)
Definition MRBC_STRING_CSTR (v : mrb_value) : M ptr :=
  oh ← get_handle v;
  h ← lift_opt NullPointer oh;
  '(_, _, s) ← lookup_value h;
  lift_opt NullPointer s.

(** Modelled from the spec: the macros of the invocation contract.
    In the register window [v] slot 0 is the receiver and slots 1..
    are the arguments; [GET_ARG(n)] is [v[n]], and the
    [SET_..._RETURN] macros write the result into slot 0. *)
Definition GET_ARG (v : list mrb_value) (n : nat) : M mrb_value :=
  lift_opt OutOfBounds (v !! n).

Definition SET_RETURN (v : list mrb_value) (value : mrb_value) : list mrb_value :=
  <[0%nat := value]> v.

Definition SET_NIL_RETURN (v : list mrb_value) : list mrb_value :=
  match v with
  | [] => []
  | v0 :: vs => mk_value MRB_TT_NIL (u v0) :: vs
  end.

Definition SET_INT_RETURN (v : list mrb_value) (n : Z) : list mrb_value :=
  <[0%nat := mk_value MRB_TT_FIXNUM (U_i n)]> v.

(** ** [c_string.c] *)

(** constructor *)
Definition mrbc_string_new (src : option ptr) (len : Z) : M mrb_value :=
  let value := mk_value MRB_TT_STRING (U_handle None) in
  oh ← mrbc_alloc_value;
  match oh with
  | None => mret value
  | Some h =>
    let value := mk_value MRB_TT_STRING (U_handle (Some h)) in
    obuf ← mrbc_alloc (wrap32 (len + 1));
    match obuf with
    | None =>
      _ ← free_block h;   (* mrbc_raw_free(value.handle) *)
      mret (mk_value MRB_TT_STRING (U_handle None))
    | Some buf =>
      _ ← set_handle_tt h MRB_TT_STRING;
      _ ← set_handle_str h buf;
      _ ← match src with
          | None => store_byte buf x00
          | Some s =>
            _ ← memcpy buf s len;
            store_byte (ptr_add buf len) x00
          end;
      mret value
    end
  end.

(** constructor by c string *)
Definition mrbc_string_new_cstr (src : option ptr) : M mrb_value :=
  len ← match src with
        | Some s => n ← strlen s; mret (wrap32 n)
        | None => mret 0
        end;
  mrbc_string_new src len.

(** destructor *)
Definition mrbc_string_delete (v : mrb_value) : M unit :=
  oh ← get_handle v;
  h ← lift_opt NullPointer oh;
  '(_, _, s) ← lookup_value h;
  p ← lift_opt NullPointer s;
  _ ← mrbc_raw_free p;
  free_block h.

(** Modelled from the spec: [mrbc_release], which is not in the sources
    at hand.  The value in a slot is released by decrementing the
    reference count of its handle; at zero the destructor runs.  Values
    without a handle hold nothing to release. *)
Definition mrbc_release (v : list mrb_value) : M unit :=
  v0 ← GET_ARG v 0;
  match tt v0 with
  | MRB_TT_STRING =>
    oh ← get_handle v0;
    h ← lift_opt NullPointer oh;
    '(rc, t, s) ← lookup_value h;
    match rc with
    | O => raise BadAccess
    | S O => mrbc_string_delete v0
    | S rc' => modify (set_blocks <[h := BValue rc' t s]>)
    end
  | _ => mret Datatypes.tt
  end.

(** (method) + *)
Definition c_string_add (v : list mrb_value) (argc : Z) : M (list mrb_value) :=
  s1 ← GET_ARG v 0;
  s2 ← GET_ARG v 1;
  if negb (bool_decide (tt s2 = MRB_TT_STRING)) then
    _ ← console_print ("Not support STRING + Other" +:+ LF);
    mret v
  else
    p1 ← MRBC_STRING_CSTR s1;
    n1 ← strlen p1;
    let len1 := wrap32 n1 in
    p2 ← MRBC_STRING_CSTR s2;
    n2 ← strlen p2;
    let len2 := wrap32 n2 in
    value ← mrbc_string_new None (wrap32 (len1 + len2));
    oh ← get_handle value;
    match oh with
    | None => mret v
    | Some _ =>
      dst ← MRBC_STRING_CSTR value;
      src1 ← MRBC_STRING_CSTR s1;
      _ ← memcpy dst src1 len1;
      dst ← MRBC_STRING_CSTR value;
      src2 ← MRBC_STRING_CSTR s2;
      _ ← memcpy (ptr_add dst len1) src2 (wrap32 (len2 + 1));
      _ ← mrbc_release v;
      mret (SET_RETURN v value)
    end.

(** (method) size, length *)
Definition c_string_size (v : list mrb_value) (argc : Z) : M (list mrb_value) :=
  v0 ← GET_ARG v 0;
  p ← MRBC_STRING_CSTR v0;
  n ← strlen p;
  let i := wrap32 n in
  _ ← mrbc_release v;
  mret (SET_INT_RETURN v i).

(** (method) << *)
Definition c_string_append (v : list mrb_value) (argc : Z) : M (list mrb_value) :=
  v0 ← GET_ARG v 0;
  v2 ← GET_ARG v 1;
  p ← MRBC_STRING_CSTR v0;
  n1 ← strlen p;
  let len1 := wrap32 n1 in
  len2 ← (if bool_decide (tt v2 = MRB_TT_STRING)
          then p2 ← MRBC_STRING_CSTR v2; n2 ← strlen p2; mret (wrap32 n2)
          else mret 1);
  p ← MRBC_STRING_CSTR v0;
  ostr ← mrbc_realloc p (wrap32 (wrap32 (len1 + len2) + 1));
  match ostr with
  | None => mret v
  | Some str =>
    _ ← (if bool_decide (tt v2 = MRB_TT_STRING) then
           p2 ← MRBC_STRING_CSTR v2;
           memcpy (ptr_add str len1) p2 (wrap32 (len2 + 1))
         else if bool_decide (tt v2 = MRB_TT_FIXNUM) then
           i ← get_i v2;
           _ ← store_byte (ptr_add str len1) (byte_of_Z i);
           store_byte (ptr_add str (wrap32 (len1 + 1))) x00
         else mret Datatypes.tt);
    oh ← get_handle v0;
    h ← lift_opt NullPointer oh;
    _ ← set_handle_str h str;
    mret v
  end.

(** [a && b] of C: [b] is evaluated only when [a] holds. *)
Definition andM (a b : M bool) : M bool :=
  x ← a; if (x : bool) then b else mret false.

(** [GET_ARG(n).tt == t] *)
Definition arg_tt_is (v : list mrb_value) (n : nat) (t : mrb_vtype) : M bool :=
  a ← GET_ARG v n; mret (bool_decide (tt a = t)).

(** (method) [] *)
Definition c_string_slice (v : list mrb_value) (argc : Z) : M (list mrb_value) :=
  v0 ← GET_ARG v 0;
  (* in case of slice(nth) -> String | nil *)
  c1 ← andM (mret (argc =? 1)) (arg_tt_is v 1 MRB_TT_FIXNUM);
  if (c1 : bool) then
    v1 ← GET_ARG v 1;
    p ← MRBC_STRING_CSTR v0;
    n ← strlen p;
    let len := wrap32 n in
    idx ← get_i v1;
    ch ← (if 0 <=? idx then
            if idx <? len then
              b ← load_byte (ptr_add p idx); mret (uint8_to_Z b)
            else mret 0
          else
            let idx := wrap32 (idx + len) in
            if 0 <=? idx then
              b ← load_byte (ptr_add p idx); mret (uint8_to_Z b)
            else mret 0);
    if 0 <? ch then
      value ← mrbc_string_new None 1;
      oh ← get_handle value;
      match oh with
      | None => mret v
      | Some _ =>
        s ← MRBC_STRING_CSTR value;
        _ ← store_byte s (byte_of_Z ch);
        s ← MRBC_STRING_CSTR value;
        _ ← store_byte (ptr_add s 1) x00;
        _ ← mrbc_release v;
        mret (SET_RETURN v value)
      end
    else
      _ ← mrbc_release v;
      mret (SET_NIL_RETURN v)
  else
    (* in case of slice(nth, len) -> String | nil *)
    c2 ← andM (mret (argc =? 2))
              (andM (arg_tt_is v 1 MRB_TT_FIXNUM) (arg_tt_is v 2 MRB_TT_FIXNUM));
    if (c2 : bool) then
      v1 ← GET_ARG v 1;
      v2 ← GET_ARG v 2;
      p ← MRBC_STRING_CSTR v0;
      n ← strlen p;
      let len := wrap32 n in
      idx ← get_i v1;
      let idx := if idx <? 0 then wrap32 (idx + len) else idx in
      if 0 <=? idx then
        i2 ← get_i v2;
        let rlen := if i2 <? wrap32 (len - idx) then i2 else wrap32 (len - idx) in
        if 0 <=? rlen then
          p ← MRBC_STRING_CSTR v0;
          value ← mrbc_string_new (Some (ptr_add p idx)) rlen;
          oh ← get_handle value;
          match oh with
          | None => mret v
          | Some _ =>
            _ ← mrbc_release v;
            mret (SET_RETURN v value)
          end
        else
          _ ← mrbc_release v;
          mret (SET_NIL_RETURN v)
      else
        _ ← mrbc_release v;
        mret (SET_NIL_RETURN v)
    else
      _ ← console_print ("Not support such case in String#[]." +:+ LF);
      mret v.

(** (method) []= *)
Definition c_string_insert (v : list mrb_value) (argc : Z) : M (list mrb_value) :=
  (* in case of self[nth] = val *)
  c1 ← andM (mret (argc =? 2))
            (andM (arg_tt_is v 1 MRB_TT_FIXNUM) (arg_tt_is v 2 MRB_TT_STRING));
  args ← (if (c1 : bool) then
            a1 ← GET_ARG v 1; nth ← get_i a1;
            val ← GET_ARG v 2;
            mret (Some (nth, 1, val))
          else
            (* in case of self[nth, len] = val *)
            c2 ← andM (mret (argc =? 3))
                      (andM (arg_tt_is v 1 MRB_TT_FIXNUM)
                            (andM (arg_tt_is v 2 MRB_TT_FIXNUM)
                                  (arg_tt_is v 3 MRB_TT_STRING)));
            if (c2 : bool) then
              a1 ← GET_ARG v 1; nth ← get_i a1;
              a2 ← GET_ARG v 2; len ← get_i a2;
              val ← GET_ARG v 3;
              mret (Some (nth, len, val))
            else mret None);
  match args with
  | None =>
    (* other cases *)
    _ ← console_print ("Not support" +:+ LF);
    mret v
  | Some (nth, len, val) =>
    v0 ← GET_ARG v 0;
    p ← MRBC_STRING_CSTR v0;
    n1 ← strlen p;
    let len1 := wrap32 n1 in
    pv ← MRBC_STRING_CSTR val;
    n2 ← strlen pv;
    let len2 := wrap32 n2 in
    let nth := if nth <? 0 then wrap32 (len1 + nth) else nth in
    let len := if wrap32 (len1 - nth) <? len then wrap32 (len1 - nth) else len in
    if (nth <? 0) || (len1 <? nth) || (len <? 0) then
      _ ← console_print ("IndexError" +:+ LF);
      mret v
    else
      p ← MRBC_STRING_CSTR v0;
      ostr ← mrbc_realloc p (wrap32 (wrap32 (wrap32 (len1 + len2) - len) + 1));
      match ostr with
      | None => mret v
      | Some str =>
        _ ← memmove (ptr_add (ptr_add str nth) len2)
                    (ptr_add (ptr_add str nth) len)
                    (wrap32 (wrap32 (len1 - nth) - len));
        pv ← MRBC_STRING_CSTR val;
        _ ← memcpy (ptr_add str nth) pv len2;
        _ ← store_byte (ptr_add str (wrap32 (wrap32 (len1 + len2) - len))) x00;
        oh ← get_handle v0;
        h ← lift_opt NullPointer oh;
        _ ← set_handle_str h str;
        mret v
      end
  end.

(** (method) ord *)
Definition c_string_ord (char_signed : bool) (v : list mrb_value) (argc : Z)
  : M (list mrb_value) :=
  v0 ← GET_ARG v 0;
  p ← MRBC_STRING_CSTR v0;
  b ← load_byte p;
  let i := char_to_int char_signed b in
  _ ← mrbc_release v;
  mret (SET_INT_RETURN v i).

(** ** Reading a string back from the heap *)

(** The bytes of the string a value denotes in a state. *)
Definition string_of (st : state) (v : mrb_value) : option (list byte) :=
  match u v with
  | U_handle (Some h) =>
    match blocks st !! h with
    | Some (BValue _ _ (Some p)) =>
      match blocks st !! pblock p with
      | Some (BBytes cs) =>
        if poff p <? 0 then None else cstr_bytes (drop (Z.to_nat (poff p)) cs)
      | _ => None
      end
    | _ => None
    end
  | _ => None
  end.

(** The whole buffer of the string a value denotes. *)
Definition buffer_of (st : state) (v : mrb_value) : option (list cell) :=
  match u v with
  | U_handle (Some h) =>
    match blocks st !! h with
    | Some (BValue _ _ (Some p)) =>
      match blocks st !! pblock p with
      | Some (BBytes cs) => Some cs
      | _ => None
      end
    | _ => None
    end
  | _ => None
  end.

(** ** Building test heaps *)

Definition bytes_of (s : string) : list byte := String.list_byte_of_string s.

Definition cells_of (bs : list byte) : list cell := (Some <$> bs) ++ [Some x00].

(** A string object laid out as the constructor leaves it: handle block
    [h] with reference count 1, buffer block [b] holding [bs] and the
    terminator. *)
Definition with_string (h b : nat) (bs : list byte) (m : gmap nat block)
  : gmap nat block :=
  <[h := BValue 1 (Some MRB_TT_STRING) (Some (mk_ptr b 0))]>
    (<[b := BBytes (cells_of bs)]> m).

Definition str_value (h : nat) : mrb_value :=
  mk_value MRB_TT_STRING (U_handle (Some h)).

Definition int_value (i : Z) : mrb_value := mk_value MRB_TT_FIXNUM (U_i i).

Definition all_granted : list outcome := [Grant; Grant; Grant; Grant].

(** The string object behind handle [h], as the operators expect to
    find it: a handle cell that is still referenced and whose [str]
    member points to the start of a live byte block.  The result is
    that block and its cells. *)
Definition string_object (st : state) (h : nat) : option (nat * list cell) :=
  match blocks st !! h with
  | Some (BValue (S _) _ (Some p)) =>
    if poff p =? 0 then
      match blocks st !! pblock p with
      | Some (BBytes cs) => Some (pblock p, cs)
      | _ => None
      end
    else None
  | _ => None
  end.

(** ** The calls of [[]=]

    [self[nth] = val] comes with two arguments, [self[nth, len] = val]
    with three; the span of the first form is 1. *)
Definition insert_args (h : nat) (nth : Z) (span : option Z) (h2 : nat)
    (rest : list mrb_value) : list mrb_value :=
  match span with
  | None => str_value h :: int_value nth :: str_value h2 :: rest
  | Some len => str_value h :: int_value nth :: int_value len :: str_value h2 :: rest
  end.

Definition insert_argc (span : option Z) : Z :=
  match span with
  | None => 2
  | Some _ => 3
  end.

Definition span_or_default (span : option Z) : Z := default 1 span.

(** The index and the span of the specification, as numbers without
    wrap-around: a negative index has the length added, and the span is
    clamped to what remains after the index. *)
Definition adjusted_index (L nth : Z) : Z := if nth <? 0 then L + nth else nth.

Definition clamped_span (L i len : Z) : Z := Z.min len (L - i).

Definition index_error (L nth len : Z) : Prop :=
  let i := adjusted_index L nth in
  i < 0 ∨ i > L ∨ clamped_span L i len < 0.

(** A program that, when it returns, has written nothing to the
    console. *)
Definition keeps_console {A} (m : M A) : Prop :=
  ∀ st a st', m st = Ok (a, st') → console st' = console st.

(** ** Refused requests *)

(** The allocator refuses its next request: the next answer is
    [Refuse], or no answer is left. *)
Definition next_refused (os : list outcome) : bool :=
  match os with
  | [] => true
  | Refuse :: _ => true
  | _ => false
  end.

(** The constructor cannot complete: its handle request is refused, or
    the buffer request that follows it is. *)
Definition constructor_refused (os : list outcome) : bool :=
  match os with
  | [] => true
  | Refuse :: _ => true
  | _ :: os' => next_refused os'
  end.

(** ** Example heaps *)

(** Three string objects: ["hello"] behind handle 0, ["XYZ"] behind
    handle 2 and the empty string behind handle 4. *)
Definition example_heap : gmap nat block :=
  with_string 0 1 (bytes_of "hello")
    (with_string 2 3 (bytes_of "XYZ") (with_string 4 5 [] ∅)).

Definition example_state (o : list outcome) : state := mk_state example_heap o [].

(** ["foo"] behind handle 0. *)
Definition foo_state (o : list outcome) : state :=
  mk_state (with_string 0 1 (bytes_of "foo") ∅) o [].

(** A one-byte string with the byte 255 behind handle 0. *)
Definition high_byte_state : state :=
  mk_state (with_string 0 1 [xff] ∅) [] [].

(** The value a failed constructor returns: a string tag and no handle. *)
Definition no_handle : mrb_value := mk_value MRB_TT_STRING (U_handle None).

(** * Properties *)

(** ** Machine integers and bytes *)

Lemma wrap32_small (z : Z) : int_range z → wrap32 z = z.
Proof.
  unfold int_range, INT_MIN, INT_MAX, wrap32. intros Hz.
  rewrite Z.mod_small by lia. lia.
Qed.

Lemma wrap32_range (z : Z) : int_range (wrap32 z).
Proof.
  unfold int_range, INT_MIN, INT_MAX, wrap32.
  pose proof (Z.mod_pos_bound (z + 2147483648) 4294967296). lia.
Qed.

Lemma uint8_to_Z_range (b : byte) : 0 <= uint8_to_Z b <= 255.
Proof.
  unfold uint8_to_Z. pose proof (Byte.to_N_bounded b). lia.
Qed.

Lemma uint8_of_Z (z : Z) : uint8_to_Z (byte_of_Z z) = z mod 256.
Proof.
  unfold uint8_to_Z, byte_of_Z.
  pose proof (Z.mod_pos_bound z 256).
  destruct (Byte.of_N (Z.to_N (z mod 256))) as [b|] eqn:E.
  - apply Byte.to_of_N in E. rewrite E. lia.
  - apply Byte.of_N_None_iff in E. lia.
Qed.

Lemma byte_of_uint8 (b : byte) : byte_of_Z (uint8_to_Z b) = b.
Proof.
  unfold byte_of_Z, uint8_to_Z.
  pose proof (Byte.to_N_bounded b).
  rewrite Z.mod_small by lia. rewrite N2Z.id, Byte.of_to_N. reflexivity.
Qed.

Lemma uint8_to_Z_inj (a b : byte) : uint8_to_Z a = uint8_to_Z b → a = b.
Proof.
  intros E. rewrite <- (byte_of_uint8 a), <- (byte_of_uint8 b). by rewrite E.
Qed.

Lemma uint8_zero_iff (b : byte) : uint8_to_Z b = 0 ↔ b = x00.
Proof.
  split; [|by intros ->]. intros E. by apply uint8_to_Z_inj.
Qed.

Lemma byte_of_Z_zero_iff (z : Z) : byte_of_Z z = x00 ↔ z mod 256 = 0.
Proof.
  rewrite <- uint8_zero_iff, uint8_of_Z. reflexivity.
Qed.

(** ** C strings in a list of cells *)

Lemma cstr_bytes_layout (cs : list cell) (bs : list byte) :
  cstr_bytes cs = Some bs ↔
  (x00 ∉ bs) ∧ (∃ rest, cs = (Some <$> bs) ++ Some x00 :: rest).
Proof.
  revert bs. induction cs as [|c cs IH]; intros bs; simpl.
  - split; [done|]. intros [_ [rest E]]. by destruct bs.
  - destruct c as [b|].
    + destruct (decide (b = x00)) as [->|Hb].
      * split.
        -- intros [= <-]. split; [apply not_elem_of_nil|]. by exists cs.
        -- intros [Hn [rest E]]. destruct bs as [|b' bs]; [done|].
           simpl in E. injection E as <- _. exfalso. apply Hn. left.
      * split.
        -- intros E. destruct (cstr_bytes cs) as [bs'|] eqn:E'; [|done].
           simpl in E. injection E as <-.
           destruct (proj1 (IH bs') eq_refl) as [Hn [rest ->]]. split.
           ++ rewrite not_elem_of_cons. split; [congruence|done].
           ++ by exists rest.
        -- intros [Hn [rest E]]. destruct bs as [|b' bs].
           ++ simpl in E. congruence.
           ++ simpl in E. injection E as <- ->.
              apply not_elem_of_cons in Hn as [_ Hn].
              rewrite (proj2 (IH bs)); [done|].
              split; [done|]. by exists rest.
    + split; [done|]. intros [_ [rest E]]. by destruct bs.
Qed.

Lemma scan_cstr_bytes (cs : list cell) : scan cs = length <$> cstr_bytes cs.
Proof.
  induction cs as [|[b|] cs IH]; simpl; try done.
  destruct (decide (b = x00)); [done|].
  rewrite IH. by destruct (cstr_bytes cs).
Qed.

Lemma cstr_bytes_cells_of (bs : list byte) (rest : list cell) :
  x00 ∉ bs → cstr_bytes (cells_of bs ++ rest) = Some bs.
Proof.
  intros Hn. apply cstr_bytes_layout. split; [done|].
  exists rest. unfold cells_of. by rewrite <- app_assoc.
Qed.

(** ** Running monadic programs *)

Lemma run_bind {A B} (m : M A) (f : A → M B) (st : state) :
  (m ≫= f) st =
  match m st with
  | Ok (a, st') => f a st'
  | Fault e => Fault e
  end.
Proof. reflexivity. Qed.

Lemma run_ret {A} (a : A) (st : state) : mret (M := M) a st = Ok (a, st).
Proof. reflexivity. Qed.

Lemma GET_ARG_run (v : list mrb_value) (n : nat) (a : mrb_value) (st : state) :
  v !! n = Some a → GET_ARG v n st = Ok (a, st).
Proof. unfold GET_ARG. by intros ->. Qed.

Lemma console_print_run (s : string) (st : state) :
  console_print s st =
  Ok (Datatypes.tt, mk_state (blocks st) (oracle st) (console st ++ [s])).
Proof. reflexivity. Qed.

Lemma lookup_fresh_block (st : state) : blocks st !! fresh_block st = None.
Proof. unfold fresh_block. apply not_elem_of_dom. apply is_fresh. Qed.

(** One step of a run: the first command of a sequence is replaced by
    its known result. *)
Ltac mstep E := rewrite run_bind, E; cbv beta iota.

Lemma get_handle_str_value (h : nat) (st : state) :
  get_handle (str_value h) st = Ok (Some h, st).
Proof. reflexivity. Qed.

Lemma get_i_int_value (i : Z) (st : state) : get_i (int_value i) st = Ok (i, st).
Proof. reflexivity. Qed.

(** All pending sequencing steps and returns at the head of a run. *)
Ltac mred :=
  repeat (first [ rewrite run_bind
                | rewrite run_ret
                | rewrite get_handle_str_value
                | rewrite get_i_int_value
                | progress cbn [lift_opt] ];
          cbv beta iota).

(** The same, reading registers on the way. *)
Ltac mrun :=
  repeat (first [ rewrite run_bind
                | rewrite run_ret
                | rewrite get_handle_str_value
                | rewrite get_i_int_value
                | erewrite GET_ARG_run by reflexivity
                | progress cbn [lift_opt] ];
          cbv beta iota).

(** Projections of an explicit state and of an explicit pointer. *)
Ltac norm_state :=
  unfold set_blocks, ptr_add; cbn [blocks oracle console pblock poff].

(** ** The memory primitives *)

Lemma lookup_bytes_run (b : nat) (cs : list cell) (st : state) :
  blocks st !! b = Some (BBytes cs) → lookup_bytes b st = Ok (cs, st).
Proof. unfold lookup_bytes. by intros ->. Qed.

Lemma lookup_value_run (h rc : nat) (t : option mrb_vtype) (s : option ptr)
    (st : state) :
  blocks st !! h = Some (BValue rc t s) → lookup_value h st = Ok ((rc, t, s), st).
Proof. unfold lookup_value. by intros ->. Qed.

Lemma in_bounds_true (off n : Z) (cs : list cell) :
  0 <= off → off + n <= Z.of_nat (length cs) → in_bounds off n cs = true.
Proof.
  intros H1 H2. unfold in_bounds.
  apply andb_true_intro. split; apply Z.leb_le; lia.
Qed.

Lemma in_bounds_inv (off n : Z) (cs : list cell) :
  in_bounds off n cs = true → 0 <= off ∧ off + n <= Z.of_nat (length cs).
Proof.
  unfold in_bounds. intros [H1 H2]%andb_prop.
  apply Z.leb_le in H1, H2. lia.
Qed.

Lemma load_cells_zero (p : ptr) (st : state) : load_cells p 0 st = Ok ([], st).
Proof. reflexivity. Qed.

Lemma load_cells_run (p : ptr) (n : Z) (cs : list cell) (st : state) :
  blocks st !! pblock p = Some (BBytes cs) →
  0 < n → 0 <= poff p → poff p + n <= Z.of_nat (length cs) →
  load_cells p n st =
  Ok (take (Z.to_nat n) (drop (Z.to_nat (poff p)) cs), st).
Proof.
  intros Hb Hn Ho Hl. unfold load_cells.
  destruct (Z.eqb_spec n 0); [lia|].
  destruct (Z.ltb_spec n 0); [lia|].
  mstep (lookup_bytes_run _ _ _ Hb).
  by rewrite in_bounds_true.
Qed.

(** A load that succeeds leaves the state alone, returns as many cells
    as asked for, and succeeds alike in any state that agrees on the
    block it reads. *)
Lemma load_cells_inv (p : ptr) (n : Z) (st st' : state) (l : list cell) :
  load_cells p n st = Ok (l, st') →
  st' = st ∧ Z.of_nat (length l) = n ∧
  ∀ st2, (0 < n → blocks st2 !! pblock p = blocks st !! pblock p) →
         load_cells p n st2 = Ok (l, st2).
Proof.
  unfold load_cells.
  destruct (Z.eqb_spec n 0) as [->|Hn0].
  { intros [= <- <-]. done. }
  destruct (Z.ltb_spec n 0) as [Hlt|Hge]; [done|].
  rewrite run_bind. unfold lookup_bytes.
  destruct (blocks st !! pblock p) as [[cs| ]|] eqn:Hb; try done.
  cbv beta iota.
  destruct (in_bounds (poff p) n cs) eqn:Hin; [|done].
  intros [= <- <-]. apply in_bounds_inv in Hin.
  split; [done|]. split.
  - rewrite length_take, length_drop. lia.
  - intros st2 Hag. rewrite run_bind. unfold lookup_bytes.
    rewrite Hag by lia. cbv beta iota.
    rewrite in_bounds_true by lia. done.
Qed.

Lemma store_cells_run (p : ptr) (new cs : list cell) (st : state) :
  blocks st !! pblock p = Some (BBytes cs) →
  new ≠ [] →
  0 <= poff p → poff p + Z.of_nat (length new) <= Z.of_nat (length cs) →
  store_cells p new st =
  Ok (Datatypes.tt,
      set_blocks <[pblock p := BBytes (splice_cells (Z.to_nat (poff p)) new cs)]> st).
Proof.
  intros Hb Hne Ho Hl. unfold store_cells.
  destruct new as [|c new]; [done|].
  mstep (lookup_bytes_run _ _ _ Hb).
  by rewrite in_bounds_true.
Qed.

Lemma store_byte_run (p : ptr) (c : byte) (cs : list cell) (st : state) :
  blocks st !! pblock p = Some (BBytes cs) →
  0 <= poff p < Z.of_nat (length cs) →
  store_byte p c st =
  Ok (Datatypes.tt,
      set_blocks <[pblock p := BBytes (<[Z.to_nat (poff p) := Some c]> cs)]> st).
Proof.
  intros Hb Ho. unfold store_byte.
  rewrite (store_cells_run p [Some c] cs st Hb); [|done|lia|simpl; lia].
  unfold splice_cells. simpl length.
  rewrite (insert_take_drop cs (Z.to_nat (poff p))) by lia.
  by replace (Z.to_nat (poff p) + 1)%nat with (S (Z.to_nat (poff p))) by lia.
Qed.

Lemma load_byte_run (p : ptr) (c : byte) (cs : list cell) (st : state) :
  blocks st !! pblock p = Some (BBytes cs) →
  0 <= poff p →
  cs !! Z.to_nat (poff p) = Some (Some c) →
  load_byte p st = Ok (c, st).
Proof.
  intros Hb Ho Hc. unfold load_byte.
  mstep (lookup_bytes_run _ _ _ Hb).
  destruct (Z.ltb_spec (poff p) 0); [lia|].
  by rewrite Hc.
Qed.

Lemma strlen_run (p : ptr) (cs : list cell) (bs : list byte) (st : state) :
  blocks st !! pblock p = Some (BBytes cs) →
  0 <= poff p →
  cstr_bytes (drop (Z.to_nat (poff p)) cs) = Some bs →
  strlen p st = Ok (Z.of_nat (length bs), st).
Proof.
  intros Hb Ho Hs. unfold strlen.
  mstep (lookup_bytes_run _ _ _ Hb).
  destruct (Z.ltb_spec (poff p) 0); [lia|].
  rewrite scan_cstr_bytes, Hs. reflexivity.
Qed.

Lemma MRBC_STRING_CSTR_run (v : mrb_value) (h rc : nat) (t : option mrb_vtype)
    (p : ptr) (st : state) :
  u v = U_handle (Some h) →
  blocks st !! h = Some (BValue rc t (Some p)) →
  MRBC_STRING_CSTR v st = Ok (p, st).
Proof.
  intros Hu Hh. unfold MRBC_STRING_CSTR, get_handle. rewrite Hu.
  rewrite run_bind, run_ret. cbv beta iota.
  rewrite run_bind. cbn [lift_opt]. rewrite run_ret. cbv beta iota.
  mstep (lookup_value_run _ _ _ _ _ Hh). reflexivity.
Qed.

(** ** The allocator *)

Lemma mrbc_alloc_value_granted (st : state) (o : outcome) (os : list outcome) :
  oracle st = o :: os → o ≠ Refuse →
  mrbc_alloc_value st =
  Ok (Some (fresh_block st),
      mk_state (<[fresh_block st := BValue 1 None None]> (blocks st)) os (console st)).
Proof.
  intros Ho Hg. unfold mrbc_alloc_value, next_outcome.
  rewrite run_bind, Ho. by destruct o.
Qed.

Lemma mrbc_alloc_granted (size : Z) (st : state) (o : outcome) (os : list outcome) :
  oracle st = o :: os → o ≠ Refuse → 0 <= size →
  mrbc_alloc size st =
  Ok (Some (mk_ptr (fresh_block st) 0),
      mk_state (<[fresh_block st := BBytes (replicate (Z.to_nat size) None)]> (blocks st))
               os (console st)).
Proof.
  intros Ho Hg Hs. unfold mrbc_alloc, next_outcome.
  rewrite run_bind, Ho. cbv beta iota.
  destruct (Z.ltb_spec size 0); [lia|]. by destruct o.
Qed.

Lemma mrbc_alloc_value_inv (st st' : state) (oh : option nat) :
  mrbc_alloc_value st = Ok (oh, st') →
  console st' = console st ∧
  match oh with
  | Some h => blocks st !! h = None ∧
              blocks st' = <[h := BValue 1 None None]> (blocks st)
  | None => blocks st' = blocks st
  end.
Proof.
  unfold mrbc_alloc_value, next_outcome. rewrite run_bind.
  destruct (oracle st) as [|o os]; cbv beta iota.
  - intros [= <- <-]. done.
  - destruct o; intros [= <- <-]; simpl; split; try done;
      (split; [apply (lookup_fresh_block (mk_state (blocks st) os (console st)))|done]).
Qed.

Lemma mrbc_alloc_refused_inv (size : Z) (st st' : state) :
  mrbc_alloc size st = Ok (None, st') →
  console st' = console st ∧ blocks st' = blocks st.
Proof.
  unfold mrbc_alloc, next_outcome. rewrite run_bind.
  destruct (oracle st) as [|o os]; cbv beta iota.
  - intros [= <-]. done.
  - destruct o; destruct (size <? 0); intros [= <-]; done.
Qed.

Lemma free_block_run (b : nat) (bl : block) (st : state) :
  blocks st !! b = Some bl →
  free_block b st = Ok (Datatypes.tt, set_blocks (delete b) st).
Proof. unfold free_block. by intros ->. Qed.

(** ** The constructor *)

Lemma set_handle_tt_run (h rc : nat) (t0 : option mrb_vtype) (s : option ptr)
    (t : mrb_vtype) (st : state) :
  blocks st !! h = Some (BValue rc t0 s) →
  set_handle_tt h t st =
  Ok (Datatypes.tt, set_blocks <[h := BValue rc (Some t) s]> st).
Proof.
  intros Hh. unfold set_handle_tt.
  mstep (lookup_value_run _ _ _ _ _ Hh). reflexivity.
Qed.

Lemma set_handle_str_run (h rc : nat) (t : option mrb_vtype) (s : option ptr)
    (p : ptr) (st : state) :
  blocks st !! h = Some (BValue rc t s) →
  set_handle_str h p st =
  Ok (Datatypes.tt, set_blocks <[h := BValue rc t (Some p)]> st).
Proof.
  intros Hh. unfold set_handle_str.
  mstep (lookup_value_run _ _ _ _ _ Hh). reflexivity.
Qed.

Lemma fresh_after_insert (m : gmap nat block) (h : nat) (bl : block) :
  let b := fresh (dom (<[h := bl]> m)) in b ≠ h ∧ m !! b = None.
Proof.
  intros b.
  assert (<[h := bl]> m !! b = None) as Hb.
  { apply not_elem_of_dom. apply is_fresh. }
  destruct (decide (b = h)) as [E|Hne].
  - rewrite E, lookup_insert_eq in Hb. done.
  - rewrite lookup_insert_ne in Hb by done. done.
Qed.

(** The first steps of the constructor when both requests are granted:
    a fresh handle [h] and a fresh buffer [b] of [len + 1] indeterminate
    cells, the handle's members written. *)
Lemma mrbc_string_new_run (src : option ptr) (len : Z) (l : list cell)
    (st : state) (o1 o2 : outcome) (os : list outcome) :
  oracle st = o1 :: o2 :: os → o1 ≠ Refuse → o2 ≠ Refuse →
  0 <= len < INT_MAX →
  match src with
  | Some p => load_cells p len st = Ok (l, st)
  | None => l = []
  end →
  ∃ (h b : nat) (st' : state),
    mrbc_string_new src len st = Ok (str_value h, st') ∧
    blocks st !! h = None ∧ blocks st !! b = None ∧ h ≠ b ∧
    blocks st' =
      <[h := BValue 1 (Some MRB_TT_STRING) (Some (mk_ptr b 0))]>
        (<[b := BBytes (match src with
                        | Some _ => l ++ [Some x00]
                        | None => Some x00 :: replicate (Z.to_nat len) None
                        end)]> (blocks st)) ∧
    oracle st' = os ∧ console st' = console st.
Proof.
  intros Ho Hg1 Hg2 Hlen Hsrc.
  destruct st as [m o c]. simpl in Ho. subst o.
  set (h := fresh (dom m)).
  assert (m !! h = None) as Hh by (apply not_elem_of_dom, is_fresh).
  set (b := fresh (dom (<[h := BValue 1 None None]> m))).
  destruct (fresh_after_insert m h (BValue 1 None None)) as [Hbh Hb].
  fold b in Hbh, Hb.
  exists h, b.
  unfold mrbc_string_new.
  mstep (mrbc_alloc_value_granted (mk_state m (o1 :: o2 :: os) c) o1 (o2 :: os) eq_refl Hg1).
  unfold fresh_block. cbn [blocks console]. fold h.
  assert (wrap32 (len + 1) = len + 1) as ->.
  { apply wrap32_small. unfold int_range, INT_MIN, INT_MAX in *. lia. }
  rewrite run_bind.
  rewrite (mrbc_alloc_granted (len + 1) (mk_state _ (o2 :: os) c) o2 os eq_refl Hg2)
    by lia.
  cbv beta iota. unfold fresh_block. cbn [blocks console]. fold b.
  rewrite run_bind.
  erewrite set_handle_tt_run;
    [|cbn [blocks]; rewrite lookup_insert_ne by done; apply lookup_insert_eq].
  cbv beta iota. rewrite run_bind.
  erewrite set_handle_str_run;
    [|cbn [blocks set_blocks]; apply lookup_insert_eq].
  cbv beta iota. norm_state.
  set (m4 := <[h := BValue 1 (Some MRB_TT_STRING) (Some (mk_ptr b 0))]>
               (<[h := BValue 1 (Some MRB_TT_STRING) None]>
                  (<[b := BBytes (replicate (Z.to_nat (len + 1)) None)]>
                     (<[h := BValue 1 None None]> m)))).
  assert (m4 !! b = Some (BBytes (replicate (Z.to_nat (len + 1)) None))) as Hm4.
  { unfold m4. rewrite !lookup_insert_ne by done. apply lookup_insert_eq. }
  assert (∀ bl, <[b := bl]> m4 =
      <[h := BValue 1 (Some MRB_TT_STRING) (Some (mk_ptr b 0))]> (<[b := bl]> m))
    as Hfin.
  { intros bl. apply map_eq. intros i. unfold m4.
    rewrite !lookup_insert. repeat case_decide; congruence. }
  destruct src as [p|].
  - destruct (load_cells_inv _ _ _ _ _ Hsrc) as (_ & Hll & Hframe).
    unfold memcpy, memmove. rewrite !run_bind.
    rewrite Hframe.
    2:{ intros Hpos. cbn [blocks]. unfold load_cells in Hsrc.
        destruct (Z.eqb_spec len 0); [lia|].
        destruct (Z.ltb_spec len 0); [lia|].
        rewrite run_bind in Hsrc. unfold lookup_bytes in Hsrc. cbn [blocks] in Hsrc.
        destruct (m !! pblock p) as [bl|] eqn:Hp; [|done].
        unfold m4. rewrite !lookup_insert_ne by congruence. done. }
    cbv beta iota.
    destruct l as [|c0 l].
    + (* nothing to copy *)
      cbn [store_cells]. rewrite run_ret. cbv beta iota.
      simpl in Hll. subst len.
      erewrite store_byte_run; [|exact Hm4|simpl; lia].
      cbv beta iota. norm_state.
      eexists. split; [reflexivity|]. cbn [blocks oracle console].
      repeat split; try done; try congruence.
    + erewrite store_cells_run;
        [|exact Hm4|done|simpl; lia|rewrite length_replicate; simpl poff; lia].
      cbv beta iota. norm_state.
      erewrite store_byte_run; [|norm_state; apply lookup_insert_eq|].
      2:{ unfold splice_cells. norm_state.
          rewrite !length_app, length_take, length_drop, length_replicate. lia. }
      cbv beta iota. norm_state.
      eexists. split; [reflexivity|]. cbn [blocks oracle console].
      repeat split; try done; try congruence.
      rewrite insert_insert_eq, Hfin. do 2 f_equal.
      unfold splice_cells. change (Z.to_nat 0) with 0%nat.
      rewrite take_0, app_nil_l, drop_replicate.
      replace (Z.to_nat (len + 1) - (0 + length (c0 :: l)))%nat with 1%nat by lia.
      replace (Z.to_nat (0 + len)) with (length (c0 :: l) + 0)%nat by lia.
      rewrite insert_app_r. reflexivity.
  - subst l. rewrite run_bind.
    erewrite store_byte_run; [|exact Hm4|rewrite length_replicate; simpl; lia].
    cbv beta iota. norm_state.
    eexists. split; [reflexivity|]. cbn [blocks oracle console].
    repeat split; try done; try congruence.
    rewrite Hfin. do 2 f_equal.
    replace (Z.to_nat (len + 1)) with (S (Z.to_nat len)) by lia.
    reflexivity.
Qed.

Lemma buffer_of_lookup (st : state) (h b rc : nat) (t : option mrb_vtype)
    (cs : list cell) :
  blocks st !! h = Some (BValue rc t (Some (mk_ptr b 0))) →
  blocks st !! b = Some (BBytes cs) →
  buffer_of st (str_value h) = Some cs.
Proof. intros Hh Hb. unfold buffer_of. simpl. rewrite Hh. simpl. by rewrite Hb. Qed.

Lemma string_of_lookup (st : state) (h b rc : nat) (t : option mrb_vtype)
    (cs : list cell) :
  blocks st !! h = Some (BValue rc t (Some (mk_ptr b 0))) →
  blocks st !! b = Some (BBytes cs) →
  string_of st (str_value h) = cstr_bytes cs.
Proof. intros Hh Hb. unfold string_of. simpl. rewrite Hh. simpl. by rewrite Hb. Qed.

(** C6: given a succeeding allocator, [mrbc_string_new] on a source
    region holding the bytes [bs] returns a fresh string object whose
    buffer is exactly [bs] followed by the terminator at offset
    [length bs] (so that a [bs] without zero byte reads back as [bs]);
    with a null source it returns a fresh object whose buffer has
    [n + 1] cells, the first being the terminator: the empty string. *)
Theorem mrbc_string_new_buffer (p : ptr) (bs : list byte) (st : state)
    (o1 o2 : outcome) (os : list outcome) :
  oracle st = o1 :: o2 :: os → o1 ≠ Refuse → o2 ≠ Refuse →
  Z.of_nat (length bs) < INT_MAX →
  load_cells p (Z.of_nat (length bs)) st = Ok (Some <$> bs, st) →
  (∃ (h : nat) (st' : state),
     mrbc_string_new (Some p) (Z.of_nat (length bs)) st = Ok (str_value h, st') ∧
     blocks st !! h = None ∧
     buffer_of st' (str_value h) = Some ((Some <$> bs) ++ [Some x00]) ∧
     (x00 ∉ bs → string_of st' (str_value h) = Some bs)) ∧
  (∃ (h : nat) (st' : state) (cs : list cell),
     mrbc_string_new None (Z.of_nat (length bs)) st = Ok (str_value h, st') ∧
     blocks st !! h = None ∧
     buffer_of st' (str_value h) = Some cs ∧
     length cs = S (length bs) ∧
     cs !! 0%nat = Some (Some x00) ∧
     string_of st' (str_value h) = Some []).
Proof.
  intros Ho Hg1 Hg2 Hlen Hsrc.
  assert (0 <= Z.of_nat (length bs) < INT_MAX) as Hlen' by lia.
  split.
  - destruct (mrbc_string_new_run (Some p) _ _ st o1 o2 os Ho Hg1 Hg2 Hlen' Hsrc)
      as (h & b & st' & Hrun & Hh & Hb & Hne & Hbl & _).
    exists h, st'. split; [done|]. split; [done|].
    assert (blocks st' !! h = Some (BValue 1 (Some MRB_TT_STRING) (Some (mk_ptr b 0))))
      as Hh' by (rewrite Hbl; apply lookup_insert_eq).
    assert (blocks st' !! b = Some (BBytes ((Some <$> bs) ++ [Some x00]))) as Hb'.
    { rewrite Hbl, lookup_insert_ne by done. apply lookup_insert_eq. }
    split.
    + by apply (buffer_of_lookup _ _ _ _ _ _ Hh' Hb').
    + intros Hnz. rewrite (string_of_lookup _ _ _ _ _ _ Hh' Hb').
      rewrite <- (app_nil_r (_ ++ _)). by apply (cstr_bytes_cells_of bs []).
  - destruct (mrbc_string_new_run None (Z.of_nat (length bs)) [] st o1 o2 os
                Ho Hg1 Hg2 Hlen' eq_refl)
      as (h & b & st' & Hrun & Hh & Hb & Hne & Hbl & _).
    exists h, st', (Some x00 :: replicate (length bs) None).
    rewrite Nat2Z.id in Hbl.
    assert (blocks st' !! h = Some (BValue 1 (Some MRB_TT_STRING) (Some (mk_ptr b 0))))
      as Hh' by (rewrite Hbl; apply lookup_insert_eq).
    assert (blocks st' !! b = Some (BBytes (Some x00 :: replicate (length bs) None)))
      as Hb'.
    { rewrite Hbl, lookup_insert_ne by done. apply lookup_insert_eq. }
    split; [done|]. split; [done|]. split.
    { by apply (buffer_of_lookup _ _ _ _ _ _ Hh' Hb'). }
    split; [simpl; by rewrite length_replicate|]. split; [done|].
    by rewrite (string_of_lookup _ _ _ _ _ _ Hh' Hb').
Qed.

Lemma mrbc_string_new_buffer_witness :
  (∃ (h : nat) (st' : state),
     mrbc_string_new (Some (mk_ptr 1 0)) 5 (example_state all_granted)
       = Ok (str_value h, st') ∧
     blocks (example_state all_granted) !! h = None ∧
     buffer_of st' (str_value h) = Some ((Some <$> bytes_of "hello") ++ [Some x00]) ∧
     (x00 ∉ bytes_of "hello" → string_of st' (str_value h) = Some (bytes_of "hello"))) ∧
  (∃ (h : nat) (st' : state) (cs : list cell),
     mrbc_string_new None 5 (example_state all_granted) = Ok (str_value h, st') ∧
     blocks (example_state all_granted) !! h = None ∧
     buffer_of st' (str_value h) = Some cs ∧
     length cs = 6%nat ∧
     cs !! 0%nat = Some (Some x00) ∧
     string_of st' (str_value h) = Some []).
Proof.
  apply (mrbc_string_new_buffer (mk_ptr 1 0) (bytes_of "hello")
           (example_state all_granted) Grant Grant [Grant; Grant]).
  - reflexivity.
  - discriminate.
  - discriminate.
  - vm_compute. reflexivity.
  - vm_compute. reflexivity.
Defined.

(** C7: when the handle request is granted and the buffer request is
    refused, the constructor frees the handle again and returns the
    value without handle; the live blocks are those of the start, so
    nothing is leaked.  When the handle request itself is refused the
    same value is returned. *)
Theorem mrbc_string_new_alloc_failure (src : option ptr) (len : Z)
    (st st1 st2 : state) :
  (mrbc_alloc_value st = Ok (None, st1) ∧ st2 = st1) ∨
  (∃ h, mrbc_alloc_value st = Ok (Some h, st1) ∧
        mrbc_alloc (wrap32 (len + 1)) st1 = Ok (None, st2)) →
  ∃ st', mrbc_string_new src len st = Ok (no_handle, st') ∧
         get_handle no_handle st' = Ok (None, st') ∧
         blocks st' = blocks st ∧
         oracle st' = oracle st2 ∧
         console st' = console st.
Proof.
  intros [[H1 ->]|(h & H1 & H2)]; unfold mrbc_string_new.
  - mstep H1. rewrite run_ret.
    destruct (mrbc_alloc_value_inv _ _ _ H1) as [Hc Hb].
    exists st1. done.
  - mstep H1. mstep H2.
    destruct (mrbc_alloc_value_inv _ _ _ H1) as [Hc1 [Hh Hb1]].
    destruct (mrbc_alloc_refused_inv _ _ _ H2) as [Hc2 Hb2].
    erewrite run_bind, free_block_run;
      [|rewrite Hb2, Hb1; apply lookup_insert_eq].
    cbv beta iota. rewrite run_ret.
    eexists. split; [reflexivity|]. norm_state.
    split; [done|]. split; [|split; [done|congruence]].
    rewrite Hb2, Hb1. by apply delete_insert_id.
Qed.

Lemma mrbc_string_new_alloc_failure_witness :
  ∃ st', mrbc_string_new None 3 (example_state [Grant; Refuse]) = Ok (no_handle, st') ∧
         get_handle no_handle st' = Ok (None, st') ∧
         blocks st' = blocks (example_state [Grant; Refuse]) ∧
         oracle st' = [] ∧
         console st' = console (example_state [Grant; Refuse]).
Proof.
  apply (mrbc_string_new_alloc_failure None 3 (example_state [Grant; Refuse])
           (mk_state (<[6%nat := BValue 1 None None]> example_heap) [Refuse] [])
           (mk_state (<[6%nat := BValue 1 None None]> example_heap) [] [])).
  right. exists 6%nat. split; vm_compute; reflexivity.
Defined.

(** ** Concatenation *)

(** C9: when the right operand of [+] is not a string, the registers
    and every block of the heap, hence the left operand's buffer, are
    left as they were; only the diagnostic is added to the console. *)
Theorem c_string_add_type_mismatch (s1 s2 : mrb_value) (rest : list mrb_value)
    (argc : Z) (st : state) :
  tt s2 ≠ MRB_TT_STRING →
  ∃ st', c_string_add (s1 :: s2 :: rest) argc st = Ok (s1 :: s2 :: rest, st') ∧
         blocks st' = blocks st ∧
         buffer_of st' s1 = buffer_of st s1 ∧
         string_of st' s1 = string_of st s1 ∧
         console st' = console st ++ ["Not support STRING + Other" +:+ LF].
Proof.
  intros Htt. unfold c_string_add.
  mstep (GET_ARG_run (s1 :: s2 :: rest) 0 s1 st eq_refl).
  mstep (GET_ARG_run (s1 :: s2 :: rest) 1 s2 st eq_refl).
  rewrite bool_decide_eq_false_2 by done. cbn [negb].
  mstep (console_print_run ("Not support STRING + Other" +:+ LF) st).
  rewrite run_ret. eexists. split; [reflexivity|]. done.
Qed.

Lemma c_string_add_type_mismatch_witness :
  ∃ st', c_string_add [str_value 0; int_value 7] 1 (example_state [])
           = Ok ([str_value 0; int_value 7], st') ∧
         blocks st' = blocks (example_state []) ∧
         buffer_of st' (str_value 0) = buffer_of (example_state []) (str_value 0) ∧
         string_of st' (str_value 0) = string_of (example_state []) (str_value 0) ∧
         console st' = console (example_state []) ++ ["Not support STRING + Other" +:+ LF].
Proof.
  apply (c_string_add_type_mismatch (str_value 0) (int_value 7) [] 1 (example_state [])).
  simpl. discriminate.
Defined.

(** ** String objects in the heap *)

Lemma string_object_inv (st : state) (h b : nat) (cs : list cell) :
  string_object st h = Some (b, cs) →
  (∃ rc t, blocks st !! h = Some (BValue (S rc) t (Some (mk_ptr b 0)))) ∧
  blocks st !! b = Some (BBytes cs) ∧ h ≠ b.
Proof.
  unfold string_object.
  destruct (blocks st !! h) as [[|[|rc] t [[b' off]|]]|] eqn:Hh; try done.
  simpl. destruct (Z.eqb_spec off 0) as [->|]; [|done].
  destruct (blocks st !! b') as [[cs'|]|] eqn:Hb; try done.
  intros [= <- <-]. split; [by exists rc, t|]. split; [done|].
  intros ->. congruence.
Qed.

Lemma cstr_bytes_length (cs : list cell) (bs : list byte) :
  cstr_bytes cs = Some bs → (length bs < length cs)%nat.
Proof.
  intros (_ & rest & ->)%cstr_bytes_layout.
  rewrite length_app, length_fmap. simpl. lia.
Qed.

Lemma cstr_bytes_lookup (cs : list cell) (bs : list byte) (i : nat) (c : byte) :
  cstr_bytes cs = Some bs → bs !! i = Some c →
  cs !! i = Some (Some c) ∧ c ≠ x00.
Proof.
  intros (Hn & rest & ->)%cstr_bytes_layout Hi. split.
  - rewrite lookup_app_l by (rewrite length_fmap; by eapply lookup_lt_Some).
    by rewrite list_lookup_fmap, Hi.
  - intros ->. apply Hn. by eapply list_elem_of_lookup_2.
Qed.

Lemma cstr_bytes_terminator (cs : list cell) (bs : list byte) :
  cstr_bytes cs = Some bs → cs !! length bs = Some (Some x00).
Proof.
  intros (Hn & rest & ->)%cstr_bytes_layout.
  rewrite lookup_app_r by (by rewrite length_fmap).
  by rewrite length_fmap, Nat.sub_diag.
Qed.

(** X9: the constructor by C string round-trips: the object built from
    the text at [p] (the allocator granting its two requests) is a fresh
    object that reads back as that text. *)
Lemma mrbc_string_new_cstr_roundtrip (p : ptr) (cs : list cell) (bs : list byte)
    (st : state) (o1 o2 : outcome) (os : list outcome) :
  blocks st !! pblock p = Some (BBytes cs) →
  0 <= poff p →
  cstr_bytes (drop (Z.to_nat (poff p)) cs) = Some bs →
  Z.of_nat (length bs) < INT_MAX →
  oracle st = o1 :: o2 :: os → o1 ≠ Refuse → o2 ≠ Refuse →
  ∃ (h : nat) (st' : state),
    mrbc_string_new_cstr (Some p) st = Ok (str_value h, st') ∧
    blocks st !! h = None ∧
    string_of st' (str_value h) = Some bs.
Proof.
  intros Hb Hoff Hs Hlen Ho Hg1 Hg2. unfold mrbc_string_new_cstr.
  rewrite !run_bind. rewrite (strlen_run p cs bs st Hb Hoff Hs).
  cbv beta iota. rewrite run_ret. cbv beta iota.
  unfold INT_MAX in Hlen.
  rewrite wrap32_small by (unfold int_range, INT_MIN, INT_MAX; lia).
  pose proof (cstr_bytes_length _ _ Hs) as Hfit. rewrite length_drop in Hfit.
  assert (load_cells p (Z.of_nat (length bs)) st = Ok (Some <$> bs, st)) as Hld.
  { destruct (decide (length bs = 0)%nat) as [E|Hpos].
    - rewrite E. rewrite load_cells_zero. by destruct bs.
    - rewrite (load_cells_run p _ cs st Hb) by lia.
      rewrite Nat2Z.id. do 2 f_equal.
      apply cstr_bytes_layout in Hs as (_ & rest & ->).
      replace (length bs) with (length (Some <$> bs)) by apply length_fmap.
      apply take_app_length. }
  assert (0 <= Z.of_nat (length bs) < INT_MAX) as Hlen' by (unfold INT_MAX; lia).
  destruct (mrbc_string_new_run (Some p) _ _ st o1 o2 os Ho Hg1 Hg2 Hlen' Hld)
    as (h & b & st' & Hrun & Hh & Hbn & Hne & Hbl & _).
  exists h, st'. split; [done|]. split; [done|].
  erewrite string_of_lookup;
    [|rewrite Hbl; apply lookup_insert_eq
     |rewrite Hbl, lookup_insert_ne by done; apply lookup_insert_eq].
  rewrite <- (app_nil_r (_ ++ _)). apply (cstr_bytes_cells_of bs []).
  by apply cstr_bytes_layout in Hs as [? _].
Qed.

(** ** Release *)

(** Releasing a string object succeeds and touches no block but the
    object's handle and buffer. *)
Lemma mrbc_release_string (h b : nat) (cs : list cell) (rest : list mrb_value)
    (st : state) :
  string_object st h = Some (b, cs) →
  ∃ st', mrbc_release (str_value h :: rest) st = Ok (Datatypes.tt, st') ∧
         oracle st' = oracle st ∧ console st' = console st ∧
         ∀ i, i ≠ h → i ≠ b → blocks st' !! i = blocks st !! i.
Proof.
  intros ([rc [t Hh]] & Hb & Hne)%string_object_inv.
  unfold mrbc_release.
  mstep (GET_ARG_run (str_value h :: rest) 0 (str_value h) st eq_refl).
  cbn [tt str_value get_handle u].
  rewrite run_bind, run_ret. cbv beta iota.
  rewrite run_bind. cbn [lift_opt]. rewrite run_ret. cbv beta iota.
  mstep (lookup_value_run _ _ _ _ _ Hh).
  destruct rc as [|rc].
  - unfold mrbc_string_delete. cbn [get_handle u str_value].
    rewrite run_bind, run_ret. cbv beta iota.
    rewrite run_bind. cbn [lift_opt]. rewrite run_ret. cbv beta iota.
    mstep (lookup_value_run _ _ _ _ _ Hh).
    rewrite run_bind. cbn [lift_opt]. rewrite run_ret. cbv beta iota.
    unfold mrbc_raw_free. cbn [poff pblock Z.eqb].
    mstep (free_block_run _ _ _ Hb).
    erewrite free_block_run;
      [|norm_state; rewrite lookup_delete_ne by done; exact Hh].
    eexists. split; [reflexivity|]. norm_state.
    split; [done|]. split; [done|].
    intros i Hih Hib. by rewrite !lookup_delete_ne by done.
  - eexists. split; [reflexivity|]. norm_state.
    split; [done|]. split; [done|].
    intros i Hih Hib. by rewrite lookup_insert_ne by done.
Qed.

(** ** Byte-code extraction *)

Lemma c_string_ord_run (char_signed : bool) (h b : nat) (cs : list cell)
    (c0 : byte) (rest : list mrb_value) (argc : Z) (st : state) :
  string_object st h = Some (b, cs) →
  cs !! 0%nat = Some (Some c0) →
  ∃ st', c_string_ord char_signed (str_value h :: rest) argc st =
         Ok (int_value (char_to_int char_signed c0) :: rest, st').
Proof.
  intros Hobj Hc0.
  destruct (string_object_inv _ _ _ _ Hobj) as ([rc [t Hh]] & Hb & Hne).
  unfold c_string_ord.
  mstep (GET_ARG_run (str_value h :: rest) 0 (str_value h) st eq_refl).
  mstep (MRBC_STRING_CSTR_run (str_value h) h _ _ _ st eq_refl Hh).
  rewrite run_bind.
  erewrite load_byte_run; [|exact Hb|simpl; lia|exact Hc0].
  cbv beta iota.
  destruct (mrbc_release_string h b cs rest st Hobj) as (st' & Hrel & _).
  mstep Hrel. rewrite run_ret. by exists st'.
Qed.

(** With an unsigned plain [char] the result is the byte value. *)
Lemma c_string_ord_unsigned (h b : nat) (cs : list cell) (c0 : byte)
    (rest : list mrb_value) (argc : Z) (st : state) :
  string_object st h = Some (b, cs) →
  cs !! 0%nat = Some (Some c0) →
  ∃ st', c_string_ord false (str_value h :: rest) argc st =
         Ok (int_value (uint8_to_Z c0) :: rest, st').
Proof. apply c_string_ord_run. Qed.

(** X19: whatever the signedness of plain [char], a first byte below
    128 (among them the terminator of the empty string, which gives 0)
    comes back from [ord] as its value. *)
Lemma c_string_ord_low (char_signed : bool) (h b : nat) (cs : list cell)
    (c0 : byte) (rest : list mrb_value) (argc : Z) (st : state) :
  string_object st h = Some (b, cs) →
  cs !! 0%nat = Some (Some c0) →
  uint8_to_Z c0 < 128 →
  ∃ st', c_string_ord char_signed (str_value h :: rest) argc st =
         Ok (int_value (uint8_to_Z c0) :: rest, st').
Proof.
  intros Hobj Hc0 Hlow.
  destruct (c_string_ord_run char_signed h b cs c0 rest argc st Hobj Hc0)
    as [st' Hrun].
  exists st'. rewrite Hrun. unfold char_to_int.
  destruct char_signed; [|done].
  destruct (Z.leb_spec 128 (uint8_to_Z c0)); [lia|done].
Qed.

Example c_string_ord_A :
  c_string_ord true [str_value 0] 0 (mk_state (with_string 0 1 (bytes_of "A") ∅) [] [])
  = Ok ([int_value 65], mk_state ∅ [] []).
Proof. vm_compute. reflexivity. Qed.

(** C8: on a target whose plain [char] is signed, [c_string_ord] of a
    string whose first byte is 255 returns -1, not the byte value 255:
    the byte is read through [char *] and sign-extended.  (The indexed
    read of [c_string_slice] reads the same buffer through
    [uint8_t *].) *)
Theorem c_string_ord_sign_extends :
  c_string_ord true [str_value 0] 0 high_byte_state
    = Ok ([int_value (-1)], mk_state ∅ [] []) ∧
  buffer_of high_byte_state (str_value 0) = Some [Some xff; Some x00] ∧
  uint8_to_Z xff = 255.
Proof. vm_compute. done. Qed.

(** ** Reallocation *)

(** A granted reallocation of the block [b]: the result block [b'] (the
    same block, or a fresh one with [b] released) holds the old cells
    resized, and no other block is touched. *)
Lemma mrbc_realloc_granted (b : nat) (size : Z) (cs : list cell) (st : state)
    (o : outcome) (os : list outcome) :
  blocks st !! b = Some (BBytes cs) →
  oracle st = o :: os → o ≠ Refuse → 0 <= size →
  ∃ (b' : nat) (st' : state),
    mrbc_realloc (mk_ptr b 0) size st = Ok (Some (mk_ptr b' 0), st') ∧
    blocks st' !! b' = Some (BBytes (resize (Z.to_nat size) None cs)) ∧
    (∀ i, i ≠ b → i ≠ b' → blocks st' !! i = blocks st !! i) ∧
    (b' = b ∨ (blocks st !! b' = None ∧ blocks st' !! b = None)) ∧
    oracle st' = os ∧ console st' = console st.
Proof.
  intros Hb Ho Hg Hsize. unfold mrbc_realloc. cbn [poff pblock Z.eqb negb].
  mstep (lookup_bytes_run _ _ _ Hb).
  unfold next_outcome. rewrite run_bind, Ho. cbv beta iota.
  destruct (Z.ltb_spec size 0); [lia|].
  destruct o; [done| |].
  - (* relocated *)
    unfold new_block, get_state. rewrite !run_bind. cbv beta iota.
    unfold modify. cbv beta iota.
    set (st1 := mk_state (blocks st) os (console st)).
    assert (blocks st !! fresh_block st1 = None) as Hf
      by apply (lookup_fresh_block st1).
    assert (fresh_block st1 ≠ b) as Hne by congruence.
    rewrite run_ret. cbv beta iota. rewrite run_bind.
    erewrite free_block_run;
      [|norm_state; rewrite lookup_insert_ne by done; exact Hb].
    cbv beta iota. rewrite run_ret.
    exists (fresh_block st1). eexists. split; [reflexivity|]. norm_state.
    split; [|split; [|split]].
    + rewrite lookup_delete_ne by done. apply lookup_insert_eq.
    + intros i Hib Hif. rewrite lookup_delete_ne, lookup_insert_ne by done. done.
    + right. split; [done|]. apply lookup_delete_eq.
    + done.
  - (* in place *)
    unfold modify. rewrite run_bind. cbv beta iota. rewrite run_ret.
    exists b. eexists. split; [reflexivity|]. norm_state.
    split; [|split; [|split]].
    + apply lookup_insert_eq.
    + intros i Hib _. by rewrite lookup_insert_ne.
    + by left.
    + done.
Qed.

Lemma mrbc_realloc_refused (p : ptr) (size : Z) (st st' : state) :
  mrbc_realloc p size st = Ok (None, st') →
  blocks st' = blocks st ∧ console st' = console st.
Proof.
  unfold mrbc_realloc. rewrite run_bind. unfold lookup_bytes.
  destruct (blocks st !! pblock p) as [[cs|]|]; try done. cbv beta iota.
  destruct (negb (poff p =? 0)); [done|].
  unfold next_outcome. rewrite run_bind.
  destruct (oracle st) as [|o os]; cbv beta iota.
  - destruct (size <? 0); intros [= <-]; done.
  - destruct (size <? 0); [intros [= <-]; done|].
    destruct o.
    + intros [= <-]. done.
    + unfold new_block, get_state, modify. rewrite !run_bind. cbv beta iota.
      rewrite run_ret. cbv beta iota. rewrite run_bind.
      match goal with
      | |- context [free_block ?a ?s] => destruct (free_block a s) as [[[] ?]|]
      end; done.
    + unfold modify. rewrite run_bind. cbv beta iota. done.
Qed.

(** The cells of a string, resized to two more than its length: the
    bytes, the terminator and one more cell. *)
Lemma resize_cstr (cs : list cell) (bs : list byte) :
  cstr_bytes cs = Some bs →
  ∃ y, resize (length bs + 2) None cs = (Some <$> bs) ++ [Some x00; y].
Proof.
  intros (_ & rest & ->)%cstr_bytes_layout.
  rewrite resize_add.
  rewrite (resize_app (Some <$> bs)) by (rewrite length_fmap; reflexivity).
  replace (length bs) with (length (Some <$> bs)) by apply length_fmap.
  rewrite drop_app_length.
  destruct rest as [|y rest]; [exists None|exists y]; simpl; [done|].
  by rewrite resize_0.
Qed.

(** ** Append *)

(** The common start of [c_string_append] for an operand that is not a
    string: the receiver's length is taken, one byte is counted for the
    operand, and the buffer is reallocated to [length + 2] cells. *)
Ltac append_start Hobj Hs Hlen Ho Hg Htt :=
  let rc := fresh "rc" in let t := fresh "t" in
  let Hh := fresh "Hh" in let Hb := fresh "Hb" in let Hne := fresh "Hne" in
  destruct (string_object_inv _ _ _ _ Hobj) as ([rc [t Hh]] & Hb & Hne);
  unfold c_string_append;
  rewrite run_bind; erewrite GET_ARG_run by reflexivity; cbv beta iota;
  rewrite run_bind; erewrite GET_ARG_run by reflexivity; cbv beta iota;
  rewrite run_bind;
  (erewrite MRBC_STRING_CSTR_run; [|reflexivity|exact Hh]); cbv beta iota;
  rewrite run_bind;
  (erewrite strlen_run; [|exact Hb|simpl; lia|exact Hs]); cbv beta iota;
  rewrite (bool_decide_eq_false_2 _ Htt);
  rewrite run_bind, run_ret; cbv beta iota;
  rewrite run_bind;
  (erewrite MRBC_STRING_CSTR_run; [|reflexivity|exact Hh]); cbv beta iota;
  rewrite !wrap32_small by (unfold int_range, INT_MIN, INT_MAX in *;
                            rewrite ?wrap32_small;
                            unfold int_range, INT_MIN, INT_MAX; lia).

Lemma realloc_handle_distinct (st : state) (h b b' : nat) (bl : block) :
  blocks st !! h = Some bl → h ≠ b →
  b' = b ∨ blocks st !! b' = None → h ≠ b'.
Proof. intros Hh Hne [->|Hb']; congruence. Qed.

(** C10 (as amended): appending an operand that is neither a string nor
    an integer (the reallocation being granted) leaves the registers as
    they were and the receiver with a buffer of exactly [length + 2]
    cells, whatever the size of the old buffer: that is one cell more
    than the old buffer only when the old buffer held just the string
    and its terminator.  The first [length + 1] cells, the bytes of the
    string and its terminator, are those of the old buffer, and the
    string reads back unchanged. *)
Theorem c_string_append_other_type (h b : nat) (cs : list cell) (bs : list byte)
    (v2 : mrb_value) (rest : list mrb_value) (argc : Z) (st : state)
    (o : outcome) (os : list outcome) :
  string_object st h = Some (b, cs) →
  cstr_bytes cs = Some bs →
  Z.of_nat (length bs) + 1 < INT_MAX →
  tt v2 ≠ MRB_TT_STRING → tt v2 ≠ MRB_TT_FIXNUM →
  oracle st = o :: os → o ≠ Refuse →
  ∃ (st' : state) (cs' : list cell),
    c_string_append (str_value h :: v2 :: rest) argc st
      = Ok (str_value h :: v2 :: rest, st') ∧
    buffer_of st' (str_value h) = Some cs' ∧
    length cs' = (length bs + 2)%nat ∧
    (length cs = S (length bs) → length cs' = S (length cs)) ∧
    take (S (length bs)) cs' = take (S (length bs)) cs ∧
    string_of st' (str_value h) = Some bs.
Proof.
  intros Hobj Hs Hlen Htt1 Htt2 Ho Hg.
  append_start Hobj Hs Hlen Ho Hg Htt1.
  destruct (mrbc_realloc_granted b (Z.of_nat (length bs) + 1 + 1) cs st o os
              Hb Ho Hg ltac:(lia))
    as (b' & st1 & Hre & Hb' & Hframe & Hcase & Ho1 & Hc1).
  mstep Hre.
  assert (h ≠ b') as Hne'.
  { eapply realloc_handle_distinct; [exact Hh|done|]. tauto. }
  rewrite (bool_decide_eq_false_2 _ Htt2).
  rewrite run_bind, run_ret. cbv beta iota.
  cbn [get_handle u str_value].
  rewrite run_bind, run_ret. cbv beta iota.
  rewrite run_bind. cbn [lift_opt]. rewrite run_ret. cbv beta iota.
  rewrite run_bind.
  erewrite set_handle_str_run; [|rewrite Hframe by done; exact Hh].
  cbv beta iota. rewrite run_ret.
  replace (Z.to_nat (Z.of_nat (length bs) + 1 + 1)) with (length bs + 2)%nat
    in Hb' by lia.
  eexists. exists (resize (length bs + 2) None cs).
  split; [reflexivity|].
  assert (∀ st2, blocks st2 = <[h := BValue (S rc) t (Some (mk_ptr b' 0))]> (blocks st1) →
            buffer_of st2 (str_value h) = Some (resize (length bs + 2) None cs) ∧
            string_of st2 (str_value h) = cstr_bytes (resize (length bs + 2) None cs))
    as Hread.
  { intros st2 E.
    assert (blocks st2 !! h = Some (BValue (S rc) t (Some (mk_ptr b' 0)))) as H1
      by (rewrite E; apply lookup_insert_eq).
    assert (blocks st2 !! b' = Some (BBytes (resize (length bs + 2) None cs))) as H2
      by (rewrite E, lookup_insert_ne by done; exact Hb').
    split; [by eapply buffer_of_lookup|by eapply string_of_lookup]. }
  destruct (Hread (set_blocks <[h := BValue (S rc) t (Some (mk_ptr b' 0))]> st1) eq_refl)
    as [Hbuf Hstr].
  split; [exact Hbuf|]. split; [apply length_resize|].
  split; [intros ->; rewrite length_resize; lia|].
  destruct (resize_cstr cs bs Hs) as [y Hy].
  split.
  - rewrite Hy. apply cstr_bytes_layout in Hs as (_ & rest' & ->).
    replace (S (length bs)) with (length (Some <$> bs) + 1)%nat
      by (rewrite length_fmap; lia).
    by rewrite !take_app_add.
  - rewrite Hstr, Hy. apply cstr_bytes_layout.
    apply cstr_bytes_layout in Hs as (Hn & _). split; [done|]. by exists [y].
Qed.

Lemma c_string_append_other_type_witness :
  ∃ (st' : state) (cs' : list cell),
    c_string_append [str_value 0; mk_value MRB_TT_NIL (U_i 0)] 1 (example_state [Grant])
      = Ok ([str_value 0; mk_value MRB_TT_NIL (U_i 0)], st') ∧
    buffer_of st' (str_value 0) = Some cs' ∧
    length cs' = (length (bytes_of "hello") + 2)%nat ∧
    (length (cells_of (bytes_of "hello")) = S (length (bytes_of "hello")) →
     length cs' = S (length (cells_of (bytes_of "hello")))) ∧
    take (S (length (bytes_of "hello"))) cs'
      = take (S (length (bytes_of "hello"))) (cells_of (bytes_of "hello")) ∧
    string_of st' (str_value 0) = Some (bytes_of "hello").
Proof.
  apply (c_string_append_other_type 0 1 (cells_of (bytes_of "hello"))
           (bytes_of "hello") (mk_value MRB_TT_NIL (U_i 0)) [] 1
           (example_state [Grant]) Grant []).
  - reflexivity.
  - reflexivity.
  - vm_compute. reflexivity.
  - simpl. discriminate.
  - simpl. discriminate.
  - reflexivity.
  - discriminate.
Defined.

(** C10 as stated fails: after [nil] has been appended to ["foo"] once,
    the buffer has 5 cells, one of them spare; appending [nil] again
    reallocates it to [length + 2 = 5] cells, the size it has, and not
    to one cell more. *)
Lemma c_string_append_nil_twice_keeps_size :
  (∃ st1 st2 cs1 cs2,
     c_string_append [str_value 0; mk_value MRB_TT_NIL (U_i 0)] 1
         (foo_state [Grant; Grant])
       = Ok ([str_value 0; mk_value MRB_TT_NIL (U_i 0)], st1) ∧
     buffer_of st1 (str_value 0) = Some cs1 ∧
     string_of st1 (str_value 0) = Some (bytes_of "foo") ∧
     c_string_append [str_value 0; mk_value MRB_TT_NIL (U_i 0)] 1 st1
       = Ok ([str_value 0; mk_value MRB_TT_NIL (U_i 0)], st2) ∧
     buffer_of st2 (str_value 0) = Some cs2 ∧
     length cs1 = 5%nat ∧ length cs2 = 5%nat) ∧
  ¬ (∃ st1 st2 cs1 cs2,
       c_string_append [str_value 0; mk_value MRB_TT_NIL (U_i 0)] 1
           (foo_state [Grant; Grant])
         = Ok ([str_value 0; mk_value MRB_TT_NIL (U_i 0)], st1) ∧
       buffer_of st1 (str_value 0) = Some cs1 ∧
       c_string_append [str_value 0; mk_value MRB_TT_NIL (U_i 0)] 1 st1
         = Ok ([str_value 0; mk_value MRB_TT_NIL (U_i 0)], st2) ∧
       buffer_of st2 (str_value 0) = Some cs2 ∧
       length cs2 = S (length cs1)).
Proof.
  split.
  - do 4 eexists.
    split; [vm_compute; reflexivity|].
    split; [vm_compute; reflexivity|].
    split; [vm_compute; reflexivity|].
    split; [vm_compute; reflexivity|].
    split; [vm_compute; reflexivity|].
    split; reflexivity.
  - intros (st1 & st2 & cs1 & cs2 & Hrun1 & Hbuf1 & Hrun2 & Hbuf2 & Hlen).
    vm_compute in Hrun1. injection Hrun1 as <-.
    vm_compute in Hbuf1. injection Hbuf1 as <-.
    vm_compute in Hrun2. injection Hrun2 as <-.
    vm_compute in Hbuf2. injection Hbuf2 as <-.
    discriminate Hlen.
Qed.

(** C5 (as amended): appending an integer [i] (the reallocation being
    granted) leaves the receiver with a buffer of [length + 2] cells,
    one more than a buffer that held just the string and its
    terminator: the old bytes, the single raw byte [i mod 256], the
    terminator.  The string therefore reads back one byte longer when
    [i mod 256] is not 0; when it is 0 the appended byte is itself a
    terminator and the string reads back at its old length. *)
Theorem c_string_append_fixnum (h b : nat) (cs : list cell) (bs : list byte)
    (i : Z) (rest : list mrb_value) (argc : Z) (st : state)
    (o : outcome) (os : list outcome) :
  string_object st h = Some (b, cs) →
  cstr_bytes cs = Some bs →
  Z.of_nat (length bs) + 1 < INT_MAX →
  oracle st = o :: os → o ≠ Refuse →
  ∃ st' : state,
    c_string_append (str_value h :: int_value i :: rest) argc st
      = Ok (str_value h :: int_value i :: rest, st') ∧
    buffer_of st' (str_value h)
      = Some ((Some <$> bs) ++ [Some (byte_of_Z i); Some x00]) ∧
    (length cs = S (length bs) →
     length ((Some <$> bs) ++ [Some (byte_of_Z i); Some x00]) = S (length cs)) ∧
    uint8_to_Z (byte_of_Z i) = i mod 256 ∧
    string_of st' (str_value h)
      = Some (if decide (i mod 256 = 0) then bs else bs ++ [byte_of_Z i]).
Proof.
  intros Hobj Hs Hlen Ho Hg.
  assert (tt (int_value i) ≠ MRB_TT_STRING) as Htt by done.
  append_start Hobj Hs Hlen Ho Hg Htt.
  destruct (mrbc_realloc_granted b (Z.of_nat (length bs) + 1 + 1) cs st o os
              Hb Ho Hg ltac:(lia))
    as (b' & st1 & Hre & Hb' & Hframe & Hcase & Ho1 & Hc1).
  mstep Hre.
  assert (h ≠ b') as Hne'.
  { eapply realloc_handle_distinct; [exact Hh|done|]. tauto. }
  replace (Z.to_nat (Z.of_nat (length bs) + 1 + 1)) with (length bs + 2)%nat
    in Hb' by lia.
  destruct (resize_cstr cs bs Hs) as [y Hy]. rewrite Hy in Hb'.
  rewrite bool_decide_eq_true_2 by done.
  mred.
  erewrite store_byte_run;
    [|exact Hb'|norm_state; rewrite length_app, length_fmap; simpl; lia].
  cbv beta iota.
  erewrite store_byte_run; [|norm_state; apply lookup_insert_eq|].
  2:{ norm_state. rewrite length_insert, length_app, length_fmap. simpl. lia. }
  cbv beta iota. norm_state.
  mred.
  erewrite set_handle_str_run;
    [|norm_state; rewrite !lookup_insert_ne by done;
      rewrite Hframe by done; exact Hh].
  cbv beta iota. norm_state.
  eexists. split; [reflexivity|].
  set (final := (Some <$> bs) ++ [Some (byte_of_Z i); Some x00]).
  match goal with
  | |- context [buffer_of ?s _] =>
    assert (blocks s !! h = Some (BValue (S rc) t (Some (mk_ptr b' 0)))) as H1
      by (norm_state; apply lookup_insert_eq);
    assert (blocks s !! b' = Some (BBytes final)) as H2
  end.
  { norm_state. rewrite lookup_insert_ne by done. rewrite lookup_insert_eq.
    do 2 f_equal.
    replace (Z.to_nat (0 + (Z.of_nat (length bs) + 1)))
      with (length (Some <$> bs) + 1)%nat by (rewrite length_fmap; lia).
    replace (Z.to_nat (0 + Z.of_nat (length bs)))
      with (length (Some <$> bs) + 0)%nat by (rewrite length_fmap; lia).
    rewrite insert_app_r. simpl. rewrite (insert_app_r _ _ 1). reflexivity. }
  split; [by eapply buffer_of_lookup|].
  split; [intros E; unfold final; rewrite E, length_app, length_fmap; simpl; lia|].
  split; [apply uint8_of_Z|].
  erewrite string_of_lookup; [|exact H1|exact H2].
  apply cstr_bytes_layout in Hs as (Hn & _).
  apply cstr_bytes_layout. unfold final.
  destruct (decide (i mod 256 = 0)) as [Hz|Hnz].
  - split; [done|]. exists [Some x00].
    apply byte_of_Z_zero_iff in Hz. by rewrite Hz.
  - split.
    + rewrite elem_of_app, list_elem_of_singleton.
      intros [?|E]; [done|]. symmetry in E. by apply byte_of_Z_zero_iff in E.
    + exists []. rewrite fmap_app, <- app_assoc. reflexivity.
Qed.

Lemma c_string_append_fixnum_witness :
  ∃ st' : state,
    c_string_append [str_value 0; int_value 33] 1 (foo_state [Grant])
      = Ok ([str_value 0; int_value 33], st') ∧
    buffer_of st' (str_value 0)
      = Some ((Some <$> bytes_of "foo") ++ [Some (byte_of_Z 33); Some x00]) ∧
    (length (cells_of (bytes_of "foo")) = S (length (bytes_of "foo")) →
     length ((Some <$> bytes_of "foo") ++ [Some (byte_of_Z 33); Some x00])
       = S (length (cells_of (bytes_of "foo")))) ∧
    uint8_to_Z (byte_of_Z 33) = 33 mod 256 ∧
    string_of st' (str_value 0)
      = Some (if decide (33 mod 256 = 0) then bytes_of "foo"
              else bytes_of "foo" ++ [byte_of_Z 33]).
Proof.
  apply (c_string_append_fixnum 0 1 (cells_of (bytes_of "foo")) (bytes_of "foo")
           33 [] 1 (foo_state [Grant]) Grant []).
  - reflexivity.
  - reflexivity.
  - vm_compute. reflexivity.
  - reflexivity.
  - discriminate.
Defined.

Example c_string_append_foo_33 :
  ∃ st', c_string_append [str_value 0; int_value 33] 1 (foo_state [Grant])
           = Ok ([str_value 0; int_value 33], st') ∧
         string_of st' (str_value 0) = Some (bytes_of "foo!").
Proof. eexists. split; vm_compute; reflexivity. Qed.

(** C5 as stated fails: appending the integer 0 to ["foo"] leaves a
    string that reads back as ["foo"], of length 3 and not 4. *)
Lemma c_string_append_zero_keeps_length :
  (∃ st', c_string_append [str_value 0; int_value 0] 1 (foo_state [Grant])
            = Ok ([str_value 0; int_value 0], st') ∧
          string_of st' (str_value 0) = Some (bytes_of "foo") ∧
          length (bytes_of "foo") = 3%nat) ∧
  ¬ (∃ st' bs', c_string_append [str_value 0; int_value 0] 1 (foo_state [Grant])
                  = Ok ([str_value 0; int_value 0], st') ∧
                string_of st' (str_value 0) = Some bs' ∧
                length bs' = S (length (bytes_of "foo"))).
Proof.
  split.
  - eexists. split; [vm_compute; reflexivity|]. split; vm_compute; reflexivity.
  - intros (st' & bs' & Hrun & Hstr & Hlen).
    vm_compute in Hrun. injection Hrun as <-.
    vm_compute in Hstr. injection Hstr as <-. discriminate Hlen.
Qed.

(** ** Indexed read *)

Lemma SET_NIL_RETURN_tag (v0 : mrb_value) (rest : list mrb_value) :
  tt <$> SET_NIL_RETURN (v0 :: rest) !! 0%nat = Some MRB_TT_NIL.
Proof. reflexivity. Qed.

(** After a granted construction, the receiver of the running operator
    is still the string object it was. *)
Lemma string_object_frame (st st' : state) (h b : nat) (cs : list cell) :
  string_object st h = Some (b, cs) →
  blocks st' !! h = blocks st !! h →
  blocks st' !! b = blocks st !! b →
  string_object st' h = Some (b, cs).
Proof.
  intros Hobj Eh Eb.
  destruct (string_object_inv _ _ _ _ Hobj) as ([rc [t Hh]] & Hb & _).
  unfold string_object. rewrite Eh, Hh. simpl. by rewrite Eb, Hb.
Qed.

(** C3: the single-index read adds the length to a negative index.  For
    an index then inside the string (the allocator granting the two
    requests of the constructor) slot 0 receives a fresh string object
    holding exactly the byte at that position; for any other index slot
    0 receives the nil tag, and nothing is reported on the console. *)
Theorem c_string_slice_index (h b : nat) (cs : list cell) (bs : list byte)
    (idx : Z) (rest : list mrb_value) (st : state) :
  string_object st h = Some (b, cs) →
  cstr_bytes cs = Some bs →
  Z.of_nat (length bs) <= INT_MAX →
  int_range idx →
  let L := Z.of_nat (length bs) in
  let i := if idx <? 0 then idx + L else idx in
  (0 <= i < L →
   ∀ o1 o2 os, oracle st = o1 :: o2 :: os → o1 ≠ Refuse → o2 ≠ Refuse →
   ∃ (c : byte) (h' : nat) (st' : state),
     bs !! Z.to_nat i = Some c ∧ c ≠ x00 ∧
     c_string_slice (str_value h :: int_value idx :: rest) 1 st
       = Ok (str_value h' :: int_value idx :: rest, st') ∧
     blocks st !! h' = None ∧
     buffer_of st' (str_value h') = Some [Some c; Some x00] ∧
     string_of st' (str_value h') = Some [c]) ∧
  (¬ (0 <= i < L) →
   ∃ (v' : list mrb_value) (st' : state),
     c_string_slice (str_value h :: int_value idx :: rest) 1 st = Ok (v', st') ∧
     tt <$> v' !! 0%nat = Some MRB_TT_NIL ∧
     console st' = console st).
Proof.
  intros Hobj Hs Hlen Hidx L i.
  destruct (string_object_inv _ _ _ _ Hobj) as ([rc [t Hh]] & Hb & Hne).
  assert (wrap32 L = L) as HwL.
  { apply wrap32_small. unfold int_range, INT_MIN, INT_MAX in *. lia. }
  assert (idx < 0 → wrap32 (idx + L) = idx + L) as Hwi.
  { intros. apply wrap32_small. unfold int_range, INT_MIN, INT_MAX in *. lia. }
  (* the run up to the computation of [ch] *)
  assert (∀ z : Z,
    (if 0 <=? idx
     then if idx <? L
          then b0 ← load_byte (ptr_add (mk_ptr b 0) idx); mret (uint8_to_Z b0)
          else mret 0
     else if 0 <=? wrap32 (idx + L)
          then b0 ← load_byte (ptr_add (mk_ptr b 0) (wrap32 (idx + L)));
               mret (uint8_to_Z b0)
          else mret 0) st = Ok (z, st) →
    c_string_slice (str_value h :: int_value idx :: rest) 1 st =
    (if 0 <? z then
       value ← mrbc_string_new None 1;
       oh ← get_handle value;
       match oh with
       | None => mret (str_value h :: int_value idx :: rest)
       | Some _ =>
         s ← MRBC_STRING_CSTR value;
         _ ← store_byte s (byte_of_Z z);
         s ← MRBC_STRING_CSTR value;
         _ ← store_byte (ptr_add s 1) x00;
         _ ← mrbc_release (str_value h :: int_value idx :: rest);
         mret (SET_RETURN (str_value h :: int_value idx :: rest) value)
       end
     else
       _ ← mrbc_release (str_value h :: int_value idx :: rest);
       mret (SET_NIL_RETURN (str_value h :: int_value idx :: rest))) st) as Hstart.
  { intros z Hch. unfold c_string_slice.
    rewrite run_bind; erewrite GET_ARG_run by reflexivity; cbv beta iota.
    unfold andM, arg_tt_is. mred. change (1 =? 1) with true. cbv beta iota.
    rewrite run_bind; erewrite GET_ARG_run by reflexivity; cbv beta iota.
    mred. rewrite bool_decide_eq_true_2 by done.
    rewrite run_bind; erewrite GET_ARG_run by reflexivity; cbv beta iota.
    rewrite run_bind.
    (erewrite MRBC_STRING_CSTR_run; [|reflexivity|exact Hh]); cbv beta iota.
    rewrite run_bind.
    (erewrite strlen_run; [|exact Hb|simpl; lia|exact Hs]); cbv beta iota.
    fold L. rewrite HwL. mred. rewrite Hch. reflexivity. }
  assert (∀ j c, 0 <= j → bs !! Z.to_nat j = Some c →
            load_byte (ptr_add (mk_ptr b 0) j) st = Ok (c, st)) as Hload.
  { intros j c Hj Hc. eapply load_byte_run; [exact Hb|simpl; lia|].
    simpl. replace (0 + j) with j by lia.
    by apply (cstr_bytes_lookup cs bs). }
  split.
  - (* in range *)
    intros Hin o1 o2 os Ho Hg1 Hg2.
    destruct (lookup_lt_is_Some_2 bs (Z.to_nat i)) as [c Hc]; [lia|].
    destruct (cstr_bytes_lookup cs bs _ c Hs Hc) as [_ Hcz].
    assert (0 < uint8_to_Z c) as Hpos.
    { pose proof (uint8_to_Z_range c).
      destruct (decide (uint8_to_Z c = 0)) as [E|]; [|lia].
      by apply uint8_zero_iff in E. }
    rewrite (Hstart (uint8_to_Z c)).
    2:{ subst i. destruct (Z.ltb_spec idx 0).
        - destruct (Z.leb_spec 0 idx); [lia|].
          rewrite Hwi by lia.
          destruct (Z.leb_spec 0 (idx + L)); [|lia].
          rewrite run_bind, (Hload (idx + L) c) by (done || lia). reflexivity.
        - destruct (Z.leb_spec 0 idx); [|lia].
          destruct (Z.ltb_spec idx L); [|lia].
          rewrite run_bind, (Hload idx c) by (done || lia). reflexivity. }
    destruct (Z.ltb_spec 0 (uint8_to_Z c)); [|lia].
    rewrite byte_of_uint8.
    destruct (mrbc_string_new_run None 1 [] st o1 o2 os Ho Hg1 Hg2
                ltac:(unfold INT_MAX; lia) eq_refl)
      as (h' & b' & st1 & Hnew & Hh' & Hb' & Hne' & Hbl & Ho1 & Hc1).
    mstep Hnew. mred.
    assert (blocks st1 !! h' = Some (BValue 1 (Some MRB_TT_STRING) (Some (mk_ptr b' 0))))
      as Hh1 by (rewrite Hbl; apply lookup_insert_eq).
    assert (blocks st1 !! b' = Some (BBytes [Some x00; None])) as Hb1.
    { rewrite Hbl, lookup_insert_ne by done. apply lookup_insert_eq. }
    (erewrite MRBC_STRING_CSTR_run; [|reflexivity|exact Hh1]); cbv beta iota.
    rewrite run_bind.
    (erewrite store_byte_run; [|exact Hb1|simpl; lia]); cbv beta iota.
    norm_state. rewrite run_bind.
    (erewrite MRBC_STRING_CSTR_run;
       [|reflexivity|norm_state; rewrite lookup_insert_ne by done; exact Hh1]);
      cbv beta iota.
    rewrite run_bind.
    (erewrite store_byte_run; [|norm_state; apply lookup_insert_eq|simpl; lia]);
      cbv beta iota.
    norm_state. rewrite insert_insert_eq.
    change (<[Z.to_nat (0 + 1) := Some x00]> (<[Z.to_nat 0 := Some c]> [Some x00; None]))
      with [Some c; Some x00].
    set (st3 := mk_state _ _ _).
    assert (h ≠ h' ∧ h ≠ b' ∧ b ≠ h' ∧ b ≠ b') as (N1 & N2 & N3 & N4)
      by (repeat split; congruence).
    assert (string_object st3 h = Some (b, cs)) as Hobj3.
    { apply (string_object_frame st); [done| |]; unfold st3; norm_state;
        rewrite lookup_insert_ne, Hbl, !lookup_insert_ne by done; done. }
    destruct (mrbc_release_string h b cs (int_value idx :: rest) st3 Hobj3)
      as (st4 & Hrel & _ & _ & Hframe).
    mstep Hrel. rewrite run_ret.
    exists c, h', st4. split; [done|]. split; [done|]. split; [done|].
    split; [done|].
    assert (blocks st4 !! h' = Some (BValue 1 (Some MRB_TT_STRING) (Some (mk_ptr b' 0))))
      as H1.
    { rewrite Hframe by done. unfold st3. norm_state.
      rewrite lookup_insert_ne by done. exact Hh1. }
    assert (blocks st4 !! b' = Some (BBytes [Some c; Some x00])) as H2.
    { rewrite Hframe by done. unfold st3. norm_state. apply lookup_insert_eq. }
    split; [by eapply buffer_of_lookup|].
    erewrite string_of_lookup; [|exact H1|exact H2].
    simpl. rewrite decide_False by done. reflexivity.
  - (* out of range *)
    intros Hout.
    rewrite (Hstart 0).
    2:{ subst i. destruct (Z.ltb_spec idx 0).
        - destruct (Z.leb_spec 0 idx); [lia|].
          rewrite Hwi by lia.
          destruct (Z.leb_spec 0 (idx + L)); [lia|]. reflexivity.
        - destruct (Z.leb_spec 0 idx); [|lia].
          destruct (Z.ltb_spec idx L); [lia|]. reflexivity. }
    change (0 <? 0) with false. cbv beta iota.
    destruct (mrbc_release_string h b cs (int_value idx :: rest) st Hobj)
      as (st' & Hrel & _ & Hc' & _).
    mstep Hrel. rewrite run_ret.
    eexists _, st'. split; [reflexivity|]. split; [reflexivity|done].
Qed.

Lemma c_string_slice_index_witness :
  ∃ (c : byte) (h' : nat) (st' : state),
    bytes_of "hello" !! 4%nat = Some c ∧ c ≠ x00 ∧
    c_string_slice [str_value 0; int_value (-1)] 1 (example_state all_granted)
      = Ok ([str_value h'; int_value (-1)], st') ∧
    blocks (example_state all_granted) !! h' = None ∧
    buffer_of st' (str_value h') = Some [Some c; Some x00] ∧
    string_of st' (str_value h') = Some [c].
Proof.
  assert (Z.of_nat (length (bytes_of "hello")) <= INT_MAX) as H1
    by (vm_compute; discriminate).
  assert (int_range (-1)) as H2 by (unfold int_range, INT_MIN, INT_MAX; lia).
  destruct (c_string_slice_index 0 1 (cells_of (bytes_of "hello")) (bytes_of "hello")
              (-1) [] (example_state all_granted) eq_refl eq_refl H1 H2)
    as [Hin _].
  apply (Hin ltac:(simpl; lia) Grant Grant [Grant; Grant]);
    [reflexivity|discriminate|discriminate].
Defined.

Example c_string_slice_hello_last :
  ∃ st', c_string_slice [str_value 0; int_value (-1)] 1 (example_state all_granted)
           = Ok ([str_value 6; int_value (-1)], st') ∧
         string_of st' (str_value 6) = Some (bytes_of "o").
Proof. eexists. split; vm_compute; reflexivity. Qed.

Example c_string_slice_hello_10 :
  ∃ st', c_string_slice [str_value 0; int_value 10] 1 (example_state all_granted)
           = Ok ([mk_value MRB_TT_NIL (U_handle (Some 0%nat)); int_value 10], st').
Proof. eexists. vm_compute. reflexivity. Qed.

Lemma cells_slice (cs : list cell) (bs : list byte) (i n : nat) :
  cstr_bytes cs = Some bs → (i + n <= length bs)%nat →
  take n (drop i cs) = Some <$> take n (drop i bs).
Proof.
  intros (_ & rest & ->)%cstr_bytes_layout Hin.
  rewrite drop_app_le by (rewrite length_fmap; lia).
  rewrite take_app_le by (rewrite length_drop, length_fmap; lia).
  by rewrite fmap_take, fmap_drop.
Qed.

Lemma not_elem_of_slice (bs : list byte) (i n : nat) (x : byte) :
  x ∉ bs → x ∉ take n (drop i bs).
Proof.
  intros Hn Hx. apply Hn.
  apply list_elem_of_lookup in Hx as [j Hj].
  rewrite lookup_take in Hj. case_decide; [|done].
  rewrite lookup_drop in Hj. by eapply list_elem_of_lookup_2.
Qed.

(** C4: the range read adds the length to a negative index and clamps
    the span to the bytes that remain.  When the adjusted index and the
    clamped span are both non-negative (and the allocator grants the
    constructor's two requests) slot 0 receives a fresh string holding
    the [min span (L - i)] bytes from position [i]; otherwise slot 0
    receives the nil tag and nothing is reported. *)
Theorem c_string_slice_range (h b : nat) (cs : list cell) (bs : list byte)
    (idx span : Z) (rest : list mrb_value) (st : state) :
  string_object st h = Some (b, cs) →
  cstr_bytes cs = Some bs →
  Z.of_nat (length bs) < INT_MAX →
  int_range idx → int_range span →
  let L := Z.of_nat (length bs) in
  let i := if idx <? 0 then idx + L else idx in
  let rlen := Z.min span (L - i) in
  (0 <= i → 0 <= rlen →
   ∀ o1 o2 os, oracle st = o1 :: o2 :: os → o1 ≠ Refuse → o2 ≠ Refuse →
   ∃ (h' : nat) (st' : state),
     c_string_slice (str_value h :: int_value idx :: int_value span :: rest) 2 st
       = Ok (str_value h' :: int_value idx :: int_value span :: rest, st') ∧
     blocks st !! h' = None ∧
     string_of st' (str_value h')
       = Some (take (Z.to_nat rlen) (drop (Z.to_nat i) bs)) ∧
     Z.of_nat (length (take (Z.to_nat rlen) (drop (Z.to_nat i) bs))) = rlen) ∧
  (i < 0 ∨ rlen < 0 →
   ∃ (v' : list mrb_value) (st' : state),
     c_string_slice (str_value h :: int_value idx :: int_value span :: rest) 2 st
       = Ok (v', st') ∧
     tt <$> v' !! 0%nat = Some MRB_TT_NIL ∧
     console st' = console st).
Proof.
  intros Hobj Hs Hlen Hidx Hspan L i rlen.
  destruct (string_object_inv _ _ _ _ Hobj) as ([rc [t Hh]] & Hb & Hne).
  unfold int_range, INT_MIN, INT_MAX in Hidx, Hspan, Hlen.
  assert (wrap32 L = L) as HwL.
  { apply wrap32_small. unfold int_range, INT_MIN, INT_MAX. lia. }
  assert ((if idx <? 0 then wrap32 (idx + L) else idx) = i) as Hi.
  { subst i. destruct (Z.ltb_spec idx 0); [|done].
    apply wrap32_small. unfold int_range, INT_MIN, INT_MAX. lia. }
  assert (0 <= i →
          (if span <? wrap32 (L - i) then span else wrap32 (L - i)) = rlen) as Hr.
  { intros Hi0. subst rlen.
    assert (i <= INT_MAX) as Hmax.
    { subst i. unfold INT_MAX. destruct (Z.ltb_spec idx 0); lia. }
    unfold INT_MAX in Hmax.
    rewrite wrap32_small by (unfold int_range, INT_MIN, INT_MAX; lia).
    destruct (Z.ltb_spec span (L - i)); lia. }
  (* the run up to the test of the adjusted index *)
  assert (
    c_string_slice (str_value h :: int_value idx :: int_value span :: rest) 2 st =
    (if 0 <=? i then
       i2 ← get_i (int_value span);
       let rlen := if i2 <? wrap32 (L - i) then i2 else wrap32 (L - i) in
       if 0 <=? rlen then
         p ← MRBC_STRING_CSTR (str_value h);
         value ← mrbc_string_new (Some (ptr_add p i)) rlen;
         oh ← get_handle value;
         match oh with
         | None => mret (str_value h :: int_value idx :: int_value span :: rest)
         | Some _ =>
           _ ← mrbc_release (str_value h :: int_value idx :: int_value span :: rest);
           mret (SET_RETURN (str_value h :: int_value idx :: int_value span :: rest)
                            value)
         end
       else
         _ ← mrbc_release (str_value h :: int_value idx :: int_value span :: rest);
         mret (SET_NIL_RETURN (str_value h :: int_value idx :: int_value span :: rest))
     else
       _ ← mrbc_release (str_value h :: int_value idx :: int_value span :: rest);
       mret (SET_NIL_RETURN (str_value h :: int_value idx :: int_value span :: rest)))
      st) as Hstart.
  { unfold c_string_slice, andM, arg_tt_is.
    mrun. change (2 =? 1) with false. cbv beta iota.
    mrun. change (2 =? 2) with true. cbv beta iota.
    mrun. rewrite !bool_decide_eq_true_2 by done. cbv beta iota.
    mrun. rewrite !bool_decide_eq_true_2 by done. cbv beta iota.
    mrun.
    (erewrite MRBC_STRING_CSTR_run; [|reflexivity|exact Hh]); cbv beta iota.
    rewrite run_bind.
    (erewrite strlen_run; [|exact Hb|simpl; lia|exact Hs]); cbv beta iota.
    fold L. rewrite HwL. mred. cbv zeta. rewrite Hi. reflexivity. }
  rewrite Hstart. clear Hstart.
  assert (∃ (v' : list mrb_value) (st' : state),
            (_ ← mrbc_release (str_value h :: int_value idx :: int_value span :: rest);
             mret (SET_NIL_RETURN
                     (str_value h :: int_value idx :: int_value span :: rest))) st
              = Ok (v', st') ∧
            tt <$> v' !! 0%nat = Some MRB_TT_NIL ∧ console st' = console st) as Hnil.
  { destruct (mrbc_release_string h b cs (int_value idx :: int_value span :: rest)
                st Hobj) as (st' & Hrel & _ & Hc' & _).
    mstep Hrel. rewrite run_ret.
    eexists _, st'. split; [reflexivity|]. split; [reflexivity|done]. }
  split.
  - intros Hi0 Hr0 o1 o2 os Ho Hg1 Hg2.
    destruct (Z.leb_spec 0 i); [|lia].
    mred. cbv zeta. rewrite (Hr Hi0).
    destruct (Z.leb_spec 0 rlen); [|lia].
    rewrite run_bind.
    (erewrite MRBC_STRING_CSTR_run; [|reflexivity|exact Hh]); cbv beta iota.
    assert (Z.to_nat i + Z.to_nat rlen <= length bs)%nat as Hfit by lia.
    pose proof (cstr_bytes_length cs bs Hs) as Hcl.
    assert (load_cells (ptr_add (mk_ptr b 0) i) rlen st =
            Ok (Some <$> take (Z.to_nat rlen) (drop (Z.to_nat i) bs), st)) as Hld.
    { destruct (decide (rlen = 0)) as [->|].
      - rewrite load_cells_zero. by rewrite take_0.
      - erewrite load_cells_run;
          [|exact Hb|lia|simpl; lia|simpl; lia].
        simpl. replace (0 + i) with i by lia.
        by rewrite (cells_slice cs bs). }
    destruct (mrbc_string_new_run (Some (ptr_add (mk_ptr b 0) i)) rlen _ st
                o1 o2 os Ho Hg1 Hg2 ltac:(unfold INT_MAX; lia) Hld)
      as (h' & b' & st1 & Hnew & Hh' & Hb' & Hne' & Hbl & Ho1 & Hc1).
    mstep Hnew. mred.
    assert (h ≠ h' ∧ h ≠ b' ∧ b ≠ h' ∧ b ≠ b') as (N1 & N2 & N3 & N4)
      by (repeat split; congruence).
    assert (string_object st1 h = Some (b, cs)) as Hobj1.
    { apply (string_object_frame st); [done| |];
        rewrite Hbl, !lookup_insert_ne by done; done. }
    destruct (mrbc_release_string h b cs (int_value idx :: int_value span :: rest)
                st1 Hobj1) as (st2 & Hrel & _ & _ & Hframe).
    rewrite Hrel. cbv beta iota. rewrite run_ret.
    exists h', st2. split; [done|]. split; [done|].
    assert (blocks st2 !! h' = Some (BValue 1 (Some MRB_TT_STRING) (Some (mk_ptr b' 0))))
      as H1.
    { rewrite Hframe, Hbl by done. apply lookup_insert_eq. }
    assert (blocks st2 !! b' =
            Some (BBytes ((Some <$> take (Z.to_nat rlen) (drop (Z.to_nat i) bs))
                          ++ [Some x00]))) as H2.
    { rewrite Hframe, Hbl, lookup_insert_ne by done. apply lookup_insert_eq. }
    split.
    + erewrite string_of_lookup; [|exact H1|exact H2].
      apply cstr_bytes_layout. split; [|by exists []].
      apply not_elem_of_slice. by apply cstr_bytes_layout in Hs as [? _].
    + rewrite length_take, length_drop. lia.
  - intros Hneg.
    destruct (Z.leb_spec 0 i) as [Hi0|]; [|exact Hnil].
    mred. cbv zeta. rewrite (Hr Hi0).
    destruct (Z.leb_spec 0 rlen); [lia|]. exact Hnil.
Qed.

Lemma c_string_slice_range_witness :
  ∃ (h' : nat) (st' : state),
    c_string_slice [str_value 0; int_value 3; int_value 100] 2
        (example_state all_granted)
      = Ok ([str_value h'; int_value 3; int_value 100], st') ∧
    blocks (example_state all_granted) !! h' = None ∧
    string_of st' (str_value h') = Some (take 2 (drop 3 (bytes_of "hello"))) ∧
    Z.of_nat (length (take 2 (drop 3 (bytes_of "hello")))) = 2.
Proof.
  assert (Z.of_nat (length (bytes_of "hello")) < INT_MAX) as H1
    by (vm_compute; reflexivity).
  assert (int_range 3) as H2 by (unfold int_range, INT_MIN, INT_MAX; lia).
  assert (int_range 100) as H3 by (unfold int_range, INT_MIN, INT_MAX; lia).
  destruct (c_string_slice_range 0 1 (cells_of (bytes_of "hello")) (bytes_of "hello")
              3 100 [] (example_state all_granted) eq_refl eq_refl H1 H2 H3)
    as [Hin _].
  apply (Hin ltac:(simpl; lia) ltac:(simpl; lia) Grant Grant [Grant; Grant]);
    [reflexivity|discriminate|discriminate].
Defined.

Example c_string_slice_hello_1_3 :
  ∃ st', c_string_slice [str_value 0; int_value 1; int_value 3] 2
           (example_state all_granted)
           = Ok ([str_value 6; int_value 1; int_value 3], st') ∧
         string_of st' (str_value 6) = Some (bytes_of "ell").
Proof. eexists. split; vm_compute; reflexivity. Qed.

Example c_string_slice_hello_3_100 :
  ∃ st', c_string_slice [str_value 0; int_value 3; int_value 100] 2
           (example_state all_granted)
           = Ok ([str_value 6; int_value 3; int_value 100], st') ∧
         string_of st' (str_value 6) = Some (bytes_of "lo").
Proof. eexists. split; vm_compute; reflexivity. Qed.

(** ** Programs that leave the console alone *)

Lemma keeps_ret {A} (a : A) : keeps_console (mret a).
Proof. intros st a' st' E. rewrite run_ret in E. by simplify_eq. Qed.

Lemma keeps_raise {A} (e : fault) : keeps_console (raise (A := A) e).
Proof. by intros st a st'. Qed.

Lemma keeps_bind {A B} (m : M A) (f : A → M B) :
  keeps_console m → (∀ a, keeps_console (f a)) → keeps_console (m ≫= f).
Proof.
  intros Hm Hf st b st'. rewrite run_bind.
  destruct (m st) as [[a st1]|] eqn:E; [|done].
  intros Hrun. rewrite (Hf a _ _ _ Hrun). by eapply Hm.
Qed.

Lemma keeps_lift_opt {A} (e : fault) (o : option A) : keeps_console (lift_opt e o).
Proof. destruct o; [apply keeps_ret|apply keeps_raise]. Qed.

Lemma keeps_set_blocks (f : gmap nat block → gmap nat block) :
  keeps_console (modify (set_blocks f)).
Proof. intros st a st' E. unfold modify in E. by simplify_eq. Qed.

Lemma keeps_get_state : keeps_console get_state.
Proof. intros st a st' E. unfold get_state in E. by simplify_eq. Qed.

Lemma keeps_lookup_bytes (b : nat) : keeps_console (lookup_bytes b).
Proof.
  intros st a st'. unfold lookup_bytes.
  destruct (blocks st !! b) as [[|]|]; try done. intros E. by simplify_eq.
Qed.

Lemma keeps_lookup_value (h : nat) : keeps_console (lookup_value h).
Proof.
  intros st a st'. unfold lookup_value.
  destruct (blocks st !! h) as [[|]|]; try done. intros E. by simplify_eq.
Qed.

Lemma keeps_next_outcome : keeps_console next_outcome.
Proof.
  intros st a st'. unfold next_outcome.
  destruct (oracle st); intros E; by simplify_eq.
Qed.

Lemma keeps_free_block (b : nat) : keeps_console (free_block b).
Proof.
  intros st a st'. unfold free_block.
  destruct (blocks st !! b); [|done]. intros E. by simplify_eq.
Qed.

Lemma keeps_get_handle (v : mrb_value) : keeps_console (get_handle v).
Proof. unfold get_handle. destruct (u v); [apply keeps_raise|apply keeps_ret]. Qed.

Create HintDb keeps discriminated.

#[local] Hint Resolve keeps_ret keeps_raise keeps_lift_opt keeps_set_blocks
  keeps_get_state keeps_lookup_bytes keeps_lookup_value keeps_next_outcome
  keeps_free_block keeps_get_handle : keeps.

(** Structural descent into a program: sequencing, conditionals and
    case distinctions, with the primitives looked up in [keeps]. *)
Ltac keeps :=
  repeat first
    [ solve [auto with keeps]
    | apply keeps_bind; [|intros ?]
    | match goal with
      | |- keeps_console (match ?x with _ => _ end) => destruct x
      | |- keeps_console (let '(_, _) := ?x in _) => destruct x
      end ].

Lemma keeps_load_cells (p : ptr) (n : Z) : keeps_console (load_cells p n).
Proof. unfold load_cells. keeps. Qed.

Lemma keeps_store_cells (p : ptr) (new : list cell) :
  keeps_console (store_cells p new).
Proof. unfold store_cells. keeps. Qed.

#[local] Hint Resolve keeps_load_cells keeps_store_cells : keeps.

Lemma keeps_memmove (dst src : ptr) (n : Z) : keeps_console (memmove dst src n).
Proof. unfold memmove. keeps. Qed.

Lemma keeps_store_byte (p : ptr) (c : byte) : keeps_console (store_byte p c).
Proof. unfold store_byte. keeps. Qed.

Lemma keeps_MRBC_STRING_CSTR (v : mrb_value) : keeps_console (MRBC_STRING_CSTR v).
Proof. unfold MRBC_STRING_CSTR. keeps. Qed.

Lemma keeps_set_handle_str (h : nat) (p : ptr) : keeps_console (set_handle_str h p).
Proof. unfold set_handle_str. keeps. Qed.

Lemma keeps_mrbc_realloc (p : ptr) (size : Z) : keeps_console (mrbc_realloc p size).
Proof. unfold mrbc_realloc, new_block. keeps. Qed.

#[local] Hint Resolve keeps_memmove keeps_store_byte keeps_MRBC_STRING_CSTR
  keeps_set_handle_str keeps_mrbc_realloc : keeps.

(** ** Indexed splice *)

(** The run of [c_string_insert] up to the range check, for both forms
    of the call: the arguments are taken, both lengths are scanned, the
    index is adjusted and the span is clamped. *)
Lemma c_string_insert_start (h b : nat) (cs : list cell) (bs : list byte)
    (h2 b2 : nat) (cs2 : list cell) (bs2 : list byte)
    (nth : Z) (span : option Z) (rest : list mrb_value) (st : state) :
  string_object st h = Some (b, cs) → cstr_bytes cs = Some bs →
  string_object st h2 = Some (b2, cs2) → cstr_bytes cs2 = Some bs2 →
  Z.of_nat (length bs) <= INT_MAX → Z.of_nat (length bs2) <= INT_MAX →
  int_range nth →
  let L := Z.of_nat (length bs) in
  let L2 := Z.of_nat (length bs2) in
  let v := insert_args h nth span h2 rest in
  let i := adjusted_index L nth in
  let s := if wrap32 (L - i) <? span_or_default span
           then wrap32 (L - i) else span_or_default span in
  c_string_insert v (insert_argc span) st =
  (if (i <? 0) || (L <? i) || (s <? 0) then
     _ ← console_print ("IndexError" +:+ LF);
     mret v
   else
     p ← MRBC_STRING_CSTR (str_value h);
     ostr ← mrbc_realloc p (wrap32 (wrap32 (wrap32 (L + L2) - s) + 1));
     match ostr with
     | None => mret v
     | Some str =>
       _ ← memmove (ptr_add (ptr_add str i) L2)
                   (ptr_add (ptr_add str i) s)
                   (wrap32 (wrap32 (L - i) - s));
       pv ← MRBC_STRING_CSTR (str_value h2);
       _ ← memcpy (ptr_add str i) pv L2;
       _ ← store_byte (ptr_add str (wrap32 (wrap32 (L + L2) - s))) x00;
       oh ← get_handle (str_value h);
       h0 ← lift_opt NullPointer oh;
       _ ← set_handle_str h0 str;
       mret v
     end) st.
Proof.
  intros Hobj Hs Hobj2 Hs2 Hlen Hlen2 Hnth L L2 v i s.
  destruct (string_object_inv _ _ _ _ Hobj) as ([rc [t Hh]] & Hb & Hne).
  destruct (string_object_inv _ _ _ _ Hobj2) as ([rc2 [t2 Hh2]] & Hb2 & Hne2).
  unfold INT_MAX in Hlen, Hlen2. unfold int_range, INT_MIN, INT_MAX in Hnth.
  assert (wrap32 L = L) as HwL
    by (apply wrap32_small; unfold int_range, INT_MIN, INT_MAX; lia).
  assert (wrap32 L2 = L2) as HwL2
    by (apply wrap32_small; unfold int_range, INT_MIN, INT_MAX; lia).
  assert ((if nth <? 0 then wrap32 (L + nth) else nth) = i) as Hi.
  { unfold i, adjusted_index. destruct (Z.ltb_spec nth 0); [|done].
    apply wrap32_small. unfold int_range, INT_MIN, INT_MAX. lia. }
  assert (
    (v0 ← GET_ARG v 0;
     p ← MRBC_STRING_CSTR v0;
     n1 ← strlen p;
     let len1 := wrap32 n1 in
     pv ← MRBC_STRING_CSTR (str_value h2);
     n2 ← strlen pv;
     let len2 := wrap32 n2 in
     let nth := if nth <? 0 then wrap32 (len1 + nth) else nth in
     let len := if wrap32 (len1 - nth) <? span_or_default span
                then wrap32 (len1 - nth) else span_or_default span in
     if (nth <? 0) || (len1 <? nth) || (len <? 0) then
       _ ← console_print ("IndexError" +:+ LF);
       mret v
     else
       p ← MRBC_STRING_CSTR v0;
       ostr ← mrbc_realloc p (wrap32 (wrap32 (wrap32 (len1 + len2) - len) + 1));
       match ostr with
       | None => mret v
       | Some str =>
         _ ← memmove (ptr_add (ptr_add str nth) len2)
                     (ptr_add (ptr_add str nth) len)
                     (wrap32 (wrap32 (len1 - nth) - len));
         pv ← MRBC_STRING_CSTR (str_value h2);
         _ ← memcpy (ptr_add str nth) pv len2;
         _ ← store_byte (ptr_add str (wrap32 (wrap32 (len1 + len2) - len))) x00;
         oh ← get_handle v0;
         h0 ← lift_opt NullPointer oh;
         _ ← set_handle_str h0 str;
         mret v
       end) st =
    (if (i <? 0) || (L <? i) || (s <? 0) then
       _ ← console_print ("IndexError" +:+ LF);
       mret v
     else
       p ← MRBC_STRING_CSTR (str_value h);
       ostr ← mrbc_realloc p (wrap32 (wrap32 (wrap32 (L + L2) - s) + 1));
       match ostr with
       | None => mret v
       | Some str =>
         _ ← memmove (ptr_add (ptr_add str i) L2)
                     (ptr_add (ptr_add str i) s)
                     (wrap32 (wrap32 (L - i) - s));
         pv ← MRBC_STRING_CSTR (str_value h2);
         _ ← memcpy (ptr_add str i) pv L2;
         _ ← store_byte (ptr_add str (wrap32 (wrap32 (L + L2) - s))) x00;
         oh ← get_handle (str_value h);
         h0 ← lift_opt NullPointer oh;
         _ ← set_handle_str h0 str;
         mret v
       end) st) as Hbody.
  { assert (v !! 0%nat = Some (str_value h)) as Hv0 by (unfold v; by destruct span).
    rewrite run_bind, (GET_ARG_run v 0 _ st Hv0). cbv beta iota.
    rewrite run_bind.
    (erewrite MRBC_STRING_CSTR_run; [|reflexivity|exact Hh]); cbv beta iota.
    rewrite run_bind.
    (erewrite strlen_run; [|exact Hb|simpl; lia|exact Hs]); cbv beta iota.
    rewrite run_bind.
    (erewrite MRBC_STRING_CSTR_run; [|reflexivity|exact Hh2]); cbv beta iota.
    rewrite run_bind.
    (erewrite strlen_run; [|exact Hb2|simpl; lia|exact Hs2]); cbv beta iota.
    cbv zeta. fold L L2. rewrite HwL, HwL2, Hi. reflexivity. }
  rewrite <- Hbody. clear Hbody.
  unfold c_string_insert, andM, arg_tt_is. subst v.
  destruct span as [len|]; unfold insert_args, insert_argc, span_or_default, default.
  - mrun. change (3 =? 2) with false. cbv beta iota.
    mrun. change (3 =? 3) with true. cbv beta iota.
    mrun. rewrite !bool_decide_eq_true_2 by done. cbv beta iota.
    mrun. rewrite !bool_decide_eq_true_2 by done. cbv beta iota.
    mrun. rewrite !bool_decide_eq_true_2 by done. cbv beta iota.
    mrun. reflexivity.
  - mrun. change (2 =? 2) with true. cbv beta iota.
    mrun. rewrite !bool_decide_eq_true_2 by done. cbv beta iota.
    mrun. rewrite !bool_decide_eq_true_2 by done. cbv beta iota.
    mrun. reflexivity.
Qed.

(** The range check of the code, on wrapped [int] values, decides the
    index error of the specification. *)
Lemma range_check_index_error (L nth len : Z) :
  0 <= L <= INT_MAX → int_range nth →
  let i := adjusted_index L nth in
  let s := if wrap32 (L - i) <? len then wrap32 (L - i) else len in
  ((i <? 0) || (L <? i) || (s <? 0) = true ↔ index_error L nth len) ∧
  (0 <= i → s = clamped_span L i len).
Proof.
  intros HL Hnth i s. unfold int_range, INT_MIN, INT_MAX in *.
  assert (i <= 2147483647) as Hmax.
  { unfold i, adjusted_index. destruct (Z.ltb_spec nth 0); lia. }
  assert (0 <= i → s = clamped_span L i len) as Hs.
  { intros Hi0. unfold s, clamped_span.
    rewrite wrap32_small by (unfold int_range, INT_MIN, INT_MAX; lia).
    destruct (Z.ltb_spec (L - i) len); lia. }
  split; [|exact Hs].
  unfold index_error. fold i.
  rewrite !orb_true_iff, !Z.ltb_lt.
  destruct (Z.lt_ge_cases i 0) as [Hneg|Hpos]; [tauto|].
  rewrite (Hs Hpos). lia.
Qed.

(** C2: for both forms of the call, the operation reports ["IndexError"]
    and returns with the registers and the heap untouched (the console
    line is the only change of state) exactly when, after a negative
    index has had the length added and the span has been clamped to
    [length - index], the index is below 0 or above the length or the
    span is below 0. *)
Theorem c_string_insert_index_error (h b : nat) (cs : list cell) (bs : list byte)
    (h2 b2 : nat) (cs2 : list cell) (bs2 : list byte)
    (nth : Z) (span : option Z) (rest : list mrb_value) (st : state) :
  string_object st h = Some (b, cs) → cstr_bytes cs = Some bs →
  string_object st h2 = Some (b2, cs2) → cstr_bytes cs2 = Some bs2 →
  Z.of_nat (length bs) <= INT_MAX → Z.of_nat (length bs2) <= INT_MAX →
  int_range nth →
  index_error (Z.of_nat (length bs)) nth (span_or_default span) ↔
  c_string_insert (insert_args h nth span h2 rest) (insert_argc span) st =
    Ok (insert_args h nth span h2 rest,
        mk_state (blocks st) (oracle st) (console st ++ ["IndexError" +:+ LF])).
Proof.
  intros Hobj Hs Hobj2 Hs2 Hlen Hlen2 Hnth.
  rewrite (c_string_insert_start h b cs bs h2 b2 cs2 bs2 nth span rest st)
    by done.
  destruct (range_check_index_error (Z.of_nat (length bs)) nth (span_or_default span)
              ltac:(lia) Hnth) as [Hcheck _].
  cbv zeta in Hcheck.
  destruct (_ || _ || _) eqn:Echeck.
  - (* the check fires *)
    split; [intros _|intros _; by apply Hcheck].
    rewrite run_bind, console_print_run. cbv beta iota. reflexivity.
  - (* the check passes: nothing reaches the console *)
    split.
    + intros Herr. apply Hcheck in Herr. discriminate.
    + intros Hrun. exfalso.
      match type of Hrun with
      | ?m st = _ => assert (keeps_console m) as Hk by (unfold memcpy; keeps)
      end.
      apply Hk in Hrun. simpl in Hrun.
      apply (f_equal length) in Hrun. rewrite length_app in Hrun.
      simpl in Hrun. lia.
Qed.

Lemma c_string_insert_index_error_witness :
  index_error (Z.of_nat (length (bytes_of "hello"))) 6 (span_or_default (Some 2)) ↔
  c_string_insert (insert_args 0 6 (Some 2) 2 []) (insert_argc (Some 2))
      (example_state all_granted) =
    Ok (insert_args 0 6 (Some 2) 2 [],
        mk_state (blocks (example_state all_granted))
                 (oracle (example_state all_granted))
                 (console (example_state all_granted) ++ ["IndexError" +:+ LF])).
Proof.
  apply (c_string_insert_index_error 0 1 (cells_of (bytes_of "hello"))
           (bytes_of "hello") 2 3 (cells_of (bytes_of "XYZ")) (bytes_of "XYZ")
           6 (Some 2) [] (example_state all_granted)).
  - reflexivity.
  - reflexivity.
  - reflexivity.
  - reflexivity.
  - vm_compute. discriminate.
  - vm_compute. discriminate.
  - unfold int_range, INT_MIN, INT_MAX. lia.
Defined.

Example c_string_insert_hello_6 :
  index_error 5 6 2 ∧
  c_string_insert [str_value 0; int_value 6; int_value 2; str_value 2] 3
      (example_state all_granted) =
    Ok ([str_value 0; int_value 6; int_value 2; str_value 2],
        mk_state example_heap all_granted ["IndexError" +:+ LF]).
Proof. split; [right; left; vm_compute; reflexivity|vm_compute; reflexivity]. Qed.

(** ** The bytes of a splice *)

Lemma take_resize_cstr (cs : list cell) (bs : list byte) (k N : nat) :
  cstr_bytes cs = Some bs → (k <= N)%nat → (k <= length bs)%nat →
  take k (resize N None cs) = Some <$> take k bs.
Proof.
  intros (_ & rest & ->)%cstr_bytes_layout HkN HkL.
  rewrite take_resize_le by done.
  rewrite resize_le by (rewrite length_app, length_fmap; lia).
  rewrite take_app_le by (rewrite length_fmap; lia).
  by rewrite fmap_take.
Qed.

Lemma splice_result (cs : list cell) (bs bs2 : list byte) (i s N : nat) :
  cstr_bytes cs = Some bs →
  (i + s <= length bs)%nat →
  N = (length bs + length bs2 - s + 1)%nat →
  ((s <= length bs2 + 1)%nat ∨ (i + s = length bs)%nat) →
  let R := resize N None cs in
  let X1 := splice_cells (i + length bs2)
              (take (length bs - i - s) (drop (i + s) R)) R in
  let X2 := splice_cells i (Some <$> bs2) X1 in
  <[(N - 1)%nat := Some x00]> X2 = cells_of (take i bs ++ bs2 ++ drop (i + s) bs).
Proof.
  intros Hs His HN Hfit R X1 X2.
  assert (length R = N) as HlenR by apply length_resize.
  assert (take (length bs - i - s) (drop (i + s) R) = Some <$> drop (i + s) bs) as HT.
  { destruct (decide (i + s = length bs)%nat) as [E|Hlt].
    - replace (length bs - i - s)%nat with 0%nat by lia.
      rewrite take_0, drop_ge by lia. done.
    - rewrite take_drop_commute.
      replace (i + s + (length bs - i - s))%nat with (length bs) by lia.
      unfold R. rewrite (take_resize_cstr cs bs) by (done || lia).
      by rewrite firstn_all, fmap_drop. }
  assert (take i R = Some <$> take i bs) as Hpre.
  { unfold R. apply take_resize_cstr; [done|lia|lia]. }
  assert (length (Some <$> drop (i + s) bs) = length bs - i - s)%nat as HlenT
    by (rewrite length_fmap, length_drop; lia).
  assert (X1 = take (i + length bs2) R ++ (Some <$> drop (i + s) bs) ++ drop (N - 1) R)
    as HX1.
  { unfold X1, splice_cells. rewrite HT, HlenT. do 3 f_equal. lia. }
  assert (length (take (i + length bs2) R) = i + length bs2)%nat as Hlen1
    by (rewrite length_take; lia).
  assert (X2 = take i R ++ (Some <$> bs2) ++ (Some <$> drop (i + s) bs) ++ drop (N - 1) R)
    as HX2.
  { unfold X2, splice_cells. rewrite HX1, length_fmap. f_equal.
    - rewrite take_app_le by lia. rewrite take_take. f_equal. lia.
    - f_equal. by rewrite drop_app_length' by lia. }
  destruct (drop (N - 1) R) as [|r [|r' tl]] eqn:Hdrop.
  - apply (f_equal length) in Hdrop. rewrite length_drop in Hdrop. simpl in Hdrop. lia.
  - rewrite HX2, Hpre. unfold cells_of.
    rewrite !fmap_app, <- !app_assoc.
    replace (N - 1)%nat
      with (length ((Some <$> take i bs) ++ (Some <$> bs2) ++ (Some <$> drop (i + s) bs)) + 0)%nat.
    2:{ rewrite !length_app, !length_fmap, length_take, length_drop. lia. }
    rewrite !app_assoc. rewrite insert_app_r. reflexivity.
  - apply (f_equal length) in Hdrop. rewrite length_drop in Hdrop. simpl in Hdrop. lia.
Qed.

(** A copy of [n] cells from block [bsrc] into block [bdst] (the same
    block or another one), as [memmove] and [memcpy] perform it. *)
Lemma memmove_run (bdst bsrc : nat) (dst src n : Z) (R S : list cell) (st : state) :
  blocks st !! bdst = Some (BBytes R) →
  blocks st !! bsrc = Some (BBytes S) →
  0 <= n → 0 <= src → 0 <= dst →
  (0 < n → src + n <= Z.of_nat (length S)) →
  dst + n <= Z.of_nat (length R) →
  ∃ st',
    memmove (mk_ptr bdst dst) (mk_ptr bsrc src) n st = Ok (Datatypes.tt, st') ∧
    blocks st' !! bdst =
      Some (BBytes (splice_cells (Z.to_nat dst)
                      (take (Z.to_nat n) (drop (Z.to_nat src) S)) R)) ∧
    (∀ j, j ≠ bdst → blocks st' !! j = blocks st !! j) ∧
    oracle st' = oracle st ∧ console st' = console st.
Proof.
  intros HR HS Hn Hsrc Hdst Hin Hout. unfold memmove.
  destruct (decide (n = 0)) as [->|Hn0].
  - rewrite run_bind, load_cells_zero. cbv beta iota. cbn [store_cells].
    rewrite run_ret. exists st. split; [done|]. split; [|done].
    rewrite take_0. unfold splice_cells. simpl.
    by rewrite Nat.add_0_r, take_drop.
  - rewrite run_bind.
    (erewrite load_cells_run; [|exact HS|lia|simpl; lia|simpl; lia]).
    cbv beta iota. cbn [poff].
    assert (length (take (Z.to_nat n) (drop (Z.to_nat src) S)) = Z.to_nat n) as Hl
      by (rewrite length_take, length_drop; lia).
    erewrite store_cells_run; [|exact HR| |simpl; lia|simpl; lia].
    2:{ intros E. rewrite E in Hl. simpl in Hl. lia. }
    eexists. split; [reflexivity|]. norm_state.
    split; [apply lookup_insert_eq|]. split; [|done].
    intros j Hj. by rewrite lookup_insert_ne.
Qed.

Lemma not_elem_of_take_drop (bs : list byte) (x : byte) (n : nat) :
  x ∉ bs → (x ∉ take n bs) ∧ (x ∉ drop n bs).
Proof.
  intros Hn. rewrite <- (take_drop n bs) in Hn.
  rewrite not_elem_of_app in Hn. done.
Qed.

(** Overwriting cells inside a block keeps its size. *)
Lemma length_splice_cells (off : nat) (new cs : list cell) :
  (off + length new <= length cs)%nat →
  length (splice_cells off new cs) = length cs.
Proof.
  intros Hfit. unfold splice_cells.
  rewrite !length_app, length_take, length_drop. lia.
Qed.

(** The numbers of a splice, as [int] values and as list positions. *)
Lemma splice_numbers (nL nL2 : nat) (i s : Z) :
  let L := Z.of_nat nL in
  let L2 := Z.of_nat nL2 in
  let ni := Z.to_nat i in
  let ns := Z.to_nat s in
  let N := (nL + nL2 - ns + 1)%nat in
  0 <= i <= L → 0 <= s <= L - i → s <= L2 + 1 ∨ i + s = L →
  ((ni + ns <= nL)%nat ∧
   ((ns <= nL2 + 1)%nat ∨ (ni + ns = nL)%nat) ∧
   Z.to_nat (L + L2 - s + 1) = N ∧
   Z.of_nat N = L + L2 - s + 1) ∧
  (Z.to_nat (i + L2) = (ni + nL2)%nat ∧
   Z.to_nat (i + s) = (ni + ns)%nat ∧
   Z.to_nat (L - i - s) = (nL - ni - ns)%nat ∧
   Z.to_nat (L + L2 - s) = (N - 1)%nat) ∧
  ((0 < L - i - s → i + s + (L - i - s) <= L + L2 - s + 1) ∧
   i + L2 + (L - i - s) <= L + L2 - s + 1 ∧
   i + L2 <= L + L2 - s + 1 ∧
   0 <= L + L2 - s < L + L2 - s + 1) ∧
  (((nL - ni - ns) `min` (N - (ni + ns)) = nL - ni - ns)%nat ∧
   (ni + nL2 + (nL - ni - ns) <= N)%nat ∧
   (ni + nL2 <= N)%nat ∧
   Z.of_nat (ni `min` nL + (nL2 + (nL - (ni + ns)))) = L - s + L2).
Proof.
  intros L L2 ni ns N Hi Hs Hfit.
  assert (Z.of_nat ni = i) as Eni by (unfold ni; lia).
  assert (Z.of_nat ns = s) as Ens by (unfold ns; lia).
  assert (Z.of_nat N = L + L2 - s + 1) as ENZ by (unfold N, L, L2; lia).
  assert (L = Z.of_nat nL) as HL by reflexivity.
  assert (L2 = Z.of_nat nL2) as HL2 by reflexivity.
  clearbody ni ns N L L2.
  repeat split; try lia; destruct Hfit; lia.
Qed.

(** X20: the splice as the specification describes it, for the calls
    in which the tail is still inside the reallocated buffer when it is
    moved: the replacement is at most one byte shorter than the span,
    or there is no tail.  The replacement must not be the receiver
    itself.  The receiver then holds the bytes before the index, the
    replacement, and the bytes after the span. *)
Lemma c_string_insert_splice (h b : nat) (cs : list cell) (bs : list byte)
    (h2 b2 : nat) (cs2 : list cell) (bs2 : list byte)
    (nth : Z) (span : option Z) (rest : list mrb_value) (st : state)
    (o : outcome) (os : list outcome) :
  string_object st h = Some (b, cs) → cstr_bytes cs = Some bs →
  string_object st h2 = Some (b2, cs2) → cstr_bytes cs2 = Some bs2 →
  b2 ≠ b →
  Z.of_nat (length bs) + Z.of_nat (length bs2) < INT_MAX →
  int_range nth →
  let L := Z.of_nat (length bs) in
  let L2 := Z.of_nat (length bs2) in
  let i := adjusted_index L nth in
  let s := clamped_span L i (span_or_default span) in
  ¬ index_error L nth (span_or_default span) →
  s <= L2 + 1 ∨ i + s = L →
  oracle st = o :: os → o ≠ Refuse →
  let result := take (Z.to_nat i) bs ++ bs2 ++ drop (Z.to_nat (i + s)) bs in
  ∃ st',
    c_string_insert (insert_args h nth span h2 rest) (insert_argc span) st
      = Ok (insert_args h nth span h2 rest, st') ∧
    buffer_of st' (str_value h) = Some (cells_of result) ∧
    string_of st' (str_value h) = Some result ∧
    Z.of_nat (length result) = L - s + L2.
Proof.
  intros Hobj Hs Hobj2 Hs2 Hbb Hlen Hnth L L2 i s Hok Hfit Ho Hg result.
  destruct (string_object_inv _ _ _ _ Hobj) as ([rc [t Hh]] & Hb & Hne).
  destruct (string_object_inv _ _ _ _ Hobj2) as ([rc2 [t2 Hh2]] & Hb2 & Hne2).
  assert (h2 ≠ h) as Hhh by (intros ->; congruence).
  assert (h ≠ b2 ∧ h2 ≠ b) as [Hhb2 Hh2b] by (split; intros ->; congruence).
  pose proof (cstr_bytes_length _ _ Hs2) as HLcs2.
  unfold INT_MAX in Hlen.
  rewrite (c_string_insert_start h b cs bs h2 b2 cs2 bs2 nth span rest st)
    by (done || unfold INT_MAX; lia).
  destruct (range_check_index_error L nth (span_or_default span)
              ltac:(unfold INT_MAX; lia) Hnth) as [Hcheck Hsval].
  cbv zeta in Hcheck, Hsval. fold L L2 i. fold i in Hcheck, Hsval.
  destruct (_ || _ || _) eqn:Echeck; [exfalso; by apply Hok, Hcheck|].
  assert (0 <= i <= L ∧ 0 <= s <= L - i) as [Hi Hsr].
  { unfold index_error in Hok. fold i s in Hok. unfold s, clamped_span in *. lia. }
  rewrite (Hsval ltac:(lia)). fold s.
  clear Hcheck Hsval Echeck Hok.
  assert (∀ z, -2147483648 <= z <= 2147483647 → wrap32 z = z) as Hw.
  { intros z Hz. by apply wrap32_small. }
  rewrite (Hw (L + L2)), (Hw (L + L2 - s)), (Hw (L + L2 - s + 1)),
    (Hw (L - i)), (Hw (L - i - s)) by lia.
  clear Hw.
  (* the same quantities as list positions *)
  destruct (splice_numbers (length bs) (length bs2) i s Hi Hsr Hfit)
    as ((Hn1 & Hnfit & EN & ENZ) & (E1 & E2 & E3 & E5)
        & (Z1 & Z2 & Z3 & Z4) & (M1 & M2 & M3 & M4)).
  fold L L2 in EN, ENZ, E1, E2, E3, E5, Z1, Z2, Z3, Z4, M4.
  set (ni := Z.to_nat i) in *. set (ns := Z.to_nat s) in *.
  set (N := (length bs + length bs2 - ns + 1)%nat) in *.
  (* reallocation *)
  rewrite run_bind.
  (erewrite MRBC_STRING_CSTR_run; [|reflexivity|exact Hh]); cbv beta iota.
  destruct (mrbc_realloc_granted b (L + L2 - s + 1) cs st o os Hb Ho Hg)
    as (b' & st1 & Hre & Hb' & Hframe1 & Hcase & Ho1 & Hc1);
    [rewrite <- ENZ; apply Nat2Z.is_nonneg|].
  mstep Hre. rewrite EN in Hb'.
  set (R := resize N None cs) in *.
  assert (length R = N) as HlenR by apply length_resize.
  assert (b' = b ∨ blocks st !! b' = None) as Hcase'
    by (destruct Hcase as [E|[E _]]; [by left|by right]).
  assert (h ≠ b') as Hhb'
    by exact (realloc_handle_distinct st h b b' _ Hh Hne Hcase').
  assert (h2 ≠ b') as Hh2b'
    by exact (realloc_handle_distinct st h2 b b' _ Hh2 Hh2b Hcase').
  assert (b2 ≠ b') as Hb2b' by (destruct Hcase' as [->|?]; congruence).
  (* the tail is moved *)
  destruct (memmove_run b' b' (i + L2) (i + s) (L - i - s) R R st1 Hb' Hb')
    as (st2 & Hmv & Hb2' & Hframe2 & _ & _);
    [clear -Hsr; lia|clear -Hi Hsr; lia|clear -Hi; unfold L2; lia
    |rewrite HlenR, ENZ; exact Z1|rewrite HlenR, ENZ; exact Z2|].
  unfold ptr_add. cbn [pblock poff].
  rewrite !Z.add_0_l.
  mstep Hmv. rewrite E1, E2, E3 in Hb2'.
  set (T := take (length bs - ni - ns) (drop (ni + ns) R)) in *.
  assert (length T = length bs - ni - ns)%nat as HlenT.
  { unfold T. rewrite length_take, length_drop, HlenR. exact M1. }
  set (X1 := splice_cells (ni + length bs2) T R) in *.
  assert (length X1 = N) as HlenX1.
  { unfold X1. rewrite length_splice_cells; [done|].
    rewrite HlenT, HlenR. exact M2. }
  (* the replacement is copied in *)
  rewrite run_bind.
  (erewrite MRBC_STRING_CSTR_run;
     [|reflexivity|rewrite Hframe2, Hframe1 by done; exact Hh2]); cbv beta iota.
  unfold memcpy.
  assert (blocks st2 !! b2 = Some (BBytes cs2)) as Hsrc
    by (rewrite Hframe2, Hframe1 by done; exact Hb2).
  destruct (memmove_run b' b2 i 0 L2 X1 cs2 st2 Hb2' Hsrc)
    as (st3 & Hcp & Hb3 & Hframe3 & _ & _);
    [unfold L2; lia|done|clear -Hi; lia|clear -HLcs2; unfold L2; lia
    |rewrite HlenX1, ENZ; exact Z3|].
  mstep Hcp.
  assert (take (Z.to_nat L2) (drop (Z.to_nat 0) cs2) = Some <$> bs2) as Hrep.
  { apply cstr_bytes_layout in Hs2 as (_ & rest2 & ->).
    change (Z.to_nat 0) with 0%nat. rewrite drop_0.
    unfold L2. rewrite Nat2Z.id.
    replace (length bs2) with (length (Some <$> bs2)) by apply length_fmap.
    apply take_app_length. }
  rewrite Hrep in Hb3. fold ni in Hb3.
  set (X2 := splice_cells ni (Some <$> bs2) X1) in *.
  assert (length X2 = N) as HlenX2.
  { unfold X2. rewrite length_splice_cells; [done|].
    rewrite length_fmap, HlenX1. exact M3. }
  (* the terminator *)
  rewrite run_bind.
  erewrite store_byte_run;
    [|exact Hb3|cbn [poff]; rewrite HlenX2, ENZ; exact Z4].
  cbv beta iota. cbn [pblock poff]. rewrite E5.
  unfold set_blocks. cbn [blocks oracle console].
  mred.
  erewrite set_handle_str_run;
    [|cbn [blocks]; rewrite lookup_insert_ne by done;
      rewrite Hframe3, Hframe2, Hframe1 by done; exact Hh].
  cbv beta iota. unfold set_blocks. cbn [blocks oracle console]. mred.
  eexists. split; [reflexivity|].
  assert (result = take ni bs ++ bs2 ++ drop (ni + ns) bs) as Hres
    by (unfold result; by rewrite E2).
  assert (<[(N - 1)%nat := Some x00]> X2 = cells_of result) as Hfinal.
  { rewrite Hres. apply (splice_result cs bs bs2 ni ns N Hs Hn1 eq_refl Hnfit). }
  match goal with
  | |- context [buffer_of ?s0 _] =>
    assert (blocks s0 !! h = Some (BValue (S rc) t (Some (mk_ptr b' 0)))) as H1
      by (cbn [blocks]; apply lookup_insert_eq);
    assert (blocks s0 !! b' = Some (BBytes (cells_of result))) as H2
      by (cbn [blocks]; rewrite lookup_insert_ne by done;
          rewrite lookup_insert_eq; by rewrite Hfinal)
  end.
  split; [by eapply buffer_of_lookup|].
  split.
  - erewrite string_of_lookup; [|exact H1|exact H2].
    rewrite <- (app_nil_r (cells_of result)). apply cstr_bytes_cells_of.
    apply cstr_bytes_layout in Hs as [Hn _].
    apply cstr_bytes_layout in Hs2 as [Hn2 _].
    unfold result. rewrite !not_elem_of_app.
    split; [by apply not_elem_of_take_drop|].
    split; [done|by apply not_elem_of_take_drop].
  - rewrite Hres, !length_app, length_take, length_drop. exact M4.
Qed.

Example c_string_insert_hello_XYZ :
  ∃ st', c_string_insert [str_value 0; int_value 1; int_value 2; str_value 2] 3
           (example_state [Grant])
           = Ok ([str_value 0; int_value 1; int_value 2; str_value 2], st') ∧
         string_of st' (str_value 0) = Some (bytes_of "hXYZlo").
Proof. eexists. split; vm_compute; reflexivity. Qed.

(** C1: splicing ["hello"] at index 1 with span 2 and the empty string
    as replacement is an in-range call, for which the specification
    gives ["hlo"].  The code reallocates the buffer to 4 bytes first and
    then moves the tail from offsets 3 and 4, the second of which lies
    outside the reallocated buffer: the run leaves defined behaviour,
    whether the allocator relocates the buffer or not. *)
Theorem c_string_insert_shrink_out_of_bounds :
  ¬ index_error 5 1 2 ∧
  clamped_span 5 (adjusted_index 5 1) 2 = 2 ∧
  string_of (example_state [Grant]) (str_value 0) = Some (bytes_of "hello") ∧
  string_of (example_state [Grant]) (str_value 4) = Some [] ∧
  c_string_insert [str_value 0; int_value 1; int_value 2; str_value 4] 3
    (example_state [Grant]) = Fault OutOfBounds ∧
  c_string_insert [str_value 0; int_value 1; int_value 2; str_value 4] 3
    (example_state [GrantInPlace]) = Fault OutOfBounds.
Proof.
  split.
  { unfold index_error, clamped_span, adjusted_index. simpl. lia. }
  repeat split; vm_compute; reflexivity.
Qed.

(** ** Further worked examples of the specification *)

Example c_string_append_foo_bar :
  ∃ st', c_string_append [str_value 0; str_value 2] 1
           (mk_state (with_string 0 1 (bytes_of "foo")
                        (with_string 2 3 (bytes_of "bar") ∅)) [Grant] [])
           = Ok ([str_value 0; str_value 2], st') ∧
         string_of st' (str_value 0) = Some (bytes_of "foobar").
Proof. eexists. split; vm_compute; reflexivity. Qed.

Example c_string_add_hello_XYZ :
  ∃ st', c_string_add [str_value 0; str_value 2] 1 (example_state all_granted)
           = Ok ([str_value 6; str_value 2], st') ∧
         string_of st' (str_value 6) = Some (bytes_of "helloXYZ") ∧
         string_of st' (str_value 2) = Some (bytes_of "XYZ").
Proof. eexists. split; [|split]; vm_compute; reflexivity. Qed.

Example c_string_size_hello :
  ∃ st', c_string_size [str_value 0] 0 (example_state [])
           = Ok ([int_value 5], st').
Proof. eexists. vm_compute. reflexivity. Qed.

(** A refused reallocation leaves the receiver as it was. *)
Example c_string_append_refused :
  c_string_append [str_value 0; int_value 33] 1 (foo_state [Refuse])
    = Ok ([str_value 0; int_value 33], foo_state []).
Proof. vm_compute. reflexivity. Qed.

(** * Further properties of [c_string.c] *)

(** ** Refused requests *)

Lemma mrbc_alloc_value_refused (st : state) :
  next_refused (oracle st) = true →
  mrbc_alloc_value st = Ok (None, mk_state (blocks st) (tail (oracle st)) (console st)).
Proof.
  unfold mrbc_alloc_value, next_outcome. rewrite run_bind.
  destruct st as [m os c]. simpl.
  destruct os as [|[| |] os]; simpl; try done.
Qed.

Lemma mrbc_alloc_refused (size : Z) (st : state) :
  next_refused (oracle st) = true →
  mrbc_alloc size st = Ok (None, mk_state (blocks st) (tail (oracle st)) (console st)).
Proof.
  unfold mrbc_alloc, next_outcome. rewrite run_bind.
  destruct st as [m os c]. simpl.
  destruct os as [|[| |] os]; simpl; try done.
Qed.

(** A constructor that cannot complete returns the value without handle
    and leaves the heap and the console as they were. *)
Lemma mrbc_string_new_refused (src : option ptr) (len : Z) (st : state) :
  constructor_refused (oracle st) = true →
  ∃ st', mrbc_string_new src len st = Ok (no_handle, st') ∧
         blocks st' = blocks st ∧ console st' = console st.
Proof.
  intros Href. unfold mrbc_string_new.
  destruct (next_refused (oracle st)) eqn:Hfirst.
  - mstep (mrbc_alloc_value_refused st Hfirst). rewrite run_ret.
    eexists. split; [reflexivity|]. done.
  - destruct (oracle st) as [|o os] eqn:Ho; [done|].
    assert (o ≠ Refuse) as Hg by (by destruct o).
    assert (next_refused os = true) as Hsecond by (by destruct o).
    mstep (mrbc_alloc_value_granted st o os Ho Hg).
    rewrite run_bind, mrbc_alloc_refused by done. cbv beta iota.
    rewrite run_bind.
    erewrite free_block_run; [|cbn [blocks]; apply lookup_insert_eq].
    cbv beta iota. rewrite run_ret.
    eexists. split; [reflexivity|]. norm_state. split; [|done].
    apply delete_insert_id. apply lookup_fresh_block.
Qed.

(** A refused reallocation returns [NULL] and leaves the heap and the
    console as they were. *)
Lemma mrbc_realloc_refused_run (b : nat) (size : Z) (cs : list cell) (st : state) :
  blocks st !! b = Some (BBytes cs) →
  next_refused (oracle st) = true →
  mrbc_realloc (mk_ptr b 0) size st =
  Ok (None, mk_state (blocks st) (tail (oracle st)) (console st)).
Proof.
  intros Hb Href. unfold mrbc_realloc. cbn [poff pblock Z.eqb negb].
  mstep (lookup_bytes_run _ _ _ Hb).
  unfold next_outcome. rewrite run_bind.
  destruct st as [m os c]. simpl in *.
  destruct os as [|[| |] os]; simpl in *; try done; by destruct (size <? 0).
Qed.

(** A reallocation that relocates: the result is a fresh block, and the
    old block is no longer live. *)
Lemma mrbc_realloc_relocated (b : nat) (size : Z) (cs : list cell) (st : state)
    (os : list outcome) :
  blocks st !! b = Some (BBytes cs) →
  oracle st = Grant :: os → 0 <= size →
  ∃ (b' : nat) (st' : state),
    mrbc_realloc (mk_ptr b 0) size st = Ok (Some (mk_ptr b' 0), st') ∧
    blocks st !! b' = None ∧
    blocks st' !! b = None ∧
    (∀ i, i ≠ b → i ≠ b' → blocks st' !! i = blocks st !! i).
Proof.
  intros Hb Ho Hsize.
  destruct (mrbc_realloc_granted b size cs st Grant os Hb Ho ltac:(done) Hsize)
    as (b' & st' & Hrun & _ & Hframe & Hcase & _).
  exists b', st'. split; [done|].
  assert (b' ≠ b) as Hne.
  { intros ->. revert Hrun. unfold mrbc_realloc. cbn [poff pblock Z.eqb negb].
    rewrite run_bind, (lookup_bytes_run _ _ _ Hb). cbv beta iota.
    unfold next_outcome. rewrite run_bind, Ho. cbv beta iota.
    destruct (Z.ltb_spec size 0); [lia|].
    unfold new_block, get_state, modify. rewrite !run_bind. cbv beta iota.
    rewrite run_ret. cbv beta iota. rewrite run_bind.
    set (st1 := mk_state (blocks st) os (console st)).
    assert (blocks st !! fresh_block st1 = None) as Hf
      by apply (lookup_fresh_block st1).
    erewrite free_block_run;
      [|norm_state; rewrite lookup_insert_ne by congruence; exact Hb].
    cbv beta iota. rewrite run_ret. intros [= E _]. congruence. }
  destruct Hcase as [?|[H1 H2]]; done.
Qed.

(** ** Concatenation, the other paths *)

Lemma take_cstr_bytes (cs : list cell) (bs : list byte) :
  cstr_bytes cs = Some bs → take (length bs) cs = Some <$> bs.
Proof.
  intros (_ & rest & ->)%cstr_bytes_layout.
  replace (length bs) with (length (Some <$> bs)) by apply length_fmap.
  apply take_app_length.
Qed.

Lemma take_cstr_bytes_terminated (cs : list cell) (bs : list byte) :
  cstr_bytes cs = Some bs → take (length bs + 1) cs = cells_of bs.
Proof.
  intros (_ & rest & ->)%cstr_bytes_layout.
  replace (length bs) with (length (Some <$> bs)) by apply length_fmap.
  rewrite take_app_add. reflexivity.
Qed.

(** The two copies of a concatenation, into a buffer as the constructor
    leaves it for a null source. *)
Lemma concat_cells (bs1 bs2 : list byte) (cs1 cs2 : list cell) :
  cstr_bytes cs1 = Some bs1 → cstr_bytes cs2 = Some bs2 →
  splice_cells (length bs1) (take (length bs2 + 1) (drop 0 cs2))
    (splice_cells 0 (take (length bs1) (drop 0 cs1))
       (Some x00 :: replicate (length bs1 + length bs2) None))
  = cells_of (bs1 ++ bs2).
Proof.
  intros Hs1 Hs2. rewrite !drop_0.
  rewrite (take_cstr_bytes _ _ Hs1), (take_cstr_bytes_terminated _ _ Hs2).
  unfold splice_cells at 2. rewrite take_0, app_nil_l, length_fmap, Nat.add_0_l.
  unfold splice_cells.
  rewrite take_app_length' by (by rewrite length_fmap).
  rewrite drop_ge.
  - unfold cells_of. by rewrite app_nil_r, fmap_app, <- app_assoc.
  - rewrite length_app, length_fmap, length_drop. unfold cells_of.
    rewrite length_app, length_fmap. simpl. rewrite length_replicate. lia.
Qed.

(** X1: for two string operands (which may be one and the same object)
    and a granted constructor, [+] puts into slot 0 a fresh string
    object that reads back as the left bytes followed by the right
    bytes; the right operand, when it has a buffer of its own, reads
    back as before, and nothing is written to the console. *)
Theorem c_string_add_concat (h1 b1 : nat) (cs1 : list cell) (bs1 : list byte)
    (h2 b2 : nat) (cs2 : list cell) (bs2 : list byte)
    (rest : list mrb_value) (argc : Z) (st : state)
    (o1 o2 : outcome) (os : list outcome) :
  string_object st h1 = Some (b1, cs1) → cstr_bytes cs1 = Some bs1 →
  string_object st h2 = Some (b2, cs2) → cstr_bytes cs2 = Some bs2 →
  Z.of_nat (length bs1) + Z.of_nat (length bs2) < INT_MAX →
  oracle st = o1 :: o2 :: os → o1 ≠ Refuse → o2 ≠ Refuse →
  ∃ (h' : nat) (st' : state),
    c_string_add (str_value h1 :: str_value h2 :: rest) argc st
      = Ok (str_value h' :: str_value h2 :: rest, st') ∧
    blocks st !! h' = None ∧
    buffer_of st' (str_value h') = Some (cells_of (bs1 ++ bs2)) ∧
    string_of st' (str_value h') = Some (bs1 ++ bs2) ∧
    (b2 ≠ b1 → string_of st' (str_value h2) = Some bs2) ∧
    console st' = console st.
Proof.
  intros Hobj1 Hs1 Hobj2 Hs2 Hlen Ho Hg1 Hg2.
  destruct (string_object_inv _ _ _ _ Hobj1) as ([rc1 [t1 Hh1]] & Hb1 & Hne1).
  destruct (string_object_inv _ _ _ _ Hobj2) as ([rc2 [t2 Hh2]] & Hb2 & Hne2).
  pose proof (cstr_bytes_length _ _ Hs1) as HL1.
  pose proof (cstr_bytes_length _ _ Hs2) as HL2.
  unfold INT_MAX in Hlen.
  set (L1 := Z.of_nat (length bs1)) in *. set (L2 := Z.of_nat (length bs2)) in *.
  assert (wrap32 L1 = L1 ∧ wrap32 L2 = L2 ∧ wrap32 (L1 + L2) = L1 + L2 ∧
          wrap32 (L2 + 1) = L2 + 1) as (W1 & W2 & W3 & W4).
  { repeat split; apply wrap32_small; unfold int_range, INT_MIN, INT_MAX; lia. }
  assert (Z.to_nat (L1 + L2) = (length bs1 + length bs2)%nat ∧
          Z.to_nat L1 = length bs1 ∧ Z.to_nat (L2 + 1) = (length bs2 + 1)%nat ∧
          0 <= L1 ∧ 0 <= L2 ∧
          L1 <= Z.of_nat (length cs1) ∧ L2 + 1 <= Z.of_nat (length cs2))
    as (N1 & N2 & N3 & P1 & P2 & P3 & P4) by (unfold L1, L2; lia).
  clear HL1 HL2.
  unfold c_string_add.
  mrun. rewrite bool_decide_eq_true_2 by done. cbn [negb].
  rewrite run_bind.
  (erewrite MRBC_STRING_CSTR_run; [|reflexivity|exact Hh1]); cbv beta iota.
  rewrite run_bind.
  (erewrite strlen_run; [|exact Hb1|simpl; lia|exact Hs1]); cbv beta iota.
  rewrite run_bind.
  (erewrite MRBC_STRING_CSTR_run; [|reflexivity|exact Hh2]); cbv beta iota.
  rewrite run_bind.
  (erewrite strlen_run; [|exact Hb2|simpl; lia|exact Hs2]); cbv beta iota.
  fold L1 L2. rewrite W1, W2, W3, W4.
  (* the new object *)
  assert (0 <= L1 + L2 < INT_MAX) as Hnew by (unfold INT_MAX; lia).
  destruct (mrbc_string_new_run None (L1 + L2) [] st o1 o2 os Ho Hg1 Hg2 Hnew eq_refl)
    as (h' & b' & st1 & Hrun & Hh' & Hb' & Hne' & Hbl & _ & Hc1).
  mstep Hrun. rewrite N1 in Hbl. mred.
  assert (h1 ≠ h' ∧ h1 ≠ b' ∧ b1 ≠ h' ∧ b1 ≠ b' ∧
          h2 ≠ h' ∧ h2 ≠ b' ∧ b2 ≠ h' ∧ b2 ≠ b')
    as (D1 & D2 & D3 & D4 & D5 & D6 & D7 & D8) by (repeat split; congruence).
  assert (∀ j, j ≠ h' → j ≠ b' → blocks st1 !! j = blocks st !! j) as Hframe1.
  { intros j ? ?. rewrite Hbl, !lookup_insert_ne by done. done. }
  assert (blocks st1 !! h' = Some (BValue 1 (Some MRB_TT_STRING) (Some (mk_ptr b' 0))))
    as Hh1' by (rewrite Hbl; apply lookup_insert_eq).
  assert (blocks st1 !! b' =
          Some (BBytes (Some x00 :: replicate (length bs1 + length bs2) None))) as Hb1'.
  { rewrite Hbl, lookup_insert_ne by done. apply lookup_insert_eq. }
  (* the left bytes *)
  (erewrite MRBC_STRING_CSTR_run; [|reflexivity|exact Hh1']); cbv beta iota.
  rewrite run_bind.
  (erewrite MRBC_STRING_CSTR_run;
     [|reflexivity|rewrite Hframe1 by done; exact Hh1]); cbv beta iota.
  unfold memcpy.
  destruct (memmove_run b' b1 0 0 L1 _ cs1 st1 Hb1'
              ltac:(rewrite Hframe1 by done; exact Hb1))
    as (st2 & Hcp1 & Hb2' & Hframe2 & _ & Hc2);
    [done|done|done|lia
    |simpl; rewrite length_replicate; lia|].
  mstep Hcp1.
  (* the right bytes and the terminator *)
  rewrite run_bind.
  (erewrite MRBC_STRING_CSTR_run;
     [|reflexivity|rewrite Hframe2 by done; exact Hh1']); cbv beta iota.
  rewrite run_bind.
  (erewrite MRBC_STRING_CSTR_run;
     [|reflexivity|rewrite Hframe2, Hframe1 by done; exact Hh2]); cbv beta iota.
  unfold ptr_add. cbn [pblock poff]. rewrite Z.add_0_l.
  rewrite N2 in Hb2'. change (Z.to_nat 0) with 0%nat in Hb2'.
  destruct (memmove_run b' b2 L1 0 (L2 + 1) _ cs2 st2 Hb2'
              ltac:(rewrite Hframe2, Hframe1 by done; exact Hb2))
    as (st3 & Hcp2 & Hb3 & Hframe3 & _ & Hc3);
    [lia|done|done|lia| |].
  { rewrite length_splice_cells.
    - simpl. rewrite length_replicate. lia.
    - rewrite length_take, length_drop. simpl. rewrite length_replicate. lia. }
  mstep Hcp2.
  rewrite N2, N3 in Hb3. change (Z.to_nat 0) with 0%nat in Hb3.
  rewrite (concat_cells bs1 bs2 cs1 cs2 Hs1 Hs2) in Hb3.
  (* the receiver is released *)
  assert (string_object st3 h1 = Some (b1, cs1)) as Hobj3.
  { apply (string_object_frame st); [done| |];
      rewrite Hframe3, Hframe2, Hframe1 by done; done. }
  destruct (mrbc_release_string h1 b1 cs1 (str_value h2 :: rest) st3 Hobj3)
    as (st4 & Hrel & _ & Hc4 & Hframe4).
  mstep Hrel. rewrite run_ret.
  exists h', st4. split; [done|]. split; [done|].
  assert (blocks st4 !! h' = Some (BValue 1 (Some MRB_TT_STRING) (Some (mk_ptr b' 0))))
    as H1 by (rewrite Hframe4, Hframe3, Hframe2 by done; exact Hh1').
  assert (blocks st4 !! b' = Some (BBytes (cells_of (bs1 ++ bs2)))) as H2
    by (rewrite Hframe4 by done; exact Hb3).
  split; [by eapply buffer_of_lookup|].
  split.
  { erewrite string_of_lookup; [|exact H1|exact H2].
    rewrite <- (app_nil_r (cells_of _)). apply cstr_bytes_cells_of.
    apply cstr_bytes_layout in Hs1 as [? _].
    apply cstr_bytes_layout in Hs2 as [? _].
    by rewrite not_elem_of_app. }
  split; [|congruence].
  intros Hbb.
  assert (h2 ≠ h1) as Hhh by (intros ->; congruence).
  assert (h2 ≠ b1) as Hh2b1 by (intros ->; congruence).
  assert (b2 ≠ h1) as Hb2h1 by (intros ->; congruence).
  erewrite string_of_lookup; [exact Hs2| |].
  - rewrite Hframe4, Hframe3, Hframe2, Hframe1 by done. exact Hh2.
  - rewrite Hframe4, Hframe3, Hframe2, Hframe1 by done. exact Hb2.
Qed.

Lemma c_string_add_concat_witness :
  ∃ (h' : nat) (st' : state),
    c_string_add [str_value 0; str_value 2] 1 (example_state all_granted)
      = Ok ([str_value h'; str_value 2], st') ∧
    blocks (example_state all_granted) !! h' = None ∧
    buffer_of st' (str_value h')
      = Some (cells_of (bytes_of "hello" ++ bytes_of "XYZ")) ∧
    string_of st' (str_value h') = Some (bytes_of "hello" ++ bytes_of "XYZ") ∧
    (3%nat ≠ 1%nat → string_of st' (str_value 2) = Some (bytes_of "XYZ")) ∧
    console st' = console (example_state all_granted).
Proof.
  apply (c_string_add_concat 0 1 (cells_of (bytes_of "hello")) (bytes_of "hello")
           2 3 (cells_of (bytes_of "XYZ")) (bytes_of "XYZ") [] 1
           (example_state all_granted) Grant Grant [Grant; Grant]).
  - reflexivity.
  - reflexivity.
  - reflexivity.
  - reflexivity.
  - vm_compute. reflexivity.
  - reflexivity.
  - discriminate.
  - discriminate.
Defined.

(** X2: when the constructor cannot complete (its handle or its buffer
    is refused), [+] on two strings returns with the registers, every
    block of the heap and the console as they were: both operands are
    intact and no block is leaked. *)
Theorem c_string_add_alloc_failure (h1 b1 : nat) (cs1 : list cell) (bs1 : list byte)
    (h2 b2 : nat) (cs2 : list cell) (bs2 : list byte)
    (rest : list mrb_value) (argc : Z) (st : state) :
  string_object st h1 = Some (b1, cs1) → cstr_bytes cs1 = Some bs1 →
  string_object st h2 = Some (b2, cs2) → cstr_bytes cs2 = Some bs2 →
  constructor_refused (oracle st) = true →
  ∃ st' : state,
    c_string_add (str_value h1 :: str_value h2 :: rest) argc st
      = Ok (str_value h1 :: str_value h2 :: rest, st') ∧
    blocks st' = blocks st ∧
    console st' = console st.
Proof.
  intros Hobj1 Hs1 Hobj2 Hs2 Href.
  destruct (string_object_inv _ _ _ _ Hobj1) as ([rc1 [t1 Hh1]] & Hb1 & Hne1).
  destruct (string_object_inv _ _ _ _ Hobj2) as ([rc2 [t2 Hh2]] & Hb2 & Hne2).
  unfold c_string_add.
  mrun. rewrite bool_decide_eq_true_2 by done. cbn [negb].
  rewrite run_bind.
  (erewrite MRBC_STRING_CSTR_run; [|reflexivity|exact Hh1]); cbv beta iota.
  rewrite run_bind.
  (erewrite strlen_run; [|exact Hb1|simpl; lia|exact Hs1]); cbv beta iota.
  rewrite run_bind.
  (erewrite MRBC_STRING_CSTR_run; [|reflexivity|exact Hh2]); cbv beta iota.
  rewrite run_bind.
  (erewrite strlen_run; [|exact Hb2|simpl; lia|exact Hs2]); cbv beta iota.
  destruct (mrbc_string_new_refused None
              (wrap32 (wrap32 (Z.of_nat (length bs1)) + wrap32 (Z.of_nat (length bs2))))
              st Href)
    as (st' & Hrun & Hbl & Hc).
  mstep Hrun. unfold no_handle. cbn [get_handle u]. mred.
  exists st'. done.
Qed.

Lemma c_string_add_alloc_failure_witness :
  ∃ st' : state,
    c_string_add [str_value 0; str_value 2] 1 (example_state [Grant; Refuse])
      = Ok ([str_value 0; str_value 2], st') ∧
    blocks st' = blocks (example_state [Grant; Refuse]) ∧
    console st' = console (example_state [Grant; Refuse]).
Proof.
  apply (c_string_add_alloc_failure 0 1 (cells_of (bytes_of "hello"))
           (bytes_of "hello") 2 3 (cells_of (bytes_of "XYZ")) (bytes_of "XYZ") [] 1
           (example_state [Grant; Refuse])); reflexivity.
Defined.

(** ** Length *)

(** X3: [size] (and [length]) puts into slot 0 the integer number of
    bytes before the first zero byte of the receiver's buffer; apart
    from releasing the receiver it touches no block, and it writes
    nothing to the console. *)
Theorem c_string_size_length (h b : nat) (cs : list cell) (bs : list byte)
    (rest : list mrb_value) (argc : Z) (st : state) :
  string_object st h = Some (b, cs) → cstr_bytes cs = Some bs →
  Z.of_nat (length bs) <= INT_MAX →
  ∃ st' : state,
    c_string_size (str_value h :: rest) argc st
      = Ok (int_value (Z.of_nat (length bs)) :: rest, st') ∧
    (∀ j, j ≠ h → j ≠ b → blocks st' !! j = blocks st !! j) ∧
    console st' = console st.
Proof.
  intros Hobj Hs Hlen.
  destruct (string_object_inv _ _ _ _ Hobj) as ([rc [t Hh]] & Hb & Hne).
  unfold c_string_size. mrun.
  (erewrite MRBC_STRING_CSTR_run; [|reflexivity|exact Hh]); cbv beta iota.
  rewrite run_bind.
  (erewrite strlen_run; [|exact Hb|simpl; lia|exact Hs]); cbv beta iota.
  rewrite wrap32_small by (unfold int_range, INT_MIN, INT_MAX in *; lia).
  destruct (mrbc_release_string h b cs rest st Hobj) as (st' & Hrel & _ & Hc & Hframe).
  mstep Hrel. rewrite run_ret. exists st'. done.
Qed.

Lemma c_string_size_length_witness :
  ∃ st' : state,
    c_string_size [str_value 0] 0 (example_state [])
      = Ok ([int_value (Z.of_nat (length (bytes_of "hello")))], st') ∧
    (∀ j, j ≠ 0%nat → j ≠ 1%nat →
          blocks st' !! j = blocks (example_state []) !! j) ∧
    console st' = console (example_state []).
Proof.
  apply (c_string_size_length 0 1 (cells_of (bytes_of "hello")) (bytes_of "hello")
           [] 0 (example_state [])).
  - reflexivity.
  - reflexivity.
  - vm_compute. discriminate.
Defined.

(** ** Append, the string operand *)

Lemma append_cells (cs cs2 : list cell) (bs bs2 : list byte) :
  cstr_bytes cs = Some bs → cstr_bytes cs2 = Some bs2 →
  splice_cells (length bs) (take (length bs2 + 1) (drop 0 cs2))
    (resize (length bs + length bs2 + 1) None cs)
  = cells_of (bs ++ bs2).
Proof.
  intros Hs Hs2. rewrite drop_0, (take_cstr_bytes_terminated _ _ Hs2).
  unfold splice_cells.
  rewrite (take_resize_cstr cs bs) by (done || lia).
  rewrite firstn_all, drop_ge.
  - unfold cells_of. by rewrite app_nil_r, fmap_app, <- app_assoc.
  - rewrite length_resize. unfold cells_of. rewrite length_app, length_fmap.
    simpl. lia.
Qed.

(** X4: appending a string that has a buffer of its own (the
    reallocation being granted) leaves the registers as they were and
    the receiver, behind the same handle, with exactly the old bytes,
    the operand's bytes and the terminator in its buffer; the operand
    reads back as before and nothing is written to the console. *)
Theorem c_string_append_string (h b : nat) (cs : list cell) (bs : list byte)
    (h2 b2 : nat) (cs2 : list cell) (bs2 : list byte)
    (rest : list mrb_value) (argc : Z) (st : state)
    (o : outcome) (os : list outcome) :
  string_object st h = Some (b, cs) → cstr_bytes cs = Some bs →
  string_object st h2 = Some (b2, cs2) → cstr_bytes cs2 = Some bs2 →
  b2 ≠ b →
  Z.of_nat (length bs) + Z.of_nat (length bs2) < INT_MAX →
  oracle st = o :: os → o ≠ Refuse →
  ∃ st' : state,
    c_string_append (str_value h :: str_value h2 :: rest) argc st
      = Ok (str_value h :: str_value h2 :: rest, st') ∧
    buffer_of st' (str_value h) = Some (cells_of (bs ++ bs2)) ∧
    string_of st' (str_value h) = Some (bs ++ bs2) ∧
    string_of st' (str_value h2) = Some bs2 ∧
    console st' = console st.
Proof.
  intros Hobj Hs Hobj2 Hs2 Hbb Hlen Ho Hg.
  destruct (string_object_inv _ _ _ _ Hobj) as ([rc [t Hh]] & Hb & Hne).
  destruct (string_object_inv _ _ _ _ Hobj2) as ([rc2 [t2 Hh2]] & Hb2 & Hne2).
  assert (h2 ≠ h) as Hhh by (intros ->; congruence).
  assert (h ≠ b2 ∧ h2 ≠ b) as [Hhb2 Hh2b] by (split; intros ->; congruence).
  pose proof (cstr_bytes_length _ _ Hs2) as HL2.
  unfold INT_MAX in Hlen.
  set (L1 := Z.of_nat (length bs)) in *. set (L2 := Z.of_nat (length bs2)) in *.
  assert (wrap32 L1 = L1 ∧ wrap32 L2 = L2 ∧ wrap32 (L1 + L2) = L1 + L2 ∧
          wrap32 (L1 + L2 + 1) = L1 + L2 + 1 ∧ wrap32 (L2 + 1) = L2 + 1)
    as (W1 & W2 & W3 & W4 & W5).
  { repeat split; apply wrap32_small; unfold int_range, INT_MIN, INT_MAX; lia. }
  assert (Z.to_nat (L1 + L2 + 1) = (length bs + length bs2 + 1)%nat ∧
          Z.to_nat L1 = length bs ∧ Z.to_nat (L2 + 1) = (length bs2 + 1)%nat ∧
          0 <= L1 ∧ 0 <= L2 ∧ 0 <= L1 + L2 + 1 ∧
          L2 + 1 <= Z.of_nat (length cs2) ∧
          L1 + (L2 + 1) <= Z.of_nat (length bs + length bs2 + 1))
    as (N1 & N2 & N3 & P1 & P2 & P3 & P4 & P5) by (unfold L1, L2; lia).
  clear HL2.
  unfold c_string_append. mrun.
  (erewrite MRBC_STRING_CSTR_run; [|reflexivity|exact Hh]); cbv beta iota.
  rewrite run_bind.
  (erewrite strlen_run; [|exact Hb|simpl; lia|exact Hs]); cbv beta iota.
  rewrite !bool_decide_eq_true_2 by done.
  mred.
  (erewrite MRBC_STRING_CSTR_run; [|reflexivity|exact Hh2]); cbv beta iota.
  mred.
  (erewrite strlen_run; [|exact Hb2|simpl; lia|exact Hs2]); cbv beta iota.
  mred.
  (erewrite MRBC_STRING_CSTR_run; [|reflexivity|exact Hh]); cbv beta iota.
  mred.
  fold L1 L2. rewrite W1, W2, W3, W4, W5.
  destruct (mrbc_realloc_granted b (L1 + L2 + 1) cs st o os Hb Ho Hg P3)
    as (b' & st1 & Hre & Hb' & Hframe1 & Hcase & _ & Hc1).
  rewrite Hre. cbv beta iota. rewrite N1 in Hb'.
  assert (b' = b ∨ blocks st !! b' = None) as Hcase'
    by (destruct Hcase as [E|[E _]]; [by left|by right]).
  assert (h ≠ b') as Hhb'
    by exact (realloc_handle_distinct st h b b' _ Hh Hne Hcase').
  assert (h2 ≠ b') as Hh2b'
    by exact (realloc_handle_distinct st h2 b b' _ Hh2 Hh2b Hcase').
  assert (b2 ≠ b') as Hb2b' by (destruct Hcase' as [->|?]; congruence).
  (* the operand's bytes and terminator *)
  mred.
  (erewrite MRBC_STRING_CSTR_run;
     [|reflexivity|rewrite Hframe1 by done; exact Hh2]); cbv beta iota.
  mred.
  unfold memcpy, ptr_add. cbn [pblock poff]. rewrite Z.add_0_l.
  destruct (memmove_run b' b2 L1 0 (L2 + 1) _ cs2 st1 Hb'
              ltac:(rewrite Hframe1 by done; exact Hb2))
    as (st2 & Hcp & Hb2' & Hframe2 & _ & Hc2);
    [lia|done|done|lia|rewrite length_resize; exact P5|].
  rewrite Hcp. cbv beta iota.
  rewrite N2, N3 in Hb2'. change (Z.to_nat 0) with 0%nat in Hb2'.
  rewrite (append_cells cs cs2 bs bs2 Hs Hs2) in Hb2'.
  mred.
  erewrite set_handle_str_run;
    [|rewrite Hframe2, Hframe1 by done; exact Hh].
  cbv beta iota. rewrite run_ret.
  eexists. split; [reflexivity|].
  match goal with
  | |- context [buffer_of ?s0 _] =>
    assert (blocks s0 !! h = Some (BValue (S rc) t (Some (mk_ptr b' 0)))) as H1
      by (norm_state; apply lookup_insert_eq);
    assert (blocks s0 !! b' = Some (BBytes (cells_of (bs ++ bs2)))) as H2
      by (norm_state; rewrite lookup_insert_ne by done; exact Hb2');
    assert (blocks s0 !! h2 = Some (BValue (S rc2) t2 (Some (mk_ptr b2 0)))) as H3
      by (norm_state; rewrite lookup_insert_ne by done;
          rewrite Hframe2, Hframe1 by done; exact Hh2);
    assert (blocks s0 !! b2 = Some (BBytes cs2)) as H4
      by (norm_state; rewrite lookup_insert_ne by done;
          rewrite Hframe2, Hframe1 by done; exact Hb2)
  end.
  split; [by eapply buffer_of_lookup|].
  split.
  { erewrite string_of_lookup; [|exact H1|exact H2].
    rewrite <- (app_nil_r (cells_of _)). apply cstr_bytes_cells_of.
    apply cstr_bytes_layout in Hs as [? _].
    apply cstr_bytes_layout in Hs2 as [? _].
    by rewrite not_elem_of_app. }
  split; [|norm_state; congruence].
  erewrite string_of_lookup; [exact Hs2|exact H3|exact H4].
Qed.

Lemma c_string_append_string_witness :
  ∃ st' : state,
    c_string_append [str_value 0; str_value 2] 1 (example_state [Grant])
      = Ok ([str_value 0; str_value 2], st') ∧
    buffer_of st' (str_value 0)
      = Some (cells_of (bytes_of "hello" ++ bytes_of "XYZ")) ∧
    string_of st' (str_value 0) = Some (bytes_of "hello" ++ bytes_of "XYZ") ∧
    string_of st' (str_value 2) = Some (bytes_of "XYZ") ∧
    console st' = console (example_state [Grant]).
Proof.
  apply (c_string_append_string 0 1 (cells_of (bytes_of "hello")) (bytes_of "hello")
           2 3 (cells_of (bytes_of "XYZ")) (bytes_of "XYZ") [] 1
           (example_state [Grant]) Grant []).
  - reflexivity.
  - reflexivity.
  - reflexivity.
  - reflexivity.
  - discriminate.
  - vm_compute. reflexivity.
  - reflexivity.
  - discriminate.
Defined.

(** X5: when the reallocation is refused, [<<] returns with the
    registers, every block of the heap and the console as they were,
    whatever the operand is (a string object or a value of any other
    type): the receiver keeps its bytes and its length. *)
Theorem c_string_append_realloc_failure (h b : nat) (cs : list cell) (bs : list byte)
    (v2 : mrb_value) (rest : list mrb_value) (argc : Z) (st : state) :
  string_object st h = Some (b, cs) → cstr_bytes cs = Some bs →
  tt v2 ≠ MRB_TT_STRING ∨
    (∃ h2 b2 cs2 bs2, v2 = str_value h2 ∧ string_object st h2 = Some (b2, cs2) ∧
                      cstr_bytes cs2 = Some bs2) →
  next_refused (oracle st) = true →
  ∃ st' : state,
    c_string_append (str_value h :: v2 :: rest) argc st
      = Ok (str_value h :: v2 :: rest, st') ∧
    blocks st' = blocks st ∧
    console st' = console st ∧
    string_of st' (str_value h) = Some bs.
Proof.
  intros Hobj Hs Hv2 Href.
  destruct (string_object_inv _ _ _ _ Hobj) as ([rc [t Hh]] & Hb & Hne).
  assert (string_of st (str_value h) = Some bs) as Hread
    by (erewrite string_of_lookup; [exact Hs|exact Hh|exact Hb]).
  unfold c_string_append. mrun.
  (erewrite MRBC_STRING_CSTR_run; [|reflexivity|exact Hh]); cbv beta iota.
  rewrite run_bind.
  (erewrite strlen_run; [|exact Hb|simpl; lia|exact Hs]); cbv beta iota.
  destruct Hv2 as [Htt|(h2 & b2 & cs2 & bs2 & -> & Hobj2 & Hs2)].
  - rewrite (bool_decide_eq_false_2 _ Htt). mred.
    (erewrite MRBC_STRING_CSTR_run; [|reflexivity|exact Hh]); cbv beta iota.
    mred. rewrite (mrbc_realloc_refused_run b _ cs st Hb Href). cbv beta iota.
    rewrite run_ret. eexists. split; [reflexivity|]. done.
  - destruct (string_object_inv _ _ _ _ Hobj2) as ([rc2 [t2 Hh2]] & Hb2 & Hne2).
    rewrite !bool_decide_eq_true_2 by done. mred.
    (erewrite MRBC_STRING_CSTR_run; [|reflexivity|exact Hh2]); cbv beta iota.
    mred.
    (erewrite strlen_run; [|exact Hb2|simpl; lia|exact Hs2]); cbv beta iota.
    mred.
    (erewrite MRBC_STRING_CSTR_run; [|reflexivity|exact Hh]); cbv beta iota.
    mred. rewrite (mrbc_realloc_refused_run b _ cs st Hb Href). cbv beta iota.
    rewrite run_ret. eexists. split; [reflexivity|]. done.
Qed.

Lemma c_string_append_realloc_failure_witness :
  ∃ st' : state,
    c_string_append [str_value 0; int_value 33] 1 (foo_state [Refuse])
      = Ok ([str_value 0; int_value 33], st') ∧
    blocks st' = blocks (foo_state [Refuse]) ∧
    console st' = console (foo_state [Refuse]) ∧
    string_of st' (str_value 0) = Some (bytes_of "foo").
Proof.
  apply (c_string_append_realloc_failure 0 1 (cells_of (bytes_of "foo"))
           (bytes_of "foo") (int_value 33) [] 1 (foo_state [Refuse])).
  - reflexivity.
  - reflexivity.
  - left. simpl. discriminate.
  - reflexivity.
Defined.

(** X6: appending a string object to itself when the allocator
    relocates the buffer leaves defined behaviour: the operand's bytes
    are read through the handle's old buffer pointer, which is updated
    only at the end, after the block behind it has been released. *)
Theorem c_string_append_self_relocated (h b : nat) (cs : list cell) (bs : list byte)
    (rest : list mrb_value) (argc : Z) (st : state) (os : list outcome) :
  string_object st h = Some (b, cs) → cstr_bytes cs = Some bs →
  2 * Z.of_nat (length bs) < INT_MAX →
  oracle st = Grant :: os →
  c_string_append (str_value h :: str_value h :: rest) argc st = Fault Dangling.
Proof.
  intros Hobj Hs Hlen Ho.
  destruct (string_object_inv _ _ _ _ Hobj) as ([rc [t Hh]] & Hb & Hne).
  unfold INT_MAX in Hlen.
  set (L := Z.of_nat (length bs)) in *.
  assert (wrap32 L = L ∧ wrap32 (L + L) = L + L ∧
          wrap32 (L + L + 1) = L + L + 1 ∧ wrap32 (L + 1) = L + 1)
    as (W1 & W2 & W3 & W4).
  { repeat split; apply wrap32_small; unfold int_range, INT_MIN, INT_MAX; lia. }
  assert (0 <= L + L + 1 ∧ L + 1 ≠ 0 ∧ 0 <= L + 1) as (P1 & P2 & P3)
    by (unfold L; lia).
  unfold c_string_append. mrun.
  (erewrite MRBC_STRING_CSTR_run; [|reflexivity|exact Hh]); cbv beta iota.
  rewrite run_bind.
  (erewrite strlen_run; [|exact Hb|simpl; lia|exact Hs]); cbv beta iota.
  rewrite !bool_decide_eq_true_2 by done. mred.
  (erewrite MRBC_STRING_CSTR_run; [|reflexivity|exact Hh]); cbv beta iota.
  mred.
  (erewrite strlen_run; [|exact Hb|simpl; lia|exact Hs]); cbv beta iota.
  mred.
  (erewrite MRBC_STRING_CSTR_run; [|reflexivity|exact Hh]); cbv beta iota.
  mred. fold L. rewrite W1, W2, W3, W4.
  destruct (mrbc_realloc_relocated b (L + L + 1) cs st os Hb Ho P1)
    as (b' & st1 & Hre & Hfresh & Hgone & Hframe).
  rewrite Hre. cbv beta iota. mred.
  assert (h ≠ b') as Hhb' by congruence.
  (erewrite MRBC_STRING_CSTR_run;
     [|reflexivity|rewrite Hframe by done; exact Hh]); cbv beta iota.
  mred. unfold memcpy, memmove. rewrite run_bind.
  unfold load_cells.
  destruct (Z.eqb_spec (L + 1) 0); [done|].
  destruct (Z.ltb_spec (L + 1) 0); [lia|].
  rewrite run_bind. unfold lookup_bytes. cbn [pblock]. rewrite Hgone. reflexivity.
Qed.

Lemma c_string_append_self_relocated_witness :
  c_string_append [str_value 0; str_value 0] 1 (foo_state [Grant]) = Fault Dangling.
Proof.
  apply (c_string_append_self_relocated 0 1 (cells_of (bytes_of "foo"))
           (bytes_of "foo") [] 1 (foo_state [Grant]) []).
  - reflexivity.
  - reflexivity.
  - vm_compute. reflexivity.
  - reflexivity.
Defined.

(** ** Constructor and destructor *)

Lemma mrbc_string_delete_run (h b rc : nat) (t : option mrb_vtype)
    (bl : block) (st : state) :
  blocks st !! h = Some (BValue rc t (Some (mk_ptr b 0))) →
  blocks st !! b = Some bl → h ≠ b →
  mrbc_string_delete (str_value h) st =
  Ok (Datatypes.tt, set_blocks (delete h) (set_blocks (delete b) st)).
Proof.
  intros Hh Hb Hne. unfold mrbc_string_delete. mred.
  rewrite (lookup_value_run _ _ _ _ _ Hh). cbv beta iota. mred.
  unfold mrbc_raw_free. cbn [poff pblock Z.eqb].
  rewrite (free_block_run _ _ _ Hb). cbv beta iota.
  erewrite free_block_run;
    [|norm_state; rewrite lookup_delete_ne by done; exact Hh].
  reflexivity.
Qed.

(** X7: construction followed by destruction is a round trip on the
    heap: the object a granted constructor returns is destroyed without
    fault, and afterwards the live blocks are exactly those from before
    the construction. *)
Theorem mrbc_string_new_delete (src : option ptr) (len : Z) (l : list cell)
    (st : state) (o1 o2 : outcome) (os : list outcome) :
  oracle st = o1 :: o2 :: os → o1 ≠ Refuse → o2 ≠ Refuse →
  0 <= len < INT_MAX →
  match src with
  | Some p => load_cells p len st = Ok (l, st)
  | None => l = []
  end →
  ∃ (value : mrb_value) (st1 st2 : state),
    mrbc_string_new src len st = Ok (value, st1) ∧
    mrbc_string_delete value st1 = Ok (Datatypes.tt, st2) ∧
    blocks st2 = blocks st ∧
    console st2 = console st.
Proof.
  intros Ho Hg1 Hg2 Hlen Hsrc.
  destruct (mrbc_string_new_run src len l st o1 o2 os Ho Hg1 Hg2 Hlen Hsrc)
    as (h & b & st1 & Hrun & Hh & Hb & Hne & Hbl & _ & Hc).
  exists (str_value h), st1. eexists. split; [exact Hrun|].
  split.
  - eapply mrbc_string_delete_run; [| |exact Hne].
    + rewrite Hbl. apply lookup_insert_eq.
    + rewrite Hbl, lookup_insert_ne by done. apply lookup_insert_eq.
  - norm_state. split; [|done]. rewrite Hbl.
    apply map_eq. intros i.
    destruct (decide (i = h)) as [->|Hih].
    { by rewrite lookup_delete_eq. }
    rewrite lookup_delete_ne by done.
    destruct (decide (i = b)) as [->|Hib].
    { by rewrite lookup_delete_eq. }
    rewrite lookup_delete_ne, !lookup_insert_ne by done. done.
Qed.

Lemma mrbc_string_new_delete_witness :
  ∃ (value : mrb_value) (st1 st2 : state),
    mrbc_string_new (Some (mk_ptr 1 0)) 5 (example_state all_granted)
      = Ok (value, st1) ∧
    mrbc_string_delete value st1 = Ok (Datatypes.tt, st2) ∧
    blocks st2 = blocks (example_state all_granted) ∧
    console st2 = console (example_state all_granted).
Proof.
  apply (mrbc_string_new_delete (Some (mk_ptr 1 0)) 5
           (Some <$> bytes_of "hello") (example_state all_granted)
           Grant Grant [Grant; Grant]).
  - reflexivity.
  - discriminate.
  - discriminate.
  - unfold INT_MAX. lia.
  - vm_compute. reflexivity.
Defined.

(** X8: the destructor releases exactly the buffer and the handle of
    the object and no other block; after it, every use of the value
    through its handle, a second destruction included, leaves defined
    behaviour. *)
Theorem mrbc_string_delete_once (h b : nat) (cs : list cell) (st : state) :
  string_object st h = Some (b, cs) →
  ∃ st' : state,
    mrbc_string_delete (str_value h) st = Ok (Datatypes.tt, st') ∧
    blocks st' = delete h (delete b (blocks st)) ∧
    console st' = console st ∧
    mrbc_string_delete (str_value h) st' = Fault Dangling ∧
    MRBC_STRING_CSTR (str_value h) st' = Fault Dangling.
Proof.
  intros ([rc [t Hh]] & Hb & Hne)%string_object_inv.
  eexists. split; [by eapply mrbc_string_delete_run|].
  norm_state. split; [done|]. split; [done|].
  assert (delete h (delete b (blocks st)) !! h = None) as Hgone
    by apply lookup_delete_eq.
  split.
  - unfold mrbc_string_delete. mred. unfold lookup_value. cbn [blocks].
    by rewrite Hgone.
  - unfold MRBC_STRING_CSTR. mred. unfold lookup_value. cbn [blocks].
    by rewrite Hgone.
Qed.

Lemma mrbc_string_delete_once_witness :
  ∃ st' : state,
    mrbc_string_delete (str_value 0) (example_state []) = Ok (Datatypes.tt, st') ∧
    blocks st' = delete 0%nat (delete 1%nat (blocks (example_state []))) ∧
    console st' = console (example_state []) ∧
    mrbc_string_delete (str_value 0) st' = Fault Dangling ∧
    MRBC_STRING_CSTR (str_value 0) st' = Fault Dangling.
Proof.
  apply (mrbc_string_delete_once 0 1 (cells_of (bytes_of "hello")) (example_state [])).
  reflexivity.
Defined.

Lemma mrbc_string_new_cstr_roundtrip_witness :
  ∃ (h : nat) (st' : state),
    mrbc_string_new_cstr (Some (mk_ptr 1 2)) (example_state all_granted)
      = Ok (str_value h, st') ∧
    blocks (example_state all_granted) !! h = None ∧
    string_of st' (str_value h) = Some (bytes_of "llo").
Proof.
  apply (mrbc_string_new_cstr_roundtrip (mk_ptr 1 2) (cells_of (bytes_of "hello"))
           (bytes_of "llo") (example_state all_granted) Grant Grant [Grant; Grant]).
  - reflexivity.
  - simpl. lia.
  - reflexivity.
  - vm_compute. reflexivity.
  - reflexivity.
  - discriminate.
  - discriminate.
Defined.

(** X10: the constructor by C string, given a null source and a
    granted allocator, returns a fresh object whose buffer is the
    single terminator byte: the empty string. *)
Theorem mrbc_string_new_cstr_null (st : state) (o1 o2 : outcome) (os : list outcome) :
  oracle st = o1 :: o2 :: os → o1 ≠ Refuse → o2 ≠ Refuse →
  ∃ (h : nat) (st' : state),
    mrbc_string_new_cstr None st = Ok (str_value h, st') ∧
    blocks st !! h = None ∧
    buffer_of st' (str_value h) = Some [Some x00] ∧
    string_of st' (str_value h) = Some [].
Proof.
  intros Ho Hg1 Hg2. unfold mrbc_string_new_cstr. mred.
  destruct (mrbc_string_new_run None 0 [] st o1 o2 os Ho Hg1 Hg2
              ltac:(unfold INT_MAX; lia) eq_refl)
    as (h & b & st' & Hrun & Hh & Hb & Hne & Hbl & _).
  exists h, st'. split; [done|]. split; [done|].
  assert (blocks st' !! h = Some (BValue 1 (Some MRB_TT_STRING) (Some (mk_ptr b 0))))
    as H1 by (rewrite Hbl; apply lookup_insert_eq).
  assert (blocks st' !! b = Some (BBytes [Some x00])) as H2.
  { rewrite Hbl, lookup_insert_ne by done. apply lookup_insert_eq. }
  split; [by eapply buffer_of_lookup|].
  erewrite string_of_lookup; [|exact H1|exact H2]. reflexivity.
Qed.

Lemma mrbc_string_new_cstr_null_witness :
  ∃ (h : nat) (st' : state),
    mrbc_string_new_cstr None (example_state all_granted) = Ok (str_value h, st') ∧
    blocks (example_state all_granted) !! h = None ∧
    buffer_of st' (str_value h) = Some [Some x00] ∧
    string_of st' (str_value h) = Some [].
Proof.
  apply (mrbc_string_new_cstr_null (example_state all_granted) Grant Grant
           [Grant; Grant]).
  - reflexivity.
  - discriminate.
  - discriminate.
Defined.

(** ** Byte-code extraction, the other bytes *)

(** X11: [ord] of the empty string returns 0, the terminator, whatever
    the signedness of plain [char]; nothing is reported. *)
Theorem c_string_ord_empty (char_signed : bool) (h b : nat) (cs : list cell)
    (rest : list mrb_value) (argc : Z) (st : state) :
  string_object st h = Some (b, cs) →
  cstr_bytes cs = Some [] →
  ∃ st', c_string_ord char_signed (str_value h :: rest) argc st =
         Ok (int_value 0 :: rest, st').
Proof.
  intros Hobj Hs.
  pose proof (cstr_bytes_terminator cs [] Hs) as Hc0. simpl in Hc0.
  destruct (c_string_ord_run char_signed h b cs x00 rest argc st Hobj Hc0)
    as [st' Hrun].
  exists st'. rewrite Hrun. by destruct char_signed.
Qed.

Lemma c_string_ord_empty_witness :
  ∃ st', c_string_ord true [str_value 4] 0 (example_state []) =
         Ok ([int_value 0], st').
Proof.
  apply (c_string_ord_empty true 4 5 (cells_of []) [] 0 (example_state [])).
  - reflexivity.
  - reflexivity.
Defined.

(** X12: where plain [char] is signed, [ord] of a string whose first
    byte is 128 or more returns that byte minus 256, a negative
    number. *)
Theorem c_string_ord_signed_high (h b : nat) (cs : list cell) (c0 : byte)
    (rest : list mrb_value) (argc : Z) (st : state) :
  string_object st h = Some (b, cs) →
  cs !! 0%nat = Some (Some c0) →
  128 <= uint8_to_Z c0 →
  ∃ st', c_string_ord true (str_value h :: rest) argc st =
         Ok (int_value (uint8_to_Z c0 - 256) :: rest, st') ∧
         uint8_to_Z c0 - 256 < 0.
Proof.
  intros Hobj Hc0 Hhigh.
  destruct (c_string_ord_run true h b cs c0 rest argc st Hobj Hc0) as [st' Hrun].
  exists st'. rewrite Hrun. unfold char_to_int.
  destruct (Z.leb_spec 128 (uint8_to_Z c0)); [|lia].
  split; [done|]. pose proof (uint8_to_Z_range c0). lia.
Qed.

Lemma c_string_ord_signed_high_witness :
  ∃ st', c_string_ord true [str_value 0] 0 high_byte_state =
         Ok ([int_value (uint8_to_Z xff - 256)], st') ∧
         uint8_to_Z xff - 256 < 0.
Proof.
  apply (c_string_ord_signed_high 0 1 (cells_of [xff]) xff [] 0 high_byte_state).
  - reflexivity.
  - reflexivity.
  - vm_compute. discriminate.
Defined.

Lemma c_string_ord_low_witness :
  ∃ st', c_string_ord true [str_value 0] 0 (example_state []) =
         Ok ([int_value (uint8_to_Z "h")], st').
Proof.
  apply (c_string_ord_low true 0 1 (cells_of (bytes_of "hello")) "h" [] 0
           (example_state [])).
  - reflexivity.
  - reflexivity.
  - vm_compute. reflexivity.
Defined.

(** ** Argument shapes that are not supported *)

(** X13: [[]] called with anything but one integer or two integers
    reports that the case is not supported and changes nothing else:
    the registers and the heap are as before. *)
Theorem c_string_slice_unsupported (v0 v1 v2 : mrb_value) (rest : list mrb_value)
    (argc : Z) (st : state) :
  ¬ (argc = 1 ∧ tt v1 = MRB_TT_FIXNUM) →
  ¬ (argc = 2 ∧ tt v1 = MRB_TT_FIXNUM ∧ tt v2 = MRB_TT_FIXNUM) →
  c_string_slice (v0 :: v1 :: v2 :: rest) argc st =
  Ok (v0 :: v1 :: v2 :: rest,
      mk_state (blocks st) (oracle st)
               (console st ++ ["Not support such case in String#[]." +:+ LF])).
Proof.
  intros H1 H2. unfold c_string_slice, andM, arg_tt_is. mrun.
  assert ((if argc =? 1 then
             a ← GET_ARG (v0 :: v1 :: v2 :: rest) 1;
             mret (bool_decide (tt a = MRB_TT_FIXNUM))
           else mret false) st = Ok (false, st)) as E1.
  { destruct (Z.eqb_spec argc 1) as [E|]; [|done].
    mrun. rewrite bool_decide_eq_false_2; [done|]. intros Ht. by apply H1. }
  rewrite E1. cbv beta iota. mrun.
  assert ((if argc =? 2 then
             x ← (a ← GET_ARG (v0 :: v1 :: v2 :: rest) 1;
                  mret (bool_decide (tt a = MRB_TT_FIXNUM)));
             if (x : bool) then
               a ← GET_ARG (v0 :: v1 :: v2 :: rest) 2;
               mret (bool_decide (tt a = MRB_TT_FIXNUM))
             else mret false
           else mret false) st = Ok (false, st)) as E2.
  { destruct (Z.eqb_spec argc 2) as [E|]; [|done].
    mrun. case_bool_decide as T1; cbv beta iota; [|done].
    mrun. rewrite bool_decide_eq_false_2; [done|]. intros T2. by apply H2. }
  rewrite E2. cbv beta iota.
  rewrite run_bind, console_print_run. cbv beta iota. by rewrite run_ret.
Qed.

Lemma c_string_slice_unsupported_witness :
  c_string_slice [str_value 0; str_value 2; int_value 1] 1 (example_state []) =
  Ok ([str_value 0; str_value 2; int_value 1],
      mk_state (blocks (example_state [])) (oracle (example_state []))
               (console (example_state [])
                  ++ ["Not support such case in String#[]." +:+ LF])).
Proof.
  apply (c_string_slice_unsupported (str_value 0) (str_value 2) (int_value 1) [] 1
           (example_state [])).
  - intros [_ H]. discriminate H.
  - intros [H _]. discriminate H.
Defined.

(** X14: [[]=] called with anything but (integer, string) or (integer,
    integer, string) reports that the case is not supported and changes
    nothing else. *)
Theorem c_string_insert_unsupported (v0 v1 v2 v3 : mrb_value) (rest : list mrb_value)
    (argc : Z) (st : state) :
  ¬ (argc = 2 ∧ tt v1 = MRB_TT_FIXNUM ∧ tt v2 = MRB_TT_STRING) →
  ¬ (argc = 3 ∧ tt v1 = MRB_TT_FIXNUM ∧ tt v2 = MRB_TT_FIXNUM ∧
     tt v3 = MRB_TT_STRING) →
  c_string_insert (v0 :: v1 :: v2 :: v3 :: rest) argc st =
  Ok (v0 :: v1 :: v2 :: v3 :: rest,
      mk_state (blocks st) (oracle st) (console st ++ ["Not support" +:+ LF])).
Proof.
  intros H1 H2. unfold c_string_insert, andM, arg_tt_is. mrun.
  assert ((if argc =? 2 then
             x ← (a ← GET_ARG (v0 :: v1 :: v2 :: v3 :: rest) 1;
                  mret (bool_decide (tt a = MRB_TT_FIXNUM)));
             if (x : bool) then
               a ← GET_ARG (v0 :: v1 :: v2 :: v3 :: rest) 2;
               mret (bool_decide (tt a = MRB_TT_STRING))
             else mret false
           else mret false) st = Ok (false, st)) as E1.
  { destruct (Z.eqb_spec argc 2) as [E|]; [|done].
    mrun. case_bool_decide as T1; cbv beta iota; [|done].
    mrun. rewrite bool_decide_eq_false_2; [done|]. intros T2. by apply H1. }
  rewrite E1. cbv beta iota. mrun.
  assert ((if argc =? 3 then
             x ← (a ← GET_ARG (v0 :: v1 :: v2 :: v3 :: rest) 1;
                  mret (bool_decide (tt a = MRB_TT_FIXNUM)));
             if (x : bool) then
               x0 ← (a ← GET_ARG (v0 :: v1 :: v2 :: v3 :: rest) 2;
                     mret (bool_decide (tt a = MRB_TT_FIXNUM)));
               if (x0 : bool) then
                 a ← GET_ARG (v0 :: v1 :: v2 :: v3 :: rest) 3;
                 mret (bool_decide (tt a = MRB_TT_STRING))
               else mret false
             else mret false
           else mret false) st = Ok (false, st)) as E2.
  { destruct (Z.eqb_spec argc 3) as [E|]; [|done].
    mrun. case_bool_decide as T1; cbv beta iota; [|done].
    mrun. case_bool_decide as T2; cbv beta iota; [|done].
    mrun. rewrite bool_decide_eq_false_2; [done|]. intros T3. by apply H2. }
  rewrite E2. cbv beta iota. mrun.
  rewrite console_print_run. cbv beta iota. by rewrite run_ret.
Qed.

Lemma c_string_insert_unsupported_witness :
  c_string_insert [str_value 0; int_value 1; int_value 2; int_value 3] 3
    (example_state []) =
  Ok ([str_value 0; int_value 1; int_value 2; int_value 3],
      mk_state (blocks (example_state [])) (oracle (example_state []))
               (console (example_state []) ++ ["Not support" +:+ LF])).
Proof.
  apply (c_string_insert_unsupported (str_value 0) (int_value 1) (int_value 2)
           (int_value 3) [] 3 (example_state [])).
  - intros [H _]. discriminate H.
  - intros (_ & _ & _ & H). discriminate H.
Defined.

(** ** Reads whose result cannot be allocated *)

(** X15: when the constructor cannot complete, the single-index read of
    a position inside the string returns without touching the registers,
    the heap or the console: register 0 still holds the receiver (not
    nil), and the receiver is not released. *)
Theorem c_string_slice_index_alloc_failure (h b : nat) (cs : list cell)
    (bs : list byte) (idx : Z) (rest : list mrb_value) (st : state) :
  string_object st h = Some (b, cs) →
  cstr_bytes cs = Some bs →
  Z.of_nat (length bs) <= INT_MAX →
  int_range idx →
  let L := Z.of_nat (length bs) in
  let i := if idx <? 0 then idx + L else idx in
  0 <= i < L →
  constructor_refused (oracle st) = true →
  ∃ st' : state,
    c_string_slice (str_value h :: int_value idx :: rest) 1 st
      = Ok (str_value h :: int_value idx :: rest, st') ∧
    blocks st' = blocks st ∧
    console st' = console st.
Proof.
  intros Hobj Hs Hlen Hidx L i Hin Href.
  destruct (string_object_inv _ _ _ _ Hobj) as ([rc [t Hh]] & Hb & Hne).
  assert (wrap32 L = L) as HwL.
  { apply wrap32_small. unfold int_range, INT_MIN, INT_MAX in *. lia. }
  assert (idx < 0 → wrap32 (idx + L) = idx + L) as Hwi.
  { intros. apply wrap32_small. unfold int_range, INT_MIN, INT_MAX in *. lia. }
  destruct (lookup_lt_is_Some_2 bs (Z.to_nat i)) as [c Hc]; [lia|].
  destruct (cstr_bytes_lookup cs bs _ c Hs Hc) as [Hcell Hcz].
  assert (0 < uint8_to_Z c) as Hpos.
  { pose proof (uint8_to_Z_range c).
    destruct (decide (uint8_to_Z c = 0)) as [E|]; [|lia].
    by apply uint8_zero_iff in E. }
  assert (load_byte (ptr_add (mk_ptr b 0) i) st = Ok (c, st)) as Hload.
  { eapply load_byte_run; [exact Hb|simpl; lia|].
    simpl. by replace (0 + i) with i by lia. }
  destruct (mrbc_string_new_refused None 1 st Href) as (st' & Hnew & Hbl & Hco).
  exists st'. split; [|done].
  unfold c_string_slice.
  rewrite run_bind; erewrite GET_ARG_run by reflexivity; cbv beta iota.
  unfold andM, arg_tt_is. mred. change (1 =? 1) with true. cbv beta iota.
  rewrite run_bind; erewrite GET_ARG_run by reflexivity; cbv beta iota.
  mred. rewrite bool_decide_eq_true_2 by done.
  rewrite run_bind; erewrite GET_ARG_run by reflexivity; cbv beta iota.
  rewrite run_bind.
  (erewrite MRBC_STRING_CSTR_run; [|reflexivity|exact Hh]); cbv beta iota.
  rewrite run_bind.
  (erewrite strlen_run; [|exact Hb|simpl; lia|exact Hs]); cbv beta iota.
  fold L. rewrite HwL. mred.
  assert ((if 0 <=? idx
           then if idx <? L
                then b0 ← load_byte (ptr_add (mk_ptr b 0) idx); mret (uint8_to_Z b0)
                else mret 0
           else if 0 <=? wrap32 (idx + L)
                then b0 ← load_byte (ptr_add (mk_ptr b 0) (wrap32 (idx + L)));
                     mret (uint8_to_Z b0)
                else mret 0) st = Ok (uint8_to_Z c, st)) as Hch.
  { subst i. destruct (Z.ltb_spec idx 0).
    - destruct (Z.leb_spec 0 idx); [lia|].
      rewrite Hwi by lia.
      destruct (Z.leb_spec 0 (idx + L)); [|lia].
      by rewrite run_bind, Hload.
    - destruct (Z.leb_spec 0 idx); [|lia].
      destruct (Z.ltb_spec idx L); [|lia].
      by rewrite run_bind, Hload. }
  rewrite Hch. cbv beta iota.
  destruct (Z.ltb_spec 0 (uint8_to_Z c)); [|lia].
  mstep Hnew. mred. reflexivity.
Qed.

Lemma c_string_slice_index_alloc_failure_witness :
  ∃ st' : state,
    c_string_slice [str_value 0; int_value (-1)] 1 (example_state [Grant; Refuse])
      = Ok ([str_value 0; int_value (-1)], st') ∧
    blocks st' = blocks (example_state [Grant; Refuse]) ∧
    console st' = console (example_state [Grant; Refuse]).
Proof.
  apply (c_string_slice_index_alloc_failure 0 1 (cells_of (bytes_of "hello"))
           (bytes_of "hello") (-1) [] (example_state [Grant; Refuse])).
  - reflexivity.
  - reflexivity.
  - vm_compute. discriminate.
  - unfold int_range, INT_MIN, INT_MAX. lia.
  - simpl. lia.
  - reflexivity.
Defined.

(** X16: the same for the range read: with a non-negative adjusted
    index and clamped span, a constructor that cannot complete leaves
    the registers, the heap and the console as they were. *)
Theorem c_string_slice_range_alloc_failure (h b : nat) (cs : list cell)
    (bs : list byte) (idx span : Z) (rest : list mrb_value) (st : state) :
  string_object st h = Some (b, cs) →
  cstr_bytes cs = Some bs →
  Z.of_nat (length bs) < INT_MAX →
  int_range idx → int_range span →
  let L := Z.of_nat (length bs) in
  let i := if idx <? 0 then idx + L else idx in
  let rlen := Z.min span (L - i) in
  0 <= i → 0 <= rlen →
  constructor_refused (oracle st) = true →
  ∃ st' : state,
    c_string_slice (str_value h :: int_value idx :: int_value span :: rest) 2 st
      = Ok (str_value h :: int_value idx :: int_value span :: rest, st') ∧
    blocks st' = blocks st ∧
    console st' = console st.
Proof.
  intros Hobj Hs Hlen Hidx Hspan L i rlen Hi0 Hr0 Href.
  destruct (string_object_inv _ _ _ _ Hobj) as ([rc [t Hh]] & Hb & Hne).
  unfold int_range, INT_MIN, INT_MAX in Hidx, Hspan, Hlen.
  assert (wrap32 L = L) as HwL.
  { apply wrap32_small. unfold int_range, INT_MIN, INT_MAX. lia. }
  assert ((if idx <? 0 then wrap32 (idx + L) else idx) = i) as Hi.
  { subst i. destruct (Z.ltb_spec idx 0); [|done].
    apply wrap32_small. unfold int_range, INT_MIN, INT_MAX. lia. }
  assert ((if span <? wrap32 (L - i) then span else wrap32 (L - i)) = rlen) as Hr.
  { subst rlen.
    assert (i <= INT_MAX) as Hmax.
    { subst i. unfold INT_MAX. destruct (Z.ltb_spec idx 0); lia. }
    unfold INT_MAX in Hmax.
    rewrite wrap32_small by (unfold int_range, INT_MIN, INT_MAX; lia).
    destruct (Z.ltb_spec span (L - i)); lia. }
  destruct (mrbc_string_new_refused (Some (ptr_add (mk_ptr b 0) i)) rlen st Href)
    as (st' & Hnew & Hbl & Hco).
  exists st'. split; [|done].
  unfold c_string_slice, andM, arg_tt_is.
  mrun. change (2 =? 1) with false. cbv beta iota.
  mrun. change (2 =? 2) with true. cbv beta iota.
  mrun. rewrite !bool_decide_eq_true_2 by done. cbv beta iota.
  mrun. rewrite !bool_decide_eq_true_2 by done. cbv beta iota.
  mrun.
  (erewrite MRBC_STRING_CSTR_run; [|reflexivity|exact Hh]); cbv beta iota.
  rewrite run_bind.
  (erewrite strlen_run; [|exact Hb|simpl; lia|exact Hs]); cbv beta iota.
  fold L. rewrite HwL. mred. cbv zeta. rewrite Hi.
  destruct (Z.leb_spec 0 i); [|lia].
  mred. rewrite Hr.
  destruct (Z.leb_spec 0 rlen); [|lia].
  rewrite run_bind.
  (erewrite MRBC_STRING_CSTR_run; [|reflexivity|exact Hh]); cbv beta iota.
  mstep Hnew. mred. reflexivity.
Qed.

Lemma c_string_slice_range_alloc_failure_witness :
  ∃ st' : state,
    c_string_slice [str_value 0; int_value 1; int_value 3] 2 (example_state [])
      = Ok ([str_value 0; int_value 1; int_value 3], st') ∧
    blocks st' = blocks (example_state []) ∧
    console st' = console (example_state []).
Proof.
  apply (c_string_slice_range_alloc_failure 0 1 (cells_of (bytes_of "hello"))
           (bytes_of "hello") 1 3 [] (example_state [])).
  - reflexivity.
  - reflexivity.
  - vm_compute. reflexivity.
  - unfold int_range, INT_MIN, INT_MAX. lia.
  - unfold int_range, INT_MIN, INT_MAX. lia.
  - simpl. lia.
  - simpl. lia.
  - reflexivity.
Defined.

(** ** Indexed splice, the other paths *)

(** X17: when the reallocation is refused, an in-range [[]=] returns
    with the registers, every block of the heap and the console as they
    were: the receiver keeps its bytes.  The replacement may be the
    receiver itself. *)
Theorem c_string_insert_realloc_failure (h b : nat) (cs : list cell) (bs : list byte)
    (h2 b2 : nat) (cs2 : list cell) (bs2 : list byte)
    (nth : Z) (span : option Z) (rest : list mrb_value) (st : state) :
  string_object st h = Some (b, cs) → cstr_bytes cs = Some bs →
  string_object st h2 = Some (b2, cs2) → cstr_bytes cs2 = Some bs2 →
  Z.of_nat (length bs) <= INT_MAX → Z.of_nat (length bs2) <= INT_MAX →
  int_range nth →
  ¬ index_error (Z.of_nat (length bs)) nth (span_or_default span) →
  next_refused (oracle st) = true →
  ∃ st' : state,
    c_string_insert (insert_args h nth span h2 rest) (insert_argc span) st
      = Ok (insert_args h nth span h2 rest, st') ∧
    blocks st' = blocks st ∧
    console st' = console st ∧
    string_of st' (str_value h) = Some bs.
Proof.
  intros Hobj Hs Hobj2 Hs2 Hlen Hlen2 Hnth Hok Href.
  destruct (string_object_inv _ _ _ _ Hobj) as ([rc [t Hh]] & Hb & Hne).
  assert (string_of st (str_value h) = Some bs) as Hread
    by (erewrite string_of_lookup; [exact Hs|exact Hh|exact Hb]).
  rewrite (c_string_insert_start h b cs bs h2 b2 cs2 bs2 nth span rest st)
    by done.
  destruct (range_check_index_error (Z.of_nat (length bs)) nth (span_or_default span)
              ltac:(unfold INT_MAX in *; lia) Hnth) as [Hcheck _].
  cbv zeta in Hcheck.
  destruct (_ || _ || _) eqn:Echeck; [exfalso; by apply Hok, Hcheck|].
  rewrite run_bind.
  (erewrite MRBC_STRING_CSTR_run; [|reflexivity|exact Hh]); cbv beta iota.
  rewrite run_bind, (mrbc_realloc_refused_run b _ cs st Hb Href). cbv beta iota.
  rewrite run_ret. eexists. split; [reflexivity|]. done.
Qed.

Lemma c_string_insert_realloc_failure_witness :
  ∃ st' : state,
    c_string_insert (insert_args 0 1 (Some 2) 2 []) (insert_argc (Some 2))
        (example_state [Refuse])
      = Ok (insert_args 0 1 (Some 2) 2 [], st') ∧
    blocks st' = blocks (example_state [Refuse]) ∧
    console st' = console (example_state [Refuse]) ∧
    string_of st' (str_value 0) = Some (bytes_of "hello").
Proof.
  apply (c_string_insert_realloc_failure 0 1 (cells_of (bytes_of "hello"))
           (bytes_of "hello") 2 3 (cells_of (bytes_of "XYZ")) (bytes_of "XYZ")
           1 (Some 2) [] (example_state [Refuse])).
  - reflexivity.
  - reflexivity.
  - reflexivity.
  - reflexivity.
  - vm_compute. discriminate.
  - vm_compute. discriminate.
  - unfold int_range, INT_MIN, INT_MAX. lia.
  - unfold index_error, adjusted_index, clamped_span. simpl. lia.
  - reflexivity.
Defined.

(** The numbers of a self-splice. *)
Lemma self_splice_numbers (nL : nat) (i s : Z) :
  0 <= i <= Z.of_nat nL → 0 <= s <= Z.of_nat nL - i →
  let L := Z.of_nat nL in
  let N := Z.to_nat (L + L - s + 1) in
  0 <= L + L - s + 1 ∧ 0 <= L - i - s ∧ 0 <= i + s ∧ 0 <= i + L ∧
  i + s + (L - i - s) <= Z.of_nat N ∧
  i + L + (L - i - s) <= Z.of_nat N.
Proof.
  intros Hi Hs L N.
  assert (Z.of_nat N = L + L - s + 1) as EN by (unfold N, L; lia).
  assert (L = Z.of_nat nL) as HL by reflexivity.
  clearbody N L. lia.
Qed.

(** X18: splicing a non-empty string object into itself when the
    allocator relocates the buffer leaves defined behaviour: the
    replacement bytes are read through the handle's old buffer pointer
    after the block behind it has been released. *)
Theorem c_string_insert_self_relocated (h b : nat) (cs : list cell) (bs : list byte)
    (nth : Z) (span : option Z) (rest : list mrb_value) (st : state)
    (os : list outcome) :
  string_object st h = Some (b, cs) → cstr_bytes cs = Some bs →
  bs ≠ [] →
  2 * Z.of_nat (length bs) < INT_MAX →
  int_range nth →
  ¬ index_error (Z.of_nat (length bs)) nth (span_or_default span) →
  oracle st = Grant :: os →
  c_string_insert (insert_args h nth span h rest) (insert_argc span) st
    = Fault Dangling.
Proof.
  intros Hobj Hs Hbs Hlen Hnth Hok Ho.
  destruct (string_object_inv _ _ _ _ Hobj) as ([rc [t Hh]] & Hb & Hne).
  unfold INT_MAX in Hlen.
  set (L := Z.of_nat (length bs)) in *.
  assert (0 < L) as HLpos by (unfold L; destruct bs; [done|simpl; lia]).
  rewrite (c_string_insert_start h b cs bs h b cs bs nth span rest st)
    by (done || unfold INT_MAX; lia).
  destruct (range_check_index_error L nth (span_or_default span)
              ltac:(unfold INT_MAX; lia) Hnth) as [Hcheck Hsval].
  cbv zeta in Hcheck, Hsval. fold L.
  set (i := adjusted_index L nth) in *.
  set (s := clamped_span L i (span_or_default span)) in *.
  destruct (_ || _ || _) eqn:Echeck; [exfalso; by apply Hok, Hcheck|].
  assert (0 <= i <= L ∧ 0 <= s <= L - i) as [Hi Hsr].
  { unfold index_error in Hok. fold i s in Hok. unfold s, clamped_span in *. lia. }
  rewrite (Hsval ltac:(lia)).
  clear Hcheck Hsval Echeck Hok.
  assert (∀ z, -2147483648 <= z <= 2147483647 → wrap32 z = z) as Hw.
  { intros z Hz. by apply wrap32_small. }
  rewrite (Hw (L + L)), (Hw (L + L - s)), (Hw (L + L - s + 1)),
    (Hw (L - i)), (Hw (L - i - s)) by lia.
  clear Hw.
  destruct (self_splice_numbers (length bs) i s Hi Hsr)
    as (P1 & P2 & P3 & P4 & P5 & P6).
  fold L in P1, P2, P3, P4, P5, P6.
  rewrite run_bind.
  (erewrite MRBC_STRING_CSTR_run; [|reflexivity|exact Hh]); cbv beta iota.
  destruct (mrbc_realloc_relocated b (L + L - s + 1) cs st os Hb Ho P1)
    as (b' & st1 & Hre & Hfresh & Hgone & Hframe).
  destruct (mrbc_realloc_granted b (L + L - s + 1) cs st Grant os Hb Ho
              ltac:(done) P1) as (b'' & st1' & Hre' & Hb' & _).
  rewrite Hre in Hre'. injection Hre' as <- <-.
  mstep Hre.
  assert (h ≠ b') as Hhb' by congruence.
  assert (b ≠ b') as Hbb' by congruence.
  set (R := resize (Z.to_nat (L + L - s + 1)) None cs) in *.
  assert (length R = Z.to_nat (L + L - s + 1)) as HlenR by apply length_resize.
  destruct (memmove_run b' b' (i + L) (i + s) (L - i - s) R R st1 Hb' Hb')
    as (st2 & Hmv & _ & Hframe2 & _ & _);
    [exact P2|exact P3|exact P4|rewrite HlenR; intros _; exact P5
    |rewrite HlenR; exact P6|].
  unfold ptr_add. cbn [pblock poff]. rewrite !Z.add_0_l.
  mstep Hmv.
  rewrite run_bind.
  (erewrite MRBC_STRING_CSTR_run;
     [|reflexivity|rewrite Hframe2, Hframe by done; exact Hh]); cbv beta iota.
  unfold memcpy, memmove. rewrite run_bind.
  unfold load_cells.
  destruct (Z.eqb_spec L 0); [lia|].
  destruct (Z.ltb_spec L 0); [lia|].
  rewrite !run_bind. unfold lookup_bytes. cbv beta. cbn [pblock].
  rewrite Hframe2 by done. rewrite Hgone. reflexivity.
Qed.

Lemma c_string_insert_self_relocated_witness :
  c_string_insert (insert_args 0 0 (Some 1) 0 []) (insert_argc (Some 1))
    (foo_state [Grant]) = Fault Dangling.
Proof.
  apply (c_string_insert_self_relocated 0 1 (cells_of (bytes_of "foo"))
           (bytes_of "foo") 0 (Some 1) [] (foo_state [Grant]) []).
  - reflexivity.
  - reflexivity.
  - discriminate.
  - vm_compute. reflexivity.
  - unfold int_range, INT_MIN, INT_MAX. lia.
  - unfold index_error, adjusted_index, clamped_span. simpl. lia.
  - reflexivity.
Defined.

Lemma c_string_insert_splice_witness :
  ∃ st',
    c_string_insert (insert_args 0 1 (Some 2) 2 []) (insert_argc (Some 2))
        (example_state [Grant])
      = Ok (insert_args 0 1 (Some 2) 2 [], st') ∧
    buffer_of st' (str_value 0) = Some (cells_of (bytes_of "hXYZlo")) ∧
    string_of st' (str_value 0) = Some (bytes_of "hXYZlo") ∧
    Z.of_nat (length (bytes_of "hXYZlo")) = 5 - 2 + 3.
Proof.
  apply (c_string_insert_splice 0 1 (cells_of (bytes_of "hello")) (bytes_of "hello")
           2 3 (cells_of (bytes_of "XYZ")) (bytes_of "XYZ")
           1 (Some 2) [] (example_state [Grant]) Grant []).
  - reflexivity.
  - reflexivity.
  - reflexivity.
  - reflexivity.
  - discriminate.
  - vm_compute. reflexivity.
  - unfold int_range, INT_MIN, INT_MAX. lia.
  - unfold index_error, adjusted_index, clamped_span. simpl. lia.
  - left. unfold adjusted_index, clamped_span. simpl. lia.
  - reflexivity.
  - discriminate.
Defined.
